(** * RSE-ESNB: the CEE record enricher and the projection engine of [app.py]

    A shallow embedding of [load_and_process_data] (app.py, lines 117-222) and
    of the projection loop of the "Projections Futures" tab (lines 632-662),
    with the properties of the specification stated over them.

    Conventions of the embedding.
    - A pandas [DataFrame] is column-major, as in the source: a row index and a
      finite map from column label to a list of cells.  The frame is taken
      after line 121 (labels already stripped, pairwise distinct).
    - Numbers are exact rationals ([Q]): the binary64 rounding of the Python
      floats is abstracted.
    - Text is a byte string; Python's [strip], [upper] and the regex class
      [\d] are modelled on the ASCII range, other bytes are left alone.
    - [astype(str)] renders a missing cell as the text [nan] (pandas 1.x/2.x).
    - A date cell is a calendar day (the time of day is not modelled).  A
      pandas [Timestamp] counts nanoseconds in 64 bits, so that
      [pd.to_datetime(.., errors='coerce')] keeps the days from 1677-09-22 to
      2262-04-11 and turns every other date into [NaT] (pandas 1.x/2.x).
    - What pandas does when it converts between kinds of cells (text to
      number, number to date, number to text ...) is not part of the
      repository: it is the interface [Coercions]. *)

From Stdlib Require Import QArith Lqa String Ascii.
From stdpp Require Import gmap strings list fin_maps sorting pretty.

Open Scope string_scope.
Set Warnings "-clear-no-such-hyp".
Set Warnings "-at-level-200-changed".

(** Comparisons of rationals are decidable (they are comparisons in [Z]). *)
#[global] Instance Qlt_dec : RelDecision Qlt :=
  λ x y, decide (Qnum x * QDen y < Qnum y * QDen x)%Z.
#[global] Instance Qle_dec : RelDecision Qle :=
  λ x y, decide (Qnum x * QDen y ≤ Qnum y * QDen x)%Z.
#[global] Instance Qeq_dec' : RelDecision Qeq :=
  λ x y, decide (Qnum x * QDen y = Qnum y * QDen x)%Z.

(** ** Python string primitives used by the enricher *)

Module PyStr.

(** [str.isspace] on one ASCII character: TAB..CR, FS..US and the blank. *)
Definition is_space (a : ascii) : bool :=
  let n := nat_of_ascii a in
  ((9 <=? n)%nat && (n <=? 13)%nat) || ((28 <=? n)%nat && (n <=? 32)%nat).

Definition is_digit (a : ascii) : bool :=
  let n := nat_of_ascii a in (48 <=? n)%nat && (n <=? 57)%nat.

Fixpoint lstrip (s : string) : string :=
  match s with
  | EmptyString => EmptyString
  | String a s' => if is_space a then lstrip s' else s
  end.

Fixpoint rstrip (s : string) : string :=
  match s with
  | EmptyString => EmptyString
  | String a s' =>
      match rstrip s' with
      | EmptyString => if is_space a then EmptyString else String a EmptyString
      | r => String a r
      end
  end.

(** [s.strip()] *)
Definition strip (s : string) : string := rstrip (lstrip s).

Definition upper_ascii (a : ascii) : ascii :=
  let n := nat_of_ascii a in
  if (97 <=? n)%nat && (n <=? 122)%nat then ascii_of_nat (n - 32) else a.

(** [s.upper()] *)
Fixpoint upper (s : string) : string :=
  match s with
  | EmptyString => EmptyString
  | String a s' => String (upper_ascii a) (upper s')
  end.

(** [s.split(sep)] for a one-character separator: never the empty list. *)
Fixpoint split (sep : ascii) (s : string) : list string :=
  match s with
  | EmptyString => [EmptyString]
  | String a s' =>
      if Ascii.eqb a sep then EmptyString :: split sep s'
      else match split sep s' with
           | seg :: rest => String a seg :: rest
           | [] => [String a EmptyString]
           end
  end.

(** [s[:n]] *)
Fixpoint take (n : nat) (s : string) : string :=
  match n, s with
  | S n', String a s' => String a (take n' s')
  | _, _ => EmptyString
  end.

Fixpoint zeros (n : nat) : string :=
  match n with
  | O => EmptyString
  | S n' => String "0" (zeros n')
  end.

(** [Series.str.zfill(width)]: pads on the left with the character 0. *)
Definition zfill (width : nat) (s : string) : string :=
  zeros (width - String.length s) ++ s.

(** [Series.str.extract(r'(P\d)')]: the first P that a digit follows. *)
Fixpoint extract_P_digit (s : string) : option string :=
  match s with
  | EmptyString => None
  | String a s' =>
      match s' with
      | String d _ =>
          if Ascii.eqb a "P" && is_digit d
          then Some (String a (String d EmptyString))
          else extract_P_digit s'
      | EmptyString => None
      end
  end.

End PyStr.

(** ** Cells, series and frames *)

(** A pandas [Timestamp], by its calendar fields. *)
Record Timestamp := mkTimestamp { year : Z; month : Z; day : Z }.

(** One cell of a frame.  [VNaN] stands for every missing value
    ([NaN], [NaT], [None]). *)
Inductive value :=
  | VNum (q : Q)
  | VStr (s : string)
  | VDate (t : Timestamp)
  | VNaN.

Record DataFrame := mkDataFrame {
  index : list Z;
  columns : gmap string (list value)
}.

(** [len(df)] *)
Definition nrows (df : DataFrame) : nat := length (index df).

(** [df[c]], [None] standing for the [KeyError] of an absent label. *)
Definition get_col (c : string) (df : DataFrame) : option (list value) :=
  columns df !! c.

(** [df[c] = s] *)
Definition set_col (c : string) (s : list value) (df : DataFrame) : DataFrame :=
  mkDataFrame (index df) (<[c := s]> (columns df)).

(** [df[c] = v] for a scalar [v]: broadcast over the rows. *)
Definition set_scalar (c : string) (v : value) (df : DataFrame) : DataFrame :=
  set_col c (replicate (nrows df) v) df.

(** Every column has one cell per row. *)
Definition wf (df : DataFrame) : Prop :=
  ∀ c s, columns df !! c = Some s → length s = nrows df.

(** [df[mask]]: boolean indexing keeps the rows whose mask is [true]. *)
Fixpoint select {A} (mask : list bool) (l : list A) : list A :=
  match mask, l with
  | b :: mask', x :: l' => if b then x :: select mask' l' else select mask' l'
  | _, _ => []
  end.

Definition filter_rows (mask : list bool) (df : DataFrame) : DataFrame :=
  mkDataFrame (select mask (index df)) (select mask <$> columns df).

(** ** Conversions between kinds of cells (pandas, outside the repository) *)

Class Coercions := {
  (** [pd.to_numeric] on a text cell, [None] when it does not parse *)
  numeric_of_text : string → option Q;
  (** [pd.to_numeric] on a date cell *)
  numeric_of_date : Timestamp → option Q;
  (** [pd.to_datetime] on a text cell, [None] when it does not parse *)
  datetime_of_text : string → option Timestamp;
  (** [pd.to_datetime] on a number (nanoseconds since the epoch) *)
  datetime_of_number : Q → option Timestamp;
  (** [str(x)] of a number *)
  text_of_number : Q → string;
  (** [str(x)] of a [Timestamp] *)
  text_of_date : Timestamp → string
}.

Section Pandas.
Context `{Coercions}.

Definition option_value {A} (f : A → value) (o : option A) : value :=
  match o with Some a => f a | None => VNaN end.

(** [pd.to_numeric(.., errors='coerce')], cell by cell. *)
Definition to_numeric (v : value) : value :=
  match v with
  | VNum q => VNum q
  | VStr s => option_value VNum (numeric_of_text s)
  | VDate t => option_value VNum (numeric_of_date t)
  | VNaN => VNaN
  end.

(** The days a [Timestamp] can hold: [Timestamp.min] is 1677-09-21 00:12:43
    and [Timestamp.max] is 2262-04-11 23:47:16. *)
Definition date_le (a b : Z * Z * Z) : bool :=
  let '(y, m, d) := a in
  let '(y', m', d') := b in
  (y <? y')%Z || ((y =? y')%Z && ((m <? m')%Z || ((m =? m')%Z && (d <=? d')%Z))).

Definition in_bounds (t : Timestamp) : bool :=
  date_le (1677, 9, 22)%Z (year t, month t, day t)
  && date_le (year t, month t, day t) (2262, 4, 11)%Z.

(** [errors='coerce'] on a date: out of bounds, it becomes [NaT]. *)
Definition coerce_date (t : Timestamp) : value :=
  if in_bounds t then VDate t else VNaN.

(** [pd.to_datetime(.., errors='coerce')], cell by cell. *)
Definition to_datetime (v : value) : value :=
  match v with
  | VNum q => option_value coerce_date (datetime_of_number q)
  | VStr s => option_value coerce_date (datetime_of_text s)
  | VDate t => coerce_date t
  | VNaN => VNaN
  end.

(** [.astype(str)], cell by cell. *)
Definition astype_str (v : value) : string :=
  match v with
  | VNum q => text_of_number q
  | VStr s => s
  | VDate t => text_of_date t
  | VNaN => "nan"
  end.

End Pandas.

(** [.fillna(d)] *)
Definition fillna (d : value) (v : value) : value :=
  match v with VNaN => d | _ => v end.

(** [pd.notna(x)] *)
Definition notna (v : value) : bool :=
  match v with VNaN => false | _ => true end.

(** The number in a numeric cell; a cell that holds none reads as missing. *)
Definition as_num (v : value) : option Q :=
  match v with VNum q => Some q | _ => None end.

(** Arithmetic on cells: a missing operand gives a missing result. *)
Definition lift2 (f : Q → Q → Q) (a b : value) : value :=
  match as_num a, as_num b with
  | Some x, Some y => VNum (f x y)
  | _, _ => VNaN
  end.

Definition vmul_scalar (k : Q) (a : value) : value := lift2 Qmult a (VNum k).
Definition vdiv_scalar (k : Q) (a : value) : value := lift2 Qdiv a (VNum k).

(** [x > 0] on a cell; a comparison with a missing value is [False]. *)
Definition gt0 (v : value) : bool :=
  match as_num v with
  | Some q => bool_decide (0 < q)%Q
  | None => false
  end.

(** Operations on text cells. *)

(** [.str[i]] on the segments of a split: missing when there is no such segment. *)
Definition str_get (i : nat) (segs : list string) : value :=
  option_value VStr (segs !! i).

(** [a + b] on text cells. *)
Definition str_add (a b : value) : value :=
  match a, b with
  | VStr x, VStr y => VStr (x ++ y)
  | _, _ => VNaN
  end.

(** [.isin(l)] *)
Definition isin (l : list string) (v : value) : bool :=
  match v with VStr s => bool_decide (s ∈ l) | _ => false end.

(** [x != s] for a text [s]: a cell that is no text differs from it. *)
Definition ne_str (s : string) (v : value) : bool :=
  match v with VStr x => bool_decide (x ≠ s) | _ => true end.

(** [.replace(old, new)] on whole cells. *)
Definition replace_str (old new : string) (v : value) : value :=
  match v with
  | VStr s => if decide (s = old) then VStr new else v
  | _ => v
  end.

(** [.map(d)] with a dict [d]: an unmapped cell becomes missing. *)
Definition map_dict {A} (d : gmap string A) (f : A → value) (v : value) : value :=
  match v with
  | VStr s => option_value f (d !! s)
  | _ => VNaN
  end.

(** [.dt.year] *)
Definition dt_year (v : value) : value :=
  match v with VDate t => VNum (inject_Z (year t)) | _ => VNaN end.

(** ** Constants and hypotheses (app.py, lines 50-84) *)

#[global] Instance Q_inhabited : Inhabited Q := populate 0%Q.

Definition FACTEUR_CUMAC_TO_KWH : gmap string Q :=
  list_to_map
    [ ("BAR-TH", 1 / 12.16); ("BAR-EN", 1 / 17.29); ("BAR-EQ", 1 / 11.12);
      ("BAT-TH", 1 / 12.16); ("AGRI-TH", 1 / 12.16); ("BAT-EN", 1 / 17.29);
      ("TRA", 1 / 0.9615); ("DEFAULT", 1 / 8.11) ]%Q.

Definition DUREE_VIE_EQUIPEMENT : gmap string Z :=
  list_to_map
    [ ("BAR-TH", 17); ("AGRI-TH", 17); ("BAR-EN", 30); ("BAR-EQ", 15);
      ("BAT-TH", 17); ("BAT-EN", 30); ("TRA", 1); ("DEFAULT", 10) ]%Z.

Definition SECTEURS : gmap string string :=
  list_to_map
    [ ("BAR", "Bât. Résidentiel"); ("BAT", "Bât. Tertiaire"); ("TRA", "Transport");
      ("AGRI", "Agriculture"); ("IND", "Industrie") ].

Arguments FACTEUR_CUMAC_TO_KWH : simpl never.
Arguments DUREE_VIE_EQUIPEMENT : simpl never.
Arguments SECTEURS : simpl never.

Definition EMISSION_CO2_KWH : Q := 0.057.
Definition COUT_CHAUFFAGE_KWH : Q := 0.10.
Definition CONSO_MOYENNE_FOYER_KWH : Q := 15312.
Definition TAUX_EFFICACITE_DEFAULT : Q := 0.45.

(** ** The record enricher: [load_and_process_data] (app.py, lines 117-222) *)

Definition date_cols : list string :=
  ["Date Validation"; "Date depot"; "Date de début"; "Date de fin"; "Date de la facture"].

Definition numeric_cols : list string :=
  ["Total"; "Total précarité"; "Total classique"; "Tableau Recapitulatif champ 23"].

Definition siren_col_8 : string := "Tableau Recapitulatif champ 8".
Definition siren_col_9 : string := "Tableau Recapitulatif champ 9".

Section Enricher.
Context `{Coercions}.

(** Lines 124-127: each date column that is present is parsed in place. *)
Definition parse_dates (df : DataFrame) : DataFrame :=
  foldl (λ d col, match get_col col d with
                  | Some s => set_col col (to_datetime <$> s) d
                  | None => d
                  end) df date_cols.

(** Lines 130-132. *)
Definition code_postal (v : value) : string :=
  PyStr.zfill 5 (PyStr.strip (astype_str v)).

Definition add_departement (df : DataFrame) : DataFrame :=
  match get_col "code postal" df with
  | Some s =>
      let cp := code_postal <$> s in
      let df := set_col "code postal" (VStr <$> cp) df in
      set_col "departement" ((λ c, VStr (PyStr.take 2 c)) <$> cp) df
  | None => df
  end.

(** Lines 135-140. *)
Definition add_periode (df : DataFrame) : DataFrame :=
  match get_col "PERIODE" df with
  | Some s =>
      set_col "Période" ((λ v, VStr (PyStr.upper (PyStr.strip (astype_str v)))) <$> s) df
  | None =>
      match get_col "Depot" df with
      | Some s =>
          set_col "Période"
            ((λ v, fillna (VStr "P5")
                     (option_value VStr (PyStr.extract_P_digit (astype_str v)))) <$> s) df
      | None => set_scalar "Période" (VStr "P5") df
      end
  end.

(** Lines 143-147. *)
Definition mandataire (v : value) : value :=
  let m := VStr (PyStr.strip (astype_str v)) in
  if isin ["nan"; "NaN"] m then VStr "Non renseigné" else m.

Definition normalise_mandataire (df : DataFrame) : DataFrame :=
  match get_col "Mandataire" df with
  | Some s => set_col "Mandataire" (mandataire <$> s) df
  | None => set_scalar "Mandataire" (VStr "Non renseigné") df
  end.

(** Lines 150-154: [pd.to_numeric(.., errors='coerce').fillna(0)]. *)
Definition numeric_or_0 (v : value) : value := fillna (VNum 0) (to_numeric v).

Definition coerce_numerics (df : DataFrame) : DataFrame :=
  foldl (λ d col, match get_col col d with
                  | Some s => set_col col (numeric_or_0 <$> s) d
                  | None => set_scalar col (VNum 0) d
                  end) df numeric_cols.

(** Lines 157-185. *)
Definition equipment_code (v : value) : string :=
  PyStr.upper (PyStr.strip (astype_str v)).

Definition CodeEquip_prefix (code : string) : value :=
  str_get 0 (PyStr.split "-" code).

Definition CodeEquip_sub (code : string) : value :=
  fillna (VStr "") (str_get 1 (PyStr.split "-" code)).

(** [np.where(sub.isin(['TH', 'EN', 'EQ']), prefix + '-' + sub, prefix)] *)
Definition FacteurKey (prefix sub : value) : value :=
  if isin ["TH"; "EN"; "EQ"] sub
  then str_add (str_add prefix (VStr "-")) sub
  else prefix.

Definition Facteur_Conversion (key : value) : value :=
  fillna (VNum (FACTEUR_CUMAC_TO_KWH !!! "DEFAULT"))
         (map_dict FACTEUR_CUMAC_TO_KWH VNum key).

Definition Duree_Vie (key : value) : value :=
  fillna (VNum (inject_Z (DUREE_VIE_EQUIPEMENT !!! "DEFAULT")))
         (map_dict DUREE_VIE_EQUIPEMENT (λ z, VNum (inject_Z z)) key).

Definition Secteur (prefix : value) : value :=
  fillna (VStr "Autre") (map_dict SECTEURS VStr prefix).

Definition map_equipment (df : DataFrame) : DataFrame :=
  match get_col "Code équipement" df with
  | Some s =>
      let code := equipment_code <$> s in
      let prefix := CodeEquip_prefix <$> code in
      let df := set_col "CodeEquip_prefix" prefix df in
      let sub := CodeEquip_sub <$> code in
      let df := set_col "CodeEquip_sub" sub df in
      let key := zip_with FacteurKey prefix sub in
      let df := set_col "FacteurKey" key df in
      let df := set_col "Facteur_Conversion" (Facteur_Conversion <$> key) df in
      let df := set_col "Duree_Vie" (Duree_Vie <$> key) df in
      let df := set_col "Secteur" (Secteur <$> prefix) df in
      set_col "Sous_Categorie" (replace_str "" "N/A" <$> sub) df
  | None =>
      let df := set_scalar "Facteur_Conversion"
                  (VNum (FACTEUR_CUMAC_TO_KWH !!! "DEFAULT")) df in
      let df := set_scalar "Duree_Vie"
                  (VNum (inject_Z (DUREE_VIE_EQUIPEMENT !!! "DEFAULT"))) df in
      let df := set_scalar "Secteur" (VStr "Autre") df in
      let df := set_scalar "Sous_Categorie" (VStr "N/A") df in
      set_scalar "CodeEquip_prefix" (VStr "Autre") df
  end.

(** Lines 188-200. *)
Definition ensure_col (c : string) (df : DataFrame) : DataFrame :=
  match get_col c df with
  | Some _ => df
  | None => set_scalar c (VStr "") df
  end.

Definition siren (v : value) : value :=
  replace_str "nan" "" (VStr (PyStr.strip (astype_str v))).

(** [np.select(conditions, choices, default='Ménage Classique')] *)
Definition select_beneficiaire (precarite legal : bool) : value :=
  if precarite then VStr "Précarité énergétique"
  else if legal then VStr "Personne Morale"
  else VStr "Ménage Classique".

Definition Type_Beneficiaire (df : DataFrame) : option DataFrame :=
  let df := ensure_col siren_col_8 df in
  let df := ensure_col siren_col_9 df in
  s8 ← get_col siren_col_8 df;
  let df := set_col siren_col_8 (siren <$> s8) df in
  s9 ← get_col siren_col_9 df;
  let df := set_col siren_col_9 (siren <$> s9) df in
  precarite ← get_col "Total précarité" df;
  s8 ← get_col siren_col_8 df;
  s9 ← get_col siren_col_9 df;
  let conditions :=
    (gt0 <$> precarite, zip_with orb (ne_str "" <$> s8) (ne_str "" <$> s9)) in
  Some (set_col "Type_Beneficiaire"
          (zip_with select_beneficiaire conditions.1 conditions.2) df).

(** Lines 202-203: both columns are read without a presence test. *)
Definition Statut (x : value) : value :=
  VStr (if notna x then "Validé" else "En cours").

Definition status_and_year (df : DataFrame) : option DataFrame :=
  validation ← get_col "Date Validation" df;
  let df := set_col "Statut" (Statut <$> validation) df in
  depot ← get_col "Date depot" df;
  Some (set_col "Annee_Depot" (dt_year <$> depot) df).

(** Lines 206-216. *)
Definition metrics (taux_efficacite : Q) (df : DataFrame) : option DataFrame :=
  total ← get_col "Total" df;
  let kWh_cumac := numeric_or_0 <$> total in
  let df := set_col "kWh_cumac" kWh_cumac df in
  let df := set_col "GWh_cumac" (vdiv_scalar 1000000 <$> kWh_cumac) df in
  facteur ← get_col "Facteur_Conversion" df;
  let kWh_reels_annuels :=
    vmul_scalar taux_efficacite <$> zip_with (lift2 Qmult) kWh_cumac facteur in
  let df := set_col "kWh_reels_annuels" kWh_reels_annuels df in
  let df := set_col "GWh_reels_annuels" (vdiv_scalar 1000000 <$> kWh_reels_annuels) df in
  let df := set_col "CO2_evite_tonnes_an"
              ((λ e, vdiv_scalar 1000 (vmul_scalar EMISSION_CO2_KWH e))
                 <$> kWh_reels_annuels) df in
  let df := set_col "Nb_foyers_equivalents"
              (vdiv_scalar CONSO_MOYENNE_FOYER_KWH <$> kWh_reels_annuels) df in
  let df := set_col "Economies_euros_an"
              (vmul_scalar COUT_CHAUFFAGE_KWH <$> kWh_reels_annuels) df in
  prime ← get_col "Tableau Recapitulatif champ 23" df;
  Some (set_col "Prime_versee" prime df).

(** The whole routine.  [None] is the [except] branch (lines 220-222): the
    error is reported and no frame is returned. *)
Definition load_and_process_data (df : DataFrame) (taux_efficacite : Q)
  : option DataFrame :=
  let df := parse_dates df in
  let df := add_departement df in
  let df := add_periode df in
  let df := normalise_mandataire df in
  let df := coerce_numerics df in
  let df := map_equipment df in
  df ← Type_Beneficiaire df;
  df ← status_and_year df;
  metrics taux_efficacite df.

End Enricher.

(** ** The projection engine (app.py, lines 632-662) *)

Inductive exception :=
  | KeyError (label : string)
  | ValueError.

(** A computation that may end in an uncaught exception. *)
Inductive result (A : Type) :=
  | Raise (e : exception)
  | Return (a : A).
Arguments Raise {A} e.
Arguments Return {A} a.

Notation "'col!' x := c 'of' df 'in' k" :=
  (match get_col c df with Some x => k | None => Raise (KeyError c) end)
  (at level 10, x name, c at level 9, df at level 9, k at level 200,
   format "'[v' 'col!'  x  :=  c  'of'  df  'in' '/' k ']'").

(** One entry of [projection_breakdown_list]. *)
Record breakdown_entry := mkEntry {
  Annee : Z;
  Type_Operation : string;
  Economies_GWh_an : Q
}.

(** [groupby(keys)[vals].sum()]: rows whose key is missing are dropped, the sum
    skips missing values. *)
Definition groupby_sum (keys vals : list value) : gmap string Q :=
  foldl (λ m kv, match kv.1 with
                 | VStr k => <[k := (default 0 (m !! k) + default 0 (as_num kv.2))%Q]> m
                 | _ => m
                 end) ∅ (zip keys vals).

(** The order of [nlargest]: larger sums first, ties in the order of the
    grouped index (which [groupby] sorts by key). *)
Definition larger (a b : string * Q) : Prop :=
  (b.2 < a.2)%Q ∨ ((a.2 == b.2)%Q ∧ String.leb a.1 b.1 = true).

#[global] Instance larger_dec : RelDecision larger.
Proof. intros a b. unfold larger. apply _. Defined.

(** [.nlargest(n).index.tolist()] on a grouped sum. *)
Definition nlargest (n : nat) (sums : gmap string Q) : list string :=
  fst <$> take n (merge_sort larger (map_to_list sums)).

Definition key_le (a b : string * Q) : Prop := String.leb a.1 b.1 = true.

#[global] Instance key_le_dec : RelDecision key_le.
Proof. intros a b. unfold key_le. apply _. Defined.

(** [.items()] of a grouped sum, in the order of the sorted keys. *)
Definition items (sums : gmap string Q) : list (string * Q) :=
  merge_sort key_le (map_to_list sums).

(** [x if x in top_ops else 'Autres'] *)
Definition Type_Operation_of (top_ops : list string) (x : value) : value :=
  match x with
  | VStr s => if bool_decide (s ∈ top_ops) then VStr s else VStr "Autres"
  | _ => VStr "Autres"
  end.

(** [a <= year] and [a > year] on a cell: [False] on a missing value. *)
Definition le_year (year : Z) (a : value) : bool :=
  match as_num a with
  | Some q => bool_decide (q <= inject_Z year)%Q
  | None => false
  end.

Definition gt_year (year : Z) (a : value) : bool :=
  match as_num a with
  | Some q => bool_decide (inject_Z year < q)%Q
  | None => false
  end.

(** Lines 651-652: is an operation active in [year]? *)
Definition active (year : Z) (Annee_Depot Duree_Vie : value) : bool :=
  le_year year Annee_Depot && gt_year year (lift2 Qplus Annee_Depot Duree_Vie).

(** Lines 650-653: [df_proj[mask]]. *)
Definition active_ops (year : Z) (df_proj : DataFrame) : result DataFrame :=
  col! annee := "Annee_Depot" of df_proj in
  col! duree := "Duree_Vie" of df_proj in
  Return (filter_rows (zip_with (active year) annee duree) df_proj).

(** [Series.min()], skipping the missing values. *)
Definition series_min (s : list value) : option Q :=
  foldr (λ v acc, match as_num v, acc with
                  | Some q, Some m => Some (if decide (q < m)%Q then q else m)
                  | Some q, None => Some q
                  | None, _ => acc
                  end) None s.

(** [int(x)]: truncation towards zero. *)
Definition int_of (q : Q) : Z := Z.quot (Qnum q) (Zpos (Qden q)).

(** [df.dropna(subset=[a, b]).empty] *)
Definition dropna_empty (a b : list value) : bool :=
  forallb negb (zip_with (λ x y, notna x && notna y) a b).

(** Lines 650-662: the entries of one year. *)
Definition breakdown (year : Z) (df_proj : DataFrame) : result (list breakdown_entry) :=
  match active_ops year df_proj with
  | Raise e => Raise e
  | Return active =>
      col! op := "Type Opération" of active in
      col! gwh := "GWh_reels_annuels" of active in
      Return ((λ kv, mkEntry year kv.1 kv.2) <$> items (groupby_sum op gwh))
  end.

(** The year loop, appending to [projection_breakdown_list]. *)
Fixpoint year_loop (years : list Z) (df_proj : DataFrame)
    (projection_breakdown_list : list breakdown_entry) : result (list breakdown_entry) :=
  match years with
  | [] => Return projection_breakdown_list
  | year :: years' =>
      match breakdown year df_proj with
      | Raise e => Raise e
      | Return entries =>
          year_loop years' df_proj (projection_breakdown_list ++ entries)
      end
  end.

(** The tab: [Return None] when the guard of line 632 is false and nothing is
    computed, otherwise the top operations and the breakdown list. *)
Definition projection (df_filtered : DataFrame) (current_year horizon : Z)
  : result (option (list string * list breakdown_entry)) :=
  match get_col "Annee_Depot" df_filtered with
  | None => Return None
  | Some annee =>
      col! duree := "Duree_Vie" of df_filtered in
      if dropna_empty annee duree then Return None else
      match series_min annee with
      | None => Raise ValueError
      | Some m =>
          let start_year := int_of m in
          let end_year := (current_year + horizon)%Z in
          let projection_years := seqZ start_year (end_year + 1 - start_year) in
          col! key := "FacteurKey" of df_filtered in
          col! gwh := "GWh_reels_annuels" of df_filtered in
          let top_ops := nlargest 5 (groupby_sum key gwh) in
          let df_proj :=
            set_col "Type Opération" (Type_Operation_of top_ops <$> key) df_filtered in
          match year_loop projection_years df_proj [] with
          | Raise e => Raise e
          | Return l => Return (Some (top_ops, l))
          end
      end
  end.

(** ** Frames for the examples *)

(** An instance of the conversions for the examples below, whose cells need
    none: text is read neither as a number nor as a date, a number is not read
    as a date, and numbers and dates print as their fields. *)
Definition print_Z (z : Z) : string := pretty.pretty z.

#[local] Instance typed_cells : Coercions := {|
  numeric_of_text := λ _, None;
  numeric_of_date := λ _, None;
  datetime_of_text := λ _, None;
  datetime_of_number := λ _, None;
  text_of_number := λ q, print_Z (Qnum q) ++ "/" ++ print_Z (Zpos (Qden q));
  text_of_date := λ t, print_Z (year t) ++ "-" ++ print_Z (month t) ++ "-" ++ print_Z (day t)
|}.

(** A frame from its columns, with the default [RangeIndex]. *)
Definition frame (n : nat) (cols : list (string * list value)) : DataFrame :=
  mkDataFrame (seqZ 0 (Z.of_nat n)) (list_to_map cols).

(** The row of the example scenario of the specification, alone in its table. *)
Definition scenario_row : DataFrame :=
  frame 1 [ ("Total", [VNum 100000]);
            ("Code équipement", [VStr "BAR-TH-001"]);
            ("Date depot", [VDate (mkTimestamp 2022 3 1)]) ].

(** The same row in a table that also has the validation-date column. *)
Definition scenario_row_validated : DataFrame :=
  frame 1 [ ("Total", [VNum 100000]);
            ("Code équipement", [VStr "BAR-TH-001"]);
            ("Date depot", [VDate (mkTimestamp 2022 3 1)]);
            ("Date Validation", [VNaN]) ].

(** The cell of column [c] at row [i]. *)
Definition cell (df : DataFrame) (c : string) (i : nat) : option value :=
  s ← get_col c df; s !! i.

(** * Properties *)

(** ** Frames: what an assignment keeps *)

Lemma get_set_col_eq c s df : get_col c (set_col c s df) = Some s.
Proof. apply lookup_insert_eq. Qed.

Lemma get_set_col_ne c c' s df : c ≠ c' → get_col c' (set_col c s df) = get_col c' df.
Proof. intros. by apply lookup_insert_ne. Qed.

Lemma nrows_set_col c s df : nrows (set_col c s df) = nrows df.
Proof. done. Qed.

(** [extends ws df df']: [df'] is [df] with the columns [ws] assigned, and
    nothing else changed: same index, the other columns untouched, no label
    lost, and one cell per row in every column if that held before. *)
Record extends (ws : list string) (df df' : DataFrame) : Prop := mkExtends {
  ext_index : index df' = index df;
  ext_other : ∀ c, c ∉ ws → get_col c df' = get_col c df;
  ext_keeps : ∀ c, is_Some (get_col c df) → is_Some (get_col c df');
  ext_wf : wf df → wf df'
}.

Lemma extends_nrows ws df df' : extends ws df df' → nrows df' = nrows df.
Proof. intros E. unfold nrows. by rewrite (ext_index _ _ _ E). Qed.

Lemma extends_refl df : extends [] df df.
Proof. by split. Qed.

Lemma extends_trans ws1 ws2 df1 df2 df3 :
  extends ws1 df1 df2 → extends ws2 df2 df3 → extends (ws1 ++ ws2) df1 df3.
Proof.
  intros E1 E2. split.
  - by rewrite (ext_index _ _ _ E2), (ext_index _ _ _ E1).
  - intros c Hc. rewrite not_elem_of_app in Hc. destruct Hc.
    by rewrite (ext_other _ _ _ E2), (ext_other _ _ _ E1).
  - intros c Hc. by apply (ext_keeps _ _ _ E2), (ext_keeps _ _ _ E1).
  - intros Hwf. by apply (ext_wf _ _ _ E2), (ext_wf _ _ _ E1).
Qed.

Lemma extends_weaken ws ws' df df' :
  ws ⊆ ws' → extends ws df df' → extends ws' df df'.
Proof.
  intros Hsub E. split; try apply E.
  intros c Hc. apply (ext_other _ _ _ E). intros Hin. by apply Hc, Hsub.
Qed.

Lemma extends_set_col c s df :
  (wf df → length s = nrows df) → extends [c] df (set_col c s df).
Proof.
  intros Hlen. split.
  - done.
  - intros c' Hc'. apply get_set_col_ne. set_solver.
  - intros c' Hc'. unfold get_col, set_col; simpl.
    destruct (decide (c = c')) as [->|].
    + rewrite lookup_insert_eq. by eexists.
    + by rewrite lookup_insert_ne.
  - intros Hwf c' s'. unfold set_col; simpl. rewrite lookup_insert.
    case_decide.
    + intros [= <-]. by apply Hlen.
    + apply Hwf.
Qed.

Lemma extends_set_scalar c v df : extends [c] df (set_scalar c v df).
Proof. apply extends_set_col. intros _. apply length_replicate. Qed.

Lemma wf_get_col df c s : wf df → get_col c df = Some s → length s = nrows df.
Proof. intros Hwf. apply Hwf. Qed.

(** Assigning a column computed cell by cell from an existing one. *)
Lemma extends_set_fmap {A} (f : A → value) c c' (s : list A) s0 df :
  get_col c' df = Some s0 → length s = length s0 →
  extends [c] df (set_col c (f <$> s) df).
Proof.
  intros Hs0 Hlen. apply extends_set_col. intros Hwf.
  rewrite length_fmap, Hlen. by apply (wf_get_col df c').
Qed.

Lemma extends_foldl (step : DataFrame → string → DataFrame) cols df :
  (∀ d col, extends [col] d (step d col)) → extends cols df (foldl step df cols).
Proof.
  intros Hstep. revert df. induction cols as [|col cols IH]; intros df; simpl.
  - apply extends_refl.
  - apply (extends_trans [col] cols _ (step df col)); [apply Hstep | apply IH].
Qed.

(** The labels each block of the enricher assigns. *)
Definition equipment_labels : list string :=
  ["CodeEquip_prefix"; "CodeEquip_sub"; "FacteurKey"; "Facteur_Conversion";
   "Duree_Vie"; "Secteur"; "Sous_Categorie"].

Definition beneficiaire_labels : list string :=
  [siren_col_8; siren_col_9; "Type_Beneficiaire"].

Definition metrics_labels : list string :=
  ["kWh_cumac"; "GWh_cumac"; "kWh_reels_annuels"; "GWh_reels_annuels";
   "CO2_evite_tonnes_an"; "Nb_foyers_equivalents"; "Economies_euros_an";
   "Prime_versee"].

(** Every label [load_and_process_data] may assign. *)
Definition assigned_labels : list string :=
  date_cols ++ ["code postal"; "departement"] ++ ["Période"] ++ ["Mandataire"]
  ++ numeric_cols ++ equipment_labels ++ beneficiaire_labels
  ++ ["Statut"; "Annee_Depot"] ++ metrics_labels.

Section EnricherFrames.
Context `{Coercions}.

Ltac ext_step :=
  first
    [ apply extends_set_scalar
    | eapply extends_set_fmap; [eassumption | by rewrite ?length_fmap]
    | apply extends_set_col; intros ?; by rewrite ?length_fmap ].

Lemma extends_parse_dates df : extends date_cols df (parse_dates df).
Proof.
  apply extends_foldl. intros d col.
  destruct (get_col col d) eqn:E; [ext_step | apply (extends_weaken []); [set_solver|apply extends_refl]].
Qed.

Lemma extends_add_departement df :
  extends ["code postal"; "departement"] df (add_departement df).
Proof.
  unfold add_departement. destruct (get_col "code postal" df) as [s|] eqn:E.
  - apply (extends_trans ["code postal"] ["departement"] _
             (set_col "code postal" (VStr <$> (code_postal <$> s)) df)).
    + eapply extends_set_fmap; [eassumption | by rewrite length_fmap].
    + eapply (extends_set_fmap _ _ "code postal");
        [apply get_set_col_eq | by rewrite !length_fmap].
  - apply (extends_weaken []); [set_solver | apply extends_refl].
Qed.

Lemma extends_add_periode df : extends ["Période"] df (add_periode df).
Proof.
  unfold add_periode.
  destruct (get_col "PERIODE" df) eqn:E1; [ext_step|].
  destruct (get_col "Depot" df) eqn:E2; ext_step.
Qed.

Lemma extends_normalise_mandataire df :
  extends ["Mandataire"] df (normalise_mandataire df).
Proof.
  unfold normalise_mandataire. destruct (get_col "Mandataire" df) eqn:E; ext_step.
Qed.

Lemma extends_coerce_numerics df : extends numeric_cols df (coerce_numerics df).
Proof.
  apply extends_foldl. intros d col. destruct (get_col col d) eqn:E; ext_step.
Qed.

End EnricherFrames.

Lemma wf_set_col c s df : wf df → length s = nrows df → wf (set_col c s df).
Proof.
  intros Hwf Hlen c' s'. unfold set_col; simpl. rewrite lookup_insert.
  case_decide; [by intros [= <-] | apply Hwf].
Qed.

(** One more assignment after a run of assignments: the new column must have
    one cell per row of the frame the run started from. *)
Lemma extends_then_set ws c s df0 df :
  extends ws df0 df → (wf df0 → length s = nrows df0) →
  extends (ws ++ [c]) df0 (set_col c s df).
Proof.
  intros E Hlen. split.
  - apply E.
  - intros c' Hc'. rewrite not_elem_of_app in Hc'. destruct Hc' as [Hc1 Hc2].
    rewrite get_set_col_ne by set_solver. by apply E.
  - intros c' Hc'. unfold get_col, set_col; simpl. rewrite lookup_insert. case_decide; [by eexists|].
    by apply (ext_keeps _ _ _ E).
  - intros Hwf. apply wf_set_col; [by apply E|].
    rewrite (extends_nrows _ _ _ E). by apply Hlen.
Qed.

Lemma extends_then_scalar ws c v df0 df :
  extends ws df0 df → extends (ws ++ [c]) df0 (set_scalar c v df).
Proof.
  intros E. apply extends_then_set; [done|]. intros _.
  by rewrite length_replicate, (extends_nrows _ _ _ E).
Qed.

(** Closes [extends ws df (set_col .. (set_col .. df))] for a concrete run of
    assignments, leaving the lengths of the assigned columns. *)
Ltac extends_run :=
  eapply extends_weaken; cycle 1;
  [ repeat first [eapply extends_then_scalar | eapply extends_then_set];
    [apply extends_refl | ..]
  | simpl; set_solver ].

Ltac solve_len :=
  repeat first [rewrite length_fmap | rewrite length_zip_with | rewrite length_replicate];
  lia.

Section EnricherFrames2.
Context `{Coercions}.

Lemma extends_map_equipment df : extends equipment_labels df (map_equipment df).
Proof.
  unfold map_equipment, equipment_labels.
  destruct (get_col "Code équipement" df) as [s|] eqn:E.
  - extends_run; intros Hwf; pose proof (wf_get_col _ _ _ Hwf E); solve_len.
  - extends_run.
Qed.

End EnricherFrames2.

(** Two concrete labels differ. *)
Ltac ne_labels := cbv [siren_col_8 siren_col_9]; done.

(** ** The blocks that read a column without a presence test *)

(** The identifier column the beneficiary block works on: the input column, or
    the column of empty texts line 190/191 creates. *)
Definition siren_input (c : string) (df : DataFrame) : list value :=
  default (replicate (nrows df) (VStr "")) (get_col c df).

Section EnricherBlocks.
Context `{Coercions}.

Lemma get_ensure_col c df : get_col c (ensure_col c df) = Some (siren_input c df).
Proof.
  unfold ensure_col, siren_input. destruct (get_col c df) eqn:E; simpl; [done|].
  apply get_set_col_eq.
Qed.

Lemma get_ensure_col_ne c c' df : c ≠ c' → get_col c' (ensure_col c df) = get_col c' df.
Proof.
  intros. unfold ensure_col. destruct (get_col c df); [done|].
  by apply get_set_col_ne.
Qed.

Lemma nrows_ensure_col c df : nrows (ensure_col c df) = nrows df.
Proof. unfold ensure_col. by destruct (get_col c df). Qed.

Lemma extends_ensure_col c df : extends [c] df (ensure_col c df).
Proof.
  unfold ensure_col. destruct (get_col c df) eqn:E.
  - apply (extends_weaken []); [set_solver | apply extends_refl].
  - apply extends_set_scalar.
Qed.

(** The beneficiary block in closed form: it fails exactly when the precarity
    column is absent. *)
Definition with_beneficiaire (p s8 s9 : list value) (df : DataFrame) : DataFrame :=
  set_col "Type_Beneficiaire"
    (zip_with select_beneficiaire (gt0 <$> p)
       (zip_with orb (ne_str "" <$> (siren <$> s8)) (ne_str "" <$> (siren <$> s9))))
    (set_col siren_col_9 (siren <$> s9)
       (set_col siren_col_8 (siren <$> s8)
          (ensure_col siren_col_9 (ensure_col siren_col_8 df)))).

Lemma Type_Beneficiaire_Some df p :
  get_col "Total précarité" df = Some p →
  Type_Beneficiaire df
  = Some (with_beneficiaire p (siren_input siren_col_8 df) (siren_input siren_col_9 df) df).
Proof.
  intros Hp. unfold Type_Beneficiaire, with_beneficiaire.
  rewrite (get_ensure_col_ne siren_col_9 siren_col_8) by ne_labels.
  rewrite get_ensure_col. simpl.
  rewrite (get_set_col_ne siren_col_8 siren_col_9) by ne_labels.
  rewrite get_ensure_col. simpl.
  rewrite (get_set_col_ne siren_col_9 "Total précarité") by ne_labels.
  rewrite (get_set_col_ne siren_col_8 "Total précarité") by ne_labels.
  rewrite !(get_ensure_col_ne _ "Total précarité") by ne_labels.
  rewrite Hp. simpl.
  rewrite (get_set_col_ne siren_col_9 siren_col_8) by ne_labels.
  rewrite get_set_col_eq. simpl. rewrite get_set_col_eq. simpl.
  assert (siren_input siren_col_9 (ensure_col siren_col_8 df)
          = siren_input siren_col_9 df) as ->; [|done].
  unfold siren_input. rewrite get_ensure_col_ne by ne_labels.
  by rewrite nrows_ensure_col.
Qed.

Lemma Type_Beneficiaire_None df :
  get_col "Total précarité" df = None → Type_Beneficiaire df = None.
Proof.
  intros Hp. unfold Type_Beneficiaire.
  rewrite (get_ensure_col_ne siren_col_9 siren_col_8) by ne_labels.
  rewrite get_ensure_col. simpl.
  rewrite (get_set_col_ne siren_col_8 siren_col_9) by ne_labels.
  rewrite get_ensure_col. simpl.
  rewrite (get_set_col_ne siren_col_9 "Total précarité") by ne_labels.
  rewrite (get_set_col_ne siren_col_8 "Total précarité") by ne_labels.
  rewrite !(get_ensure_col_ne _ "Total précarité") by ne_labels.
  by rewrite Hp.
Qed.

Lemma extends_with_beneficiaire df p :
  get_col "Total précarité" df = Some p →
  extends beneficiaire_labels df
    (with_beneficiaire p (siren_input siren_col_8 df) (siren_input siren_col_9 df) df).
Proof.
  intros Hp. unfold with_beneficiaire, beneficiaire_labels.
  assert (∀ c, wf df → length (siren_input c df) = nrows df) as Hlen.
  { intros c Hwf. unfold siren_input. destruct (get_col c df) eqn:E; simpl.
    - by apply (wf_get_col df c). - apply length_replicate. }
  eapply extends_weaken; cycle 1.
  - eapply extends_then_set; [eapply extends_then_set; [eapply extends_then_set|..]|..].
    + eapply extends_trans; apply extends_ensure_col.
    + intros Hwf. rewrite length_fmap. by apply Hlen.
    + intros Hwf. rewrite length_fmap. by apply Hlen.
    + intros Hwf. pose proof (Hlen siren_col_8 Hwf). pose proof (Hlen siren_col_9 Hwf).
      pose proof (wf_get_col _ _ _ Hwf Hp). solve_len.
  - simpl. set_solver.
Qed.

(** Lines 202-203 in closed form. *)
Lemma status_and_year_Some df v d :
  get_col "Date Validation" df = Some v → get_col "Date depot" df = Some d →
  status_and_year df
  = Some (set_col "Annee_Depot" (dt_year <$> d) (set_col "Statut" (Statut <$> v) df)).
Proof.
  intros Hv Hd. unfold status_and_year. rewrite Hv. simpl.
  rewrite get_set_col_ne by ne_labels. by rewrite Hd.
Qed.

Lemma status_and_year_None df :
  get_col "Date Validation" df = None ∨ get_col "Date depot" df = None →
  status_and_year df = None.
Proof.
  intros [Hv|Hd]; unfold status_and_year.
  - by rewrite Hv.
  - destruct (get_col "Date Validation" df); [|done]. simpl.
    rewrite get_set_col_ne by ne_labels. by rewrite Hd.
Qed.

(** Lines 206-216 in closed form. *)
Definition kWh_reels_annuels (taux_efficacite : Q) (total facteur : list value) : list value :=
  vmul_scalar taux_efficacite <$> zip_with (lift2 Qmult) (numeric_or_0 <$> total) facteur.

Definition with_metrics (taux_efficacite : Q) (total facteur prime : list value)
    (df : DataFrame) : DataFrame :=
  let kWh := kWh_reels_annuels taux_efficacite total facteur in
  set_col "Prime_versee" prime
    (set_col "Economies_euros_an" (vmul_scalar COUT_CHAUFFAGE_KWH <$> kWh)
       (set_col "Nb_foyers_equivalents" (vdiv_scalar CONSO_MOYENNE_FOYER_KWH <$> kWh)
          (set_col "CO2_evite_tonnes_an"
             ((λ e, vdiv_scalar 1000 (vmul_scalar EMISSION_CO2_KWH e)) <$> kWh)
             (set_col "GWh_reels_annuels" (vdiv_scalar 1000000 <$> kWh)
                (set_col "kWh_reels_annuels" kWh
                   (set_col "GWh_cumac" (vdiv_scalar 1000000 <$> (numeric_or_0 <$> total))
                      (set_col "kWh_cumac" (numeric_or_0 <$> total) df))))))).

Lemma metrics_Some taux df total facteur prime :
  get_col "Total" df = Some total →
  get_col "Facteur_Conversion" df = Some facteur →
  get_col "Tableau Recapitulatif champ 23" df = Some prime →
  metrics taux df = Some (with_metrics taux total facteur prime df).
Proof.
  intros Ht Hf Hp. unfold metrics, with_metrics, kWh_reels_annuels.
  rewrite Ht. simpl. rewrite !get_set_col_ne by ne_labels. rewrite Hf. simpl.
  rewrite !get_set_col_ne by ne_labels. by rewrite Hp.
Qed.

Lemma extends_with_metrics taux df total facteur prime :
  get_col "Total" df = Some total →
  get_col "Facteur_Conversion" df = Some facteur →
  get_col "Tableau Recapitulatif champ 23" df = Some prime →
  extends metrics_labels df (with_metrics taux total facteur prime df).
Proof.
  intros Ht Hf Hp. unfold with_metrics, metrics_labels, kWh_reels_annuels.
  extends_run; intros Hwf;
    pose proof (wf_get_col _ _ _ Hwf Ht); pose proof (wf_get_col _ _ _ Hwf Hf);
    pose proof (wf_get_col _ _ _ Hwf Hp); solve_len.
Qed.

End EnricherBlocks.

(** ** The frame the unguarded blocks receive *)

Section Prepare.
Context `{Coercions}.

(** Lines 124-185: the blocks that test the presence of what they read. *)
Definition prepare (df : DataFrame) : DataFrame :=
  map_equipment (coerce_numerics (normalise_mandataire
    (add_periode (add_departement (parse_dates df))))).

Lemma load_and_process_data_unfold df taux :
  load_and_process_data df taux
  = (df ← Type_Beneficiaire (prepare df); df ← status_and_year df; metrics taux df).
Proof. unfold load_and_process_data, prepare. cbv zeta. done. Qed.

Definition prepare_labels : list string :=
  date_cols ++ ["code postal"; "departement"] ++ ["Période"] ++ ["Mandataire"]
  ++ numeric_cols ++ equipment_labels.

Lemma extends_prepare df : extends prepare_labels df (prepare df).
Proof.
  unfold prepare, prepare_labels.
  eapply extends_trans; [apply extends_parse_dates|].
  eapply extends_trans; [apply extends_add_departement|].
  eapply extends_trans; [apply extends_add_periode|].
  eapply extends_trans; [apply extends_normalise_mandataire|].
  eapply extends_trans; [apply extends_coerce_numerics|].
  apply extends_map_equipment.
Qed.

(** A fold of per-label steps, read at one of its labels. *)
Lemma get_foldl_notin (step : DataFrame → string → DataFrame) cols c df :
  (∀ d col c', c' ≠ col → get_col c' (step d col) = get_col c' d) →
  c ∉ cols → get_col c (foldl step df cols) = get_col c df.
Proof.
  intros Hne. revert df. induction cols as [|col cols IH]; intros df Hc; simpl; [done|].
  rewrite not_elem_of_cons in Hc. destruct Hc. rewrite IH by done. by apply Hne.
Qed.

Lemma nrows_foldl (step : DataFrame → string → DataFrame) cols df :
  (∀ d col, nrows (step d col) = nrows d) → nrows (foldl step df cols) = nrows df.
Proof.
  intros Hn. revert df. induction cols as [|col cols IH]; intros df; simpl; [done|].
  by rewrite IH.
Qed.

Lemma get_foldl_in (step : DataFrame → string → DataFrame)
    (G : option (list value) → nat → option (list value)) cols c df :
  (∀ d col c', c' ≠ col → get_col c' (step d col) = get_col c' d) →
  (∀ d col, nrows (step d col) = nrows d) →
  (∀ d col, get_col col (step d col) = G (get_col col d) (nrows d)) →
  NoDup cols → c ∈ cols →
  get_col c (foldl step df cols) = G (get_col c df) (nrows df).
Proof.
  intros Hne Hn HG. revert df.
  induction cols as [|col cols IH]; intros df Hnd Hc; simpl.
  - by apply elem_of_nil in Hc.
  - apply NoDup_cons in Hnd as [Hcol Hnd].
    destruct (decide (c = col)) as [->|Hneq].
    + rewrite get_foldl_notin by done. apply HG.
    + apply elem_of_cons in Hc as [?|Hc]; [done|].
      rewrite IH by done. by rewrite Hne, Hn.
Qed.

(** A date column after line 127. *)
Lemma get_parse_dates c df :
  c ∈ date_cols →
  get_col c (parse_dates df) = (λ s : list value, to_datetime <$> s) <$> get_col c df.
Proof.
  intros Hc. unfold parse_dates.
  apply (get_foldl_in _ (λ o _, (λ s : list value, to_datetime <$> s) <$> o)); [..|done].
  - intros d col c' Hne. destruct (get_col col d); [|done].
    by apply get_set_col_ne.
  - intros d col. by destruct (get_col col d).
  - intros d col. destruct (get_col col d) eqn:E; simpl; [|done].
    apply get_set_col_eq.
  - unfold date_cols. apply (bool_decide_unpack _). by vm_compute.
Qed.

(** A primary numeric column after line 154: always there, all numbers. *)
Definition numeric_column (o : option (list value)) (n : nat) : list value :=
  match o with
  | Some s => numeric_or_0 <$> s
  | None => replicate n (VNum 0)
  end.

Lemma get_coerce_numerics c df :
  c ∈ numeric_cols →
  get_col c (coerce_numerics df) = Some (numeric_column (get_col c df) (nrows df)).
Proof.
  intros Hc. unfold coerce_numerics.
  apply (get_foldl_in _ (λ o n, Some (numeric_column o n))); [..|done].
  - intros d col c' Hne. destruct (get_col col d); by apply get_set_col_ne.
  - intros d col. by destruct (get_col col d).
  - intros d col. destruct (get_col col d) eqn:E; simpl; apply get_set_col_eq.
  - unfold numeric_cols. apply (bool_decide_unpack _). by vm_compute.
Qed.

End Prepare.

(** A concrete label is not in a concrete list of labels. *)
Ltac not_in_labels := apply (bool_decide_unpack _); vm_compute; exact I.

Section Prepared.
Context `{Coercions}.

Lemma nrows_prepare df : nrows (prepare df) = nrows df.
Proof. apply (extends_nrows _ _ _ (extends_prepare df)). Qed.

Lemma get_prepare_numeric c df :
  c ∈ numeric_cols →
  get_col c (prepare df) = Some (numeric_column (get_col c df) (nrows df)).
Proof.
  intros Hc. unfold prepare.
  rewrite (ext_other _ _ _ (extends_map_equipment _)).
  2:{ revert Hc. unfold numeric_cols. rewrite !elem_of_cons, elem_of_nil.
      intros [->|[->|[->|[->|[]]]]]; not_in_labels. }
  rewrite get_coerce_numerics by done.
  assert (extends (date_cols ++ ["code postal"; "departement"] ++ ["Période"] ++ ["Mandataire"])
            df (normalise_mandataire (add_periode (add_departement (parse_dates df)))))
    as E.
  { eapply extends_trans; [apply extends_parse_dates|].
    eapply extends_trans; [apply extends_add_departement|].
    eapply extends_trans; [apply extends_add_periode|].
    apply extends_normalise_mandataire. }
  rewrite (extends_nrows _ _ _ E), (ext_other _ _ _ E); [done|].
  revert Hc. unfold numeric_cols. rewrite !elem_of_cons, elem_of_nil.
  intros [->|[->|[->|[->|[]]]]]; not_in_labels.
Qed.

Lemma get_prepare_date c df :
  c ∈ date_cols →
  get_col c (prepare df) = (λ s : list value, to_datetime <$> s) <$> get_col c df.
Proof.
  intros Hc. unfold prepare.
  assert (extends (["code postal"; "departement"] ++ ["Période"] ++ ["Mandataire"]
                   ++ numeric_cols ++ equipment_labels)
            (parse_dates df)
            (map_equipment (coerce_numerics (normalise_mandataire
               (add_periode (add_departement (parse_dates df)))))))
    as E.
  { eapply extends_trans; [apply extends_add_departement|].
    eapply extends_trans; [apply extends_add_periode|].
    eapply extends_trans; [apply extends_normalise_mandataire|].
    eapply extends_trans; [apply extends_coerce_numerics|].
    apply extends_map_equipment. }
  rewrite (ext_other _ _ _ E).
  - by apply get_parse_dates.
  - revert Hc. unfold date_cols. rewrite !elem_of_cons, elem_of_nil.
    intros [->|[->|[->|[->|[->|[]]]]]]; not_in_labels.
Qed.

Lemma extends_before_equipment df :
  extends (date_cols ++ ["code postal"; "departement"] ++ ["Période"]
           ++ ["Mandataire"] ++ numeric_cols)
    df (coerce_numerics (normalise_mandataire
          (add_periode (add_departement (parse_dates df))))).
Proof.
  eapply extends_trans; [apply extends_parse_dates|].
  eapply extends_trans; [apply extends_add_departement|].
  eapply extends_trans; [apply extends_add_periode|].
  eapply extends_trans; [apply extends_normalise_mandataire|].
  apply extends_coerce_numerics.
Qed.

Lemma nrows_before_equipment df :
  nrows (coerce_numerics (normalise_mandataire
           (add_periode (add_departement (parse_dates df))))) = nrows df.
Proof. apply (extends_nrows _ _ _ (extends_before_equipment df)). Qed.

(** The equipment code column, as [map_equipment] finds it. *)
Lemma get_code_before_equipment df :
  get_col "Code équipement"
    (coerce_numerics (normalise_mandataire (add_periode (add_departement (parse_dates df)))))
  = get_col "Code équipement" df.
Proof.
  pose proof (extends_before_equipment df) as E.
  apply (ext_other _ _ _ E). not_in_labels.
Qed.

(** The column of keys lines 158-166 compute from the equipment codes. *)
Definition FacteurKeys (s : list value) : list value :=
  let code := equipment_code <$> s in
  zip_with FacteurKey (CodeEquip_prefix <$> code) (CodeEquip_sub <$> code).

Lemma get_prepare_FacteurKey df s :
  get_col "Code équipement" df = Some s →
  get_col "FacteurKey" (prepare df) = Some (FacteurKeys s).
Proof.
  intros Hs. unfold prepare, map_equipment. rewrite get_code_before_equipment, Hs.
  rewrite !get_set_col_ne by ne_labels. apply get_set_col_eq.
Qed.

Lemma get_prepare_FacteurKey_absent df :
  get_col "Code équipement" df = None →
  get_col "FacteurKey" (prepare df) = get_col "FacteurKey" df.
Proof.
  intros Hs.
  pose proof (extends_before_equipment df) as E.
  unfold prepare, map_equipment. rewrite get_code_before_equipment, Hs.
  unfold set_scalar. rewrite !get_set_col_ne by ne_labels.
  apply (ext_other _ _ _ E). not_in_labels.
Qed.

(** The conversion factors and lifetimes of the rows, by presence of the
    equipment code column. *)
Definition factor_column (o : option (list value)) (n : nat) : list value :=
  match o with
  | Some s => Facteur_Conversion <$> FacteurKeys s
  | None => replicate n (VNum (FACTEUR_CUMAC_TO_KWH !!! "DEFAULT"))
  end.

Definition lifetime_column (o : option (list value)) (n : nat) : list value :=
  match o with
  | Some s => Duree_Vie <$> FacteurKeys s
  | None => replicate n (VNum (inject_Z (DUREE_VIE_EQUIPEMENT !!! "DEFAULT")))
  end.

Definition sector_column (o : option (list value)) (n : nat) : list value :=
  match o with
  | Some s => Secteur <$> (CodeEquip_prefix <$> (equipment_code <$> s))
  | None => replicate n (VStr "Autre")
  end.

Lemma get_prepare_Facteur_Conversion df :
  get_col "Facteur_Conversion" (prepare df)
  = Some (factor_column (get_col "Code équipement" df) (nrows df)).
Proof.
  unfold prepare, map_equipment. rewrite get_code_before_equipment.
  destruct (get_col "Code équipement" df) as [s|]; cbv beta iota zeta.
  - rewrite !get_set_col_ne by ne_labels. apply get_set_col_eq.
  - unfold set_scalar. rewrite !get_set_col_ne by ne_labels.
    rewrite get_set_col_eq. by rewrite ?nrows_set_col, nrows_before_equipment.
Qed.

Lemma get_prepare_Duree_Vie df :
  get_col "Duree_Vie" (prepare df)
  = Some (lifetime_column (get_col "Code équipement" df) (nrows df)).
Proof.
  unfold prepare, map_equipment. rewrite get_code_before_equipment.
  destruct (get_col "Code équipement" df) as [s|]; cbv beta iota zeta.
  - rewrite !get_set_col_ne by ne_labels. apply get_set_col_eq.
  - unfold set_scalar. rewrite !get_set_col_ne by ne_labels.
    rewrite get_set_col_eq. by rewrite ?nrows_set_col, nrows_before_equipment.
Qed.

Lemma get_prepare_Secteur df :
  get_col "Secteur" (prepare df)
  = Some (sector_column (get_col "Code équipement" df) (nrows df)).
Proof.
  unfold prepare, map_equipment. rewrite get_code_before_equipment.
  destruct (get_col "Code équipement" df) as [s|]; cbv beta iota zeta.
  - rewrite !get_set_col_ne by ne_labels. apply get_set_col_eq.
  - unfold set_scalar. rewrite !get_set_col_ne by ne_labels.
    rewrite get_set_col_eq. by rewrite ?nrows_set_col, nrows_before_equipment.
Qed.

End Prepared.

(** ** The enricher in closed form *)

Lemma bind_Some_eq {A B} (f : A → option B) (x : A) : Some x ≫= f = f x.
Proof. done. Qed.

Section Enriched.
Context `{Coercions}.

(** The frame [load_and_process_data] returns when both unguarded columns are
    there: the prepared frame with the beneficiary, status, year and metric
    columns assigned. *)
Definition enriched (taux_efficacite : Q) (df : DataFrame)
    (validation depot : list value) : DataFrame :=
  let n := nrows df in
  let df1 :=
    with_beneficiaire (numeric_column (get_col "Total précarité" df) n)
      (siren_input siren_col_8 df) (siren_input siren_col_9 df) (prepare df) in
  let df2 :=
    set_col "Annee_Depot" (dt_year <$> (to_datetime <$> depot))
      (set_col "Statut" (Statut <$> (to_datetime <$> validation)) df1) in
  with_metrics taux_efficacite
    (numeric_column (get_col "Total" df) n)
    (factor_column (get_col "Code équipement" df) n)
    (numeric_column (get_col "Tableau Recapitulatif champ 23" df) n) df2.

Ltac peel := repeat (rewrite get_set_col_ne by ne_labels).

Lemma siren_input_prepare c df :
  c ∉ prepare_labels → siren_input c (prepare df) = siren_input c df.
Proof.
  intros Hc. unfold siren_input.
  by rewrite nrows_prepare, (ext_other _ _ _ (extends_prepare df)).
Qed.

Lemma get_with_beneficiaire_other c p s8 s9 df :
  c ∉ beneficiaire_labels →
  get_col c (with_beneficiaire p s8 s9 df) = get_col c df.
Proof.
  intros Hc. unfold beneficiaire_labels in Hc.
  rewrite !not_elem_of_cons in Hc. destruct Hc as (? & ? & ? & _).
  unfold with_beneficiaire. rewrite !get_set_col_ne by done.
  by rewrite !get_ensure_col_ne.
Qed.

Lemma load_and_process_data_Some taux df validation depot :
  get_col "Date Validation" df = Some validation →
  get_col "Date depot" df = Some depot →
  load_and_process_data df taux = Some (enriched taux df validation depot).
Proof.
  intros Hv Hd. rewrite load_and_process_data_unfold.
  rewrite (Type_Beneficiaire_Some _ _ (get_prepare_numeric "Total précarité" df ltac:(not_in_labels))).
  rewrite !siren_input_prepare by not_in_labels. rewrite bind_Some_eq.
  erewrite status_and_year_Some; cycle 1.
  { rewrite get_with_beneficiaire_other by not_in_labels.
    rewrite get_prepare_date by not_in_labels. by rewrite Hv. }
  { rewrite get_with_beneficiaire_other by not_in_labels.
    rewrite get_prepare_date by not_in_labels. by rewrite Hd. }
  rewrite bind_Some_eq. erewrite metrics_Some; [done|..]; peel;
    rewrite get_with_beneficiaire_other by not_in_labels.
  - apply get_prepare_numeric. not_in_labels.
  - apply get_prepare_Facteur_Conversion.
  - apply get_prepare_numeric. not_in_labels.
Qed.

Lemma load_and_process_data_None taux df :
  get_col "Date Validation" df = None ∨ get_col "Date depot" df = None →
  load_and_process_data df taux = None.
Proof.
  intros Hnone. rewrite load_and_process_data_unfold.
  rewrite (Type_Beneficiaire_Some _ _ (get_prepare_numeric "Total précarité" df ltac:(not_in_labels))).
  rewrite bind_Some_eq. rewrite status_and_year_None; [done|].
  rewrite !get_with_beneficiaire_other by not_in_labels.
  rewrite !get_prepare_date by not_in_labels.
  destruct Hnone as [-> | ->]; auto.
Qed.

(** The enricher fails exactly when one of the two columns it reads without a
    presence test is absent. *)
Lemma load_and_process_data_fails_iff taux df :
  load_and_process_data df taux = None
  ↔ get_col "Date Validation" df = None ∨ get_col "Date depot" df = None.
Proof.
  split; [|apply load_and_process_data_None].
  destruct (get_col "Date Validation" df) as [v|] eqn:Hv; [|auto].
  destruct (get_col "Date depot" df) as [d|] eqn:Hd; [|auto].
  by rewrite (load_and_process_data_Some taux df v d).
Qed.

Lemma load_and_process_data_inv taux df df' :
  load_and_process_data df taux = Some df' →
  ∃ validation depot,
    get_col "Date Validation" df = Some validation
    ∧ get_col "Date depot" df = Some depot
    ∧ df' = enriched taux df validation depot.
Proof.
  intros Hload.
  destruct (get_col "Date Validation" df) as [v|] eqn:Hv;
    [|by rewrite load_and_process_data_None in Hload; auto].
  destruct (get_col "Date depot" df) as [d|] eqn:Hd;
    [|by rewrite load_and_process_data_None in Hload; auto].
  rewrite (load_and_process_data_Some taux df v d) in Hload by done.
  exists v, d. by injection Hload as <-.
Qed.

End Enriched.

Section EnrichedColumns.
Context `{Coercions}.

Ltac peel := repeat (rewrite get_set_col_ne by ne_labels).

Lemma extends_enriched taux df validation depot :
  get_col "Date Validation" df = Some validation →
  get_col "Date depot" df = Some depot →
  extends assigned_labels df (enriched taux df validation depot).
Proof.
  intros Hv Hd. unfold enriched, assigned_labels. cbv zeta.
  assert (get_col "Total précarité" (prepare df)
          = Some (numeric_column (get_col "Total précarité" df) (nrows df))) as Hp
    by (apply get_prepare_numeric; not_in_labels).
  pose proof (extends_with_beneficiaire _ _ Hp) as Eb.
  rewrite !siren_input_prepare in Eb by not_in_labels.
  remember (with_beneficiaire _ _ _ _) as df1 eqn:Edf1.
  assert (get_col "Date Validation" df1 = Some (to_datetime <$> validation)) as Hv1.
  { rewrite Edf1, get_with_beneficiaire_other by not_in_labels.
    rewrite get_prepare_date by not_in_labels. by rewrite Hv. }
  assert (get_col "Date depot" df1 = Some (to_datetime <$> depot)) as Hd1.
  { rewrite Edf1, get_with_beneficiaire_other by not_in_labels.
    rewrite get_prepare_date by not_in_labels. by rewrite Hd. }
  assert (extends ["Statut"; "Annee_Depot"] df1
            (set_col "Annee_Depot" (dt_year <$> (to_datetime <$> depot))
               (set_col "Statut" (Statut <$> (to_datetime <$> validation)) df1))) as Es.
  { extends_run; intros Hwf;
      pose proof (wf_get_col _ _ _ Hwf Hv1) as L1;
      pose proof (wf_get_col _ _ _ Hwf Hd1) as L2;
      rewrite length_fmap in L1, L2; by rewrite !length_fmap. }
  remember (set_col "Annee_Depot" _ _) as df2 eqn:Edf2.
  assert (extends metrics_labels df2
            (with_metrics taux (numeric_column (get_col "Total" df) (nrows df))
               (factor_column (get_col "Code équipement" df) (nrows df))
               (numeric_column (get_col "Tableau Recapitulatif champ 23" df) (nrows df))
               df2)) as Em.
  { apply extends_with_metrics; rewrite Edf2; peel;
      rewrite Edf1, get_with_beneficiaire_other by not_in_labels.
    - apply get_prepare_numeric. not_in_labels.
    - apply get_prepare_Facteur_Conversion.
    - apply get_prepare_numeric. not_in_labels. }
  eapply extends_weaken; cycle 1.
  - eapply extends_trans; [apply extends_prepare|].
    eapply extends_trans; [apply Eb|].
    eapply extends_trans; [apply Es|apply Em].
  - unfold prepare_labels. intros x. rewrite !elem_of_app. tauto.
Qed.

(** The columns of the enriched frame the properties below read. *)
Lemma get_enriched_precarite taux df v d :
  get_col "Total précarité" (enriched taux df v d)
  = Some (numeric_column (get_col "Total précarité" df) (nrows df)).
Proof.
  unfold enriched, with_metrics. cbv zeta. peel.
  rewrite get_with_beneficiaire_other by not_in_labels.
  apply get_prepare_numeric. not_in_labels.
Qed.

Lemma get_enriched_siren_8 taux df v d :
  get_col siren_col_8 (enriched taux df v d) = Some (siren <$> siren_input siren_col_8 df).
Proof.
  unfold enriched, with_metrics, with_beneficiaire. cbv zeta. peel.
  apply get_set_col_eq.
Qed.

Lemma get_enriched_siren_9 taux df v d :
  get_col siren_col_9 (enriched taux df v d) = Some (siren <$> siren_input siren_col_9 df).
Proof.
  unfold enriched, with_metrics, with_beneficiaire. cbv zeta. peel.
  apply get_set_col_eq.
Qed.

Lemma get_enriched_Type_Beneficiaire taux df v d :
  get_col "Type_Beneficiaire" (enriched taux df v d)
  = Some (zip_with select_beneficiaire
            (gt0 <$> numeric_column (get_col "Total précarité" df) (nrows df))
            (zip_with orb (ne_str "" <$> (siren <$> siren_input siren_col_8 df))
                          (ne_str "" <$> (siren <$> siren_input siren_col_9 df)))).
Proof.
  unfold enriched, with_metrics, with_beneficiaire. cbv zeta. peel.
  apply get_set_col_eq.
Qed.

Lemma get_enriched_kWh_cumac taux df v d :
  get_col "kWh_cumac" (enriched taux df v d)
  = Some (numeric_or_0 <$> numeric_column (get_col "Total" df) (nrows df)).
Proof. unfold enriched, with_metrics. cbv zeta. peel. apply get_set_col_eq. Qed.

Lemma get_enriched_Facteur_Conversion taux df v d :
  get_col "Facteur_Conversion" (enriched taux df v d)
  = Some (factor_column (get_col "Code équipement" df) (nrows df)).
Proof.
  unfold enriched, with_metrics. cbv zeta. peel.
  rewrite get_with_beneficiaire_other by not_in_labels.
  apply get_prepare_Facteur_Conversion.
Qed.

Lemma get_enriched_Duree_Vie taux df v d :
  get_col "Duree_Vie" (enriched taux df v d)
  = Some (lifetime_column (get_col "Code équipement" df) (nrows df)).
Proof.
  unfold enriched, with_metrics. cbv zeta. peel.
  rewrite get_with_beneficiaire_other by not_in_labels.
  apply get_prepare_Duree_Vie.
Qed.

Lemma get_enriched_Secteur taux df v d :
  get_col "Secteur" (enriched taux df v d)
  = Some (sector_column (get_col "Code équipement" df) (nrows df)).
Proof.
  unfold enriched, with_metrics. cbv zeta. peel.
  rewrite get_with_beneficiaire_other by not_in_labels.
  apply get_prepare_Secteur.
Qed.

Lemma get_enriched_FacteurKey taux df v d :
  get_col "FacteurKey" (enriched taux df v d)
  = match get_col "Code équipement" df with
    | Some s => Some (FacteurKeys s)
    | None => get_col "FacteurKey" df
    end.
Proof.
  unfold enriched, with_metrics. cbv zeta. peel.
  rewrite get_with_beneficiaire_other by not_in_labels.
  destruct (get_col "Code équipement" df) eqn:E.
  - by apply get_prepare_FacteurKey.
  - by apply get_prepare_FacteurKey_absent.
Qed.

Lemma get_enriched_Annee_Depot taux df v d :
  get_col "Annee_Depot" (enriched taux df v d) = Some (dt_year <$> (to_datetime <$> d)).
Proof. unfold enriched, with_metrics. cbv zeta. peel. apply get_set_col_eq. Qed.

Definition metric_columns (taux : Q) (df : DataFrame) : list value :=
  kWh_reels_annuels taux (numeric_column (get_col "Total" df) (nrows df))
    (factor_column (get_col "Code équipement" df) (nrows df)).

Lemma get_enriched_kWh_reels_annuels taux df v d :
  get_col "kWh_reels_annuels" (enriched taux df v d) = Some (metric_columns taux df).
Proof. unfold enriched, with_metrics. cbv zeta. peel. apply get_set_col_eq. Qed.

Lemma get_enriched_GWh_reels_annuels taux df v d :
  get_col "GWh_reels_annuels" (enriched taux df v d)
  = Some (vdiv_scalar 1000000 <$> metric_columns taux df).
Proof. unfold enriched, with_metrics. cbv zeta. peel. apply get_set_col_eq. Qed.

Lemma get_enriched_CO2 taux df v d :
  get_col "CO2_evite_tonnes_an" (enriched taux df v d)
  = Some ((λ e, vdiv_scalar 1000 (vmul_scalar EMISSION_CO2_KWH e)) <$> metric_columns taux df).
Proof. unfold enriched, with_metrics. cbv zeta. peel. apply get_set_col_eq. Qed.

Lemma get_enriched_foyers taux df v d :
  get_col "Nb_foyers_equivalents" (enriched taux df v d)
  = Some (vdiv_scalar CONSO_MOYENNE_FOYER_KWH <$> metric_columns taux df).
Proof. unfold enriched, with_metrics. cbv zeta. peel. apply get_set_col_eq. Qed.

Lemma get_enriched_euros taux df v d :
  get_col "Economies_euros_an" (enriched taux df v d)
  = Some (vmul_scalar COUT_CHAUFFAGE_KWH <$> metric_columns taux df).
Proof. unfold enriched, with_metrics. cbv zeta. peel. apply get_set_col_eq. Qed.

End EnrichedColumns.

(** ** The lifetime window (app.py, lines 650-653) *)

Lemma active_iff year d l :
  active year (VNum d) (VNum l) = true
  ↔ (d <= inject_Z year)%Q ∧ (inject_Z year < d + l)%Q.
Proof.
  unfold active, le_year, gt_year, lift2; simpl.
  rewrite andb_true_iff, !bool_decide_eq_true. done.
Qed.

Lemma active_missing_year year v : active year VNaN v = false.
Proof. done. Qed.

(** With a whole deposit year and a whole lifetime the window is the half-open
    interval of integers. *)
Lemma active_Z year d l :
  active year (VNum (inject_Z d)) (VNum (inject_Z l)) = true
  ↔ (d ≤ year < d + l)%Z.
Proof.
  rewrite active_iff, <- inject_Z_plus, <- Zle_Qle, <- Zlt_Qlt. done.
Qed.

(** Boolean indexing keeps exactly the entries whose mask is [true]. *)
Lemma elem_of_select {A} (mask : list bool) (l : list A) x :
  x ∈ select mask l ↔ ∃ j, mask !! j = Some true ∧ l !! j = Some x.
Proof.
  revert l. induction mask as [|b mask IH]; intros l; simpl.
  - split; [by intros ?%elem_of_nil | by intros (j & ? & _)].
  - destruct l as [|y l].
    + split; [by intros ?%elem_of_nil | by intros (j & _ & ?)].
    + destruct b.
      * rewrite elem_of_cons, IH. split.
        -- intros [->|(j & ? & ?)]; [by exists 0%nat | by exists (S j)].
        -- intros ([|j] & Hm & Hl); simpl in *; [left; congruence | right; eauto].
      * rewrite IH. split.
        -- intros (j & ? & ?). by exists (S j).
        -- intros ([|j] & Hm & Hl); simpl in *; [done | eauto].
Qed.

Lemma index_filter_rows mask df : index (filter_rows mask df) = select mask (index df).
Proof. done. Qed.

Lemma get_filter_rows mask c df :
  get_col c (filter_rows mask df) = select mask <$> get_col c df.
Proof. unfold get_col, filter_rows; simpl. apply lookup_fmap. Qed.

Lemma cell_Some df c i v :
  cell df c i = Some v ↔ ∃ s, get_col c df = Some s ∧ s !! i = Some v.
Proof.
  unfold cell. destruct (get_col c df) as [s|]; simpl.
  - split; [eauto | by intros (? & [= <-] & ?)].
  - split; [done | by intros (? & ? & ?)].
Qed.

(** The mask of lines 651-652 is true exactly on the rows that have a deposit
    year and a lifetime with the projection year in their window. *)
Lemma active_window year a b :
  active year a b = true
  ↔ ∃ d l, a = VNum d ∧ b = VNum l
           ∧ (d <= inject_Z year)%Q ∧ (inject_Z year < d + l)%Q.
Proof.
  split.
  - destruct a as [d| | |]; try done.
    destruct b as [l| | |]; try (unfold active; by rewrite andb_false_r).
    intros Hact%active_iff. by exists d, l.
  - intros (d & l & -> & -> & Hw). by apply active_iff.
Qed.

Lemma select_zip {A B} (mask : list bool) (l : list A) (k : list B) :
  zip (select mask l) (select mask k) = select mask (zip l k).
Proof.
  revert l k. induction mask as [|m mask IH]; intros [|x l] [|y k]; simpl; try done.
  - by destruct m, (select mask l).
  - destruct m; simpl; by rewrite IH.
Qed.

(** C3. The active operations of projection year [year] are the rows of the
    projection frame selected by one mask, in the index and in every column
    alike (so that the energy grouped for the year is that of the selected
    rows and of no other); the mask keeps a row if and only if the row has a
    deposit year [d] and a lifetime [l] with [d <= year < d + l].  Hence a
    record [r] with a deposit year and a lifetime is in the active frame,
    with its cells, if and only if [d <= year < d + l]; a record deposited
    in 2020 with a lifetime of 5 years is active in 2020, ..., 2024 and in no
    other year. *)
Theorem lifetime_windowing :
  (∀ (df_proj : DataFrame) (year : Z) (annee duree : list value),
      get_col "Annee_Depot" df_proj = Some annee →
      get_col "Duree_Vie" df_proj = Some duree →
      ∃ mask active_rows,
        active_ops year df_proj = Return active_rows
        ∧ index active_rows = select mask (index df_proj)
        ∧ (∀ c, get_col c active_rows = select mask <$> get_col c df_proj)
        ∧ (∀ i a b, annee !! i = Some a → duree !! i = Some b →
             ∃ keep, mask !! i = Some keep
                     ∧ (keep = true
                        ↔ ∃ d l, a = VNum d ∧ b = VNum l
                                 ∧ (d <= inject_Z year)%Q ∧ (inject_Z year < d + l)%Q))
        ∧ (∀ (i : nat) (r : Z) (d l : Q),
             NoDup (index df_proj) →
             index df_proj !! i = Some r →
             annee !! i = Some (VNum d) →
             duree !! i = Some (VNum l) →
             (r ∈ index active_rows
              ↔ (d <= inject_Z year)%Q ∧ (inject_Z year < d + l)%Q)
             ∧ ∀ c s s' v,
                 get_col c df_proj = Some s → s !! i = Some v →
                 get_col c active_rows = Some s' →
                 ((r, v) ∈ zip (index active_rows) s'
                  ↔ (d <= inject_Z year)%Q ∧ (inject_Z year < d + l)%Q)))
  ∧ (∀ year : Z,
      active year (VNum 2020) (VNum 5) = true ↔ (2020 ≤ year ≤ 2024)%Z).
Proof.
  split.
  - intros df_proj year annee duree Ha Hdu.
    exists (zip_with (active year) annee duree),
      (filter_rows (zip_with (active year) annee duree) df_proj).
    split; [unfold active_ops; by rewrite Ha, Hdu|].
    split; [apply index_filter_rows|].
    split; [intros c; apply get_filter_rows|].
    split.
    + intros i a b Hai Hbi. exists (active year a b).
      split; [|apply active_window].
      by rewrite lookup_zip_with, Hai; simpl; rewrite Hbi.
    + intros i r d l Hnd Hr Hai Hdi.
      assert (zip_with (active year) annee duree !! i
              = Some (active year (VNum d) (VNum l))) as Hmi.
      { by rewrite lookup_zip_with, Hai; simpl; rewrite Hdi. }
      split.
      * rewrite index_filter_rows, elem_of_select, <- active_iff. split.
        -- intros (j & Hm & Hj).
           assert (j = i) as -> by (eapply NoDup_lookup; eauto). congruence.
        -- intros Hact. exists i. by rewrite Hmi, Hact.
      * intros c s s' v Hs Hv Hs'.
        rewrite get_filter_rows, Hs in Hs'. injection Hs' as <-.
        rewrite index_filter_rows, select_zip, elem_of_select, <- active_iff. split.
        -- intros (j & Hm & Hj). apply lookup_zip_Some in Hj as [Hj _].
           assert (j = i) as -> by (eapply NoDup_lookup; eauto). congruence.
        -- intros Hact. exists i. rewrite Hmi, Hact. split; [done|].
           by apply lookup_zip_Some.
  - intros year. rewrite (active_Z year 2020 5). lia.
Qed.

(** ** The other columns of the enriched frame *)

Section MoreColumns.
Context `{Coercions}.

Ltac peel := repeat (rewrite get_set_col_ne by ne_labels).

(** The period label of the rows (lines 135-140). *)
Definition periode_column (df : DataFrame) : list value :=
  match get_col "PERIODE" df with
  | Some s => (λ v, VStr (PyStr.upper (PyStr.strip (astype_str v)))) <$> s
  | None =>
      match get_col "Depot" df with
      | Some s =>
          (λ v, fillna (VStr "P5")
                  (option_value VStr (PyStr.extract_P_digit (astype_str v)))) <$> s
      | None => replicate (nrows df) (VStr "P5")
      end
  end.

(** The agent of the rows (lines 143-147). *)
Definition mandataire_column (df : DataFrame) : list value :=
  match get_col "Mandataire" df with
  | Some s => mandataire <$> s
  | None => replicate (nrows df) (VStr "Non renseigné")
  end.

Lemma extends_before_periode df :
  extends (date_cols ++ ["code postal"; "departement"]) df
    (add_departement (parse_dates df)).
Proof.
  eapply extends_trans; [apply extends_parse_dates | apply extends_add_departement].
Qed.

Lemma extends_after_periode df0 :
  extends (["Mandataire"] ++ numeric_cols ++ equipment_labels) df0
    (map_equipment (coerce_numerics (normalise_mandataire df0))).
Proof.
  eapply extends_trans; [apply extends_normalise_mandataire|].
  eapply extends_trans; [apply extends_coerce_numerics | apply extends_map_equipment].
Qed.

Lemma get_prepare_Periode df :
  get_col "Période" (prepare df) = Some (periode_column df).
Proof.
  unfold prepare. rewrite (ext_other _ _ _ (extends_after_periode _)) by not_in_labels.
  pose proof (extends_before_periode df) as E.
  unfold add_periode, periode_column.
  rewrite !(ext_other _ _ _ E) by not_in_labels.
  destruct (get_col "PERIODE" df); [apply get_set_col_eq|].
  destruct (get_col "Depot" df); [apply get_set_col_eq|].
  unfold set_scalar. by rewrite get_set_col_eq, (extends_nrows _ _ _ E).
Qed.

Lemma get_prepare_Mandataire df :
  get_col "Mandataire" (prepare df) = Some (mandataire_column df).
Proof.
  unfold prepare.
  rewrite (ext_other _ _ _ (extends_map_equipment _)) by not_in_labels.
  rewrite (ext_other _ _ _ (extends_coerce_numerics _)) by not_in_labels.
  assert (extends (date_cols ++ ["code postal"; "departement"] ++ ["Période"]) df
            (add_periode (add_departement (parse_dates df)))) as E.
  { eapply extends_trans; [apply extends_parse_dates|].
    eapply extends_trans; [apply extends_add_departement | apply extends_add_periode]. }
  unfold normalise_mandataire, mandataire_column.
  rewrite (ext_other _ _ _ E) by not_in_labels.
  destruct (get_col "Mandataire" df); [apply get_set_col_eq|].
  unfold set_scalar. by rewrite get_set_col_eq, (extends_nrows _ _ _ E).
Qed.

Lemma get_enriched_Periode taux df v d :
  get_col "Période" (enriched taux df v d) = Some (periode_column df).
Proof.
  unfold enriched, with_metrics. cbv zeta. peel.
  rewrite get_with_beneficiaire_other by not_in_labels. apply get_prepare_Periode.
Qed.

Lemma get_enriched_Mandataire taux df v d :
  get_col "Mandataire" (enriched taux df v d) = Some (mandataire_column df).
Proof.
  unfold enriched, with_metrics. cbv zeta. peel.
  rewrite get_with_beneficiaire_other by not_in_labels. apply get_prepare_Mandataire.
Qed.

Lemma get_enriched_Statut taux df v d :
  get_col "Statut" (enriched taux df v d) = Some (Statut <$> (to_datetime <$> v)).
Proof. unfold enriched, with_metrics. cbv zeta. peel. apply get_set_col_eq. Qed.

Lemma get_enriched_Date_Validation taux df v d :
  get_col "Date Validation" df = Some v →
  get_col "Date Validation" (enriched taux df v d) = Some (to_datetime <$> v).
Proof.
  intros Hv. unfold enriched, with_metrics. cbv zeta. peel.
  rewrite get_with_beneficiaire_other by not_in_labels.
  rewrite get_prepare_date by not_in_labels. by rewrite Hv.
Qed.

Lemma get_enriched_Date_depot taux df v d :
  get_col "Date depot" df = Some d →
  get_col "Date depot" (enriched taux df v d) = Some (to_datetime <$> d).
Proof.
  intros Hd. unfold enriched, with_metrics. cbv zeta. peel.
  rewrite get_with_beneficiaire_other by not_in_labels.
  rewrite get_prepare_date by not_in_labels. by rewrite Hd.
Qed.

Lemma get_enriched_GWh_cumac taux df v d :
  get_col "GWh_cumac" (enriched taux df v d)
  = Some (vdiv_scalar 1000000
            <$> (numeric_or_0 <$> numeric_column (get_col "Total" df) (nrows df))).
Proof. unfold enriched, with_metrics. cbv zeta. peel. apply get_set_col_eq. Qed.

Lemma get_enriched_Prime_versee taux df v d :
  get_col "Prime_versee" (enriched taux df v d)
  = Some (numeric_column (get_col "Tableau Recapitulatif champ 23" df) (nrows df)).
Proof. unfold enriched, with_metrics. cbv zeta. apply get_set_col_eq. Qed.

Lemma get_enriched_Total taux df v d :
  get_col "Total" (enriched taux df v d)
  = Some (numeric_column (get_col "Total" df) (nrows df)).
Proof.
  unfold enriched, with_metrics. cbv zeta. peel.
  rewrite get_with_beneficiaire_other by not_in_labels.
  apply get_prepare_numeric. not_in_labels.
Qed.

End MoreColumns.

(** ** Row preservation *)

Section InPlace.
Context `{Coercions}.

Ltac peel := repeat (rewrite get_set_col_ne by ne_labels).

(** The input columns the routine rewrites in place. *)
Lemma get_enriched_date taux df v d c :
  c ∈ date_cols →
  get_col c (enriched taux df v d) = (λ s : list value, to_datetime <$> s) <$> get_col c df.
Proof.
  intros Hc. rewrite <- (get_prepare_date c df Hc).
  revert Hc. unfold date_cols. rewrite !elem_of_cons, elem_of_nil.
  intros [->|[->|[->|[->|[->|[]]]]]];
    unfold enriched, with_metrics; cbv zeta; peel;
    by rewrite get_with_beneficiaire_other by not_in_labels.
Qed.

Lemma get_enriched_numeric taux df v d c :
  c ∈ numeric_cols →
  get_col c (enriched taux df v d) = Some (numeric_column (get_col c df) (nrows df)).
Proof.
  intros Hc. rewrite <- (get_prepare_numeric c df Hc).
  revert Hc. unfold numeric_cols. rewrite !elem_of_cons, elem_of_nil.
  intros [->|[->|[->|[->|[]]]]];
    unfold enriched, with_metrics; cbv zeta; peel;
    by rewrite get_with_beneficiaire_other by not_in_labels.
Qed.

Lemma get_enriched_code_postal taux df v d :
  get_col "code postal" (enriched taux df v d)
  = (λ s : list value, (λ x, VStr (code_postal x)) <$> s) <$> get_col "code postal" df.
Proof.
  unfold enriched, with_metrics. cbv zeta. peel.
  rewrite get_with_beneficiaire_other by not_in_labels.
  unfold prepare.
  assert (extends (["Période"] ++ ["Mandataire"] ++ numeric_cols ++ equipment_labels)
            (add_departement (parse_dates df))
            (map_equipment (coerce_numerics (normalise_mandataire
               (add_periode (add_departement (parse_dates df))))))) as E.
  { eapply extends_trans; [apply extends_add_periode|].
    eapply extends_trans; [apply extends_normalise_mandataire|].
    eapply extends_trans; [apply extends_coerce_numerics|].
    apply extends_map_equipment. }
  rewrite (ext_other _ _ _ E) by not_in_labels.
  unfold add_departement.
  rewrite (ext_other _ _ _ (extends_parse_dates df)) by not_in_labels.
  destruct (get_col "code postal" df) as [s|] eqn:Hs; simpl.
  - rewrite get_set_col_ne by done. rewrite get_set_col_eq.
    by rewrite <- list_fmap_compose.
  - by rewrite (ext_other _ _ _ (extends_parse_dates df)) by not_in_labels.
Qed.

(** C7 (corrected). The transform does not only add columns (see
    [enricher_overwrites_input_columns] below).  When the enricher succeeds
    the enriched frame has the index of its input, hence as many rows, in
    the same order, none dropped and none repeated; every label of the input
    is still a label of the output; the columns the routine does not assign
    are returned as they came; if every input column has one cell per row,
    so has every output column; and the input columns the routine knows are
    rewritten in place, cell by cell, each row from its own cell: the date
    columns parsed, the postal code trimmed and padded, the agent
    normalised, the primary amounts coerced to numbers with 0 for what is
    no number, and the two identifiers trimmed. *)
Theorem row_preservation (df df' : DataFrame) (taux_efficacite : Q) :
  load_and_process_data df taux_efficacite = Some df' →
  index df' = index df
  ∧ nrows df' = nrows df
  ∧ (∀ c, is_Some (get_col c df) → is_Some (get_col c df'))
  ∧ (∀ c, c ∉ assigned_labels → get_col c df' = get_col c df)
  ∧ (wf df → wf df')
  ∧ (∀ c s, c ∈ date_cols → get_col c df = Some s →
       get_col c df' = Some (to_datetime <$> s))
  ∧ (∀ s, get_col "code postal" df = Some s →
       get_col "code postal" df'
       = Some ((λ x, VStr (PyStr.zfill 5 (PyStr.strip (astype_str x)))) <$> s))
  ∧ (∀ s, get_col "Mandataire" df = Some s →
       get_col "Mandataire" df' = Some (mandataire <$> s))
  ∧ (∀ c s, c ∈ numeric_cols → get_col c df = Some s →
       get_col c df' = Some ((λ x, fillna (VNum 0) (to_numeric x)) <$> s))
  ∧ (∀ c s, c ∈ [siren_col_8; siren_col_9] → get_col c df = Some s →
       get_col c df'
       = Some ((λ x, replace_str "nan" "" (VStr (PyStr.strip (astype_str x)))) <$> s)).
Proof.
  intros (v & d & Hv & Hd & ->)%load_and_process_data_inv.
  pose proof (extends_enriched taux_efficacite df v d Hv Hd) as E.
  split; [apply E|]. split; [by apply (extends_nrows _ _ _ E)|].
  split; [apply E|]. split; [apply E|]. split; [apply E|].
  split; [|split; [|split; [|split]]].
  - intros c s Hc Hs. by rewrite (get_enriched_date _ _ _ _ c Hc), Hs.
  - intros s Hs. by rewrite get_enriched_code_postal, Hs.
  - intros s Hs. rewrite get_enriched_Mandataire. unfold mandataire_column.
    by rewrite Hs.
  - intros c s Hc Hs. rewrite (get_enriched_numeric _ _ _ _ c Hc), Hs. done.
  - intros c s Hc Hs. rewrite !elem_of_cons, elem_of_nil in Hc.
    destruct Hc as [->|[->|[]]].
    + rewrite get_enriched_siren_8. unfold siren_input. by rewrite Hs.
    + rewrite get_enriched_siren_9. unfold siren_input. by rewrite Hs.
Qed.

End InPlace.

(** Three rows of an export whose agent, amount and postal code need the
    normalisation. *)
Definition export_to_normalise : DataFrame :=
  frame 3 [ ("Date Validation", [VDate (mkTimestamp 2023 6 1); VNaN;
                                 VDate (mkTimestamp 3023 1 1)]);
            ("Date depot", [VDate (mkTimestamp 2023 5 12); VDate (mkTimestamp 2024 1 9);
                            VDate (mkTimestamp 2024 2 1)]);
            ("Mandataire", [VStr " ACME "; VNaN; VStr "nan"]);
            ("Total", [VNum 250000; VNaN; VStr "n/a"]);
            ("code postal", [VStr "1400"; VStr " 75011"; VStr "69"]);
            ("Commentaire", [VStr " libre "; VNaN; VNum 3]) ].

Lemma export_to_normalise_wf : wf export_to_normalise.
Proof.
  intros c s Hc. apply elem_of_list_to_map_2 in Hc.
  repeat (apply elem_of_cons in Hc as [Hc|Hc]; [by inversion Hc|]).
  by apply elem_of_nil in Hc.
Qed.

Lemma export_to_normalise_Some :
  load_and_process_data export_to_normalise 0.45
  = Some (enriched 0.45 export_to_normalise
            [VDate (mkTimestamp 2023 6 1); VNaN; VDate (mkTimestamp 3023 1 1)]
            [VDate (mkTimestamp 2023 5 12); VDate (mkTimestamp 2024 1 9);
             VDate (mkTimestamp 2024 2 1)]).
Proof. by apply load_and_process_data_Some. Qed.

(** C7 as stated fails: the enricher succeeds on this export and returns
    its agent, amount, postal code and validation date columns with other
    cells than it received. *)
Lemma enricher_overwrites_input_columns :
  ∃ df',
    load_and_process_data export_to_normalise 0.45 = Some df'
    ∧ get_col "Mandataire" export_to_normalise = Some [VStr " ACME "; VNaN; VStr "nan"]
    ∧ get_col "Mandataire" df'
      = Some [VStr "ACME"; VStr "Non renseigné"; VStr "Non renseigné"]
    ∧ get_col "Total" export_to_normalise = Some [VNum 250000; VNaN; VStr "n/a"]
    ∧ get_col "Total" df' = Some [VNum 250000; VNum 0; VNum 0]
    ∧ get_col "code postal" export_to_normalise
      = Some [VStr "1400"; VStr " 75011"; VStr "69"]
    ∧ get_col "code postal" df' = Some [VStr "01400"; VStr "75011"; VStr "00069"]
    ∧ get_col "Date Validation" df'
      = Some [VDate (mkTimestamp 2023 6 1); VNaN; VNaN]
    ∧ get_col "Mandataire" df' ≠ get_col "Mandataire" export_to_normalise.
Proof.
  eexists. split; [exact export_to_normalise_Some|].
  split; [reflexivity|].
  assert (get_col "Mandataire"
            (enriched 0.45 export_to_normalise
               [VDate (mkTimestamp 2023 6 1); VNaN; VDate (mkTimestamp 3023 1 1)]
               [VDate (mkTimestamp 2023 5 12); VDate (mkTimestamp 2024 1 9);
                VDate (mkTimestamp 2024 2 1)])
          = Some [VStr "ACME"; VStr "Non renseigné"; VStr "Non renseigné"]) as Hm
    by (vm_compute; reflexivity).
  split; [exact Hm|]. split; [reflexivity|].
  split; [vm_compute; reflexivity|]. split; [reflexivity|].
  split; [vm_compute; reflexivity|]. split; [vm_compute; reflexivity|].
  rewrite Hm. by vm_compute.
Qed.

(** The same export through the corrected statement: three rows in and out,
    the free column untouched, the known ones normalised. *)
Lemma row_preservation_witness :
  ∃ df',
    load_and_process_data export_to_normalise 0.45 = Some df'
    ∧ index df' = [0; 1; 2]%Z
    ∧ nrows df' = 3%nat
    ∧ wf df'
    ∧ get_col "Commentaire" df' = Some [VStr " libre "; VNaN; VNum 3]
    ∧ get_col "Date Validation" df' = Some [VDate (mkTimestamp 2023 6 1); VNaN; VNaN]
    ∧ get_col "code postal" df' = Some [VStr "01400"; VStr "75011"; VStr "00069"]
    ∧ get_col "Mandataire" df'
      = Some [VStr "ACME"; VStr "Non renseigné"; VStr "Non renseigné"]
    ∧ get_col "Total" df' = Some [VNum 250000; VNum 0; VNum 0].
Proof.
  eexists. split; [exact export_to_normalise_Some|].
  destruct (row_preservation export_to_normalise _ 0.45 export_to_normalise_Some)
    as (Hidx & Hn & _ & Hother & Hwf & Hdate & Hcp & Hm & Hnum & _).
  split; [rewrite Hidx; by vm_compute|]. split; [rewrite Hn; by vm_compute|].
  split; [exact (Hwf export_to_normalise_wf)|].
  split.
  { rewrite (Hother "Commentaire"); [reflexivity|].
    apply (bool_decide_unpack _). by vm_compute. }
  assert ("Date Validation" ∈ date_cols) as Hdv
    by (apply (bool_decide_unpack _); by vm_compute).
  assert ("Total" ∈ numeric_cols) as Htot
    by (apply (bool_decide_unpack _); by vm_compute).
  split; [rewrite (Hdate "Date Validation" _ Hdv eq_refl); by vm_compute|].
  split; [rewrite (Hcp _ eq_refl); by vm_compute|].
  split; [rewrite (Hm _ eq_refl); by vm_compute|].
  rewrite (Hnum "Total" _ Htot eq_refl). by vm_compute.
Defined.

(** ** Missing columns *)

(** Two exports that lack one of the date columns and nothing else the
    routine needs. *)
Definition export_without_validation_date : DataFrame :=
  frame 2 [ ("Date depot", [VDate (mkTimestamp 2023 5 12); VDate (mkTimestamp 2024 1 9)]);
            ("Total", [VNum 250000; VNum 80000]);
            ("Total précarité", [VNum 0; VNum 80000]);
            ("Code équipement", [VStr "BAR-TH-113"; VStr "BAR-EN-101"]);
            ("Mandataire", [VStr "ACME"; VNaN]) ].

Definition export_without_deposit_date : DataFrame :=
  frame 2 [ ("Date Validation", [VDate (mkTimestamp 2023 6 1); VNaN]);
            ("Total", [VNum 250000; VNum 80000]);
            ("Total précarité", [VNum 0; VNum 80000]);
            ("Code équipement", [VStr "BAR-TH-113"; VStr "BAR-EN-101"]);
            ("Mandataire", [VStr "ACME"; VNaN]) ].

(** C1 (violated by the code). A table that was read but has no validation
    date column, or no deposit date column, makes the enricher take its
    [except] branch: lines 202 and 203 read the two columns without the
    presence test every other block makes. *)
Theorem absent_date_column_is_an_error :
  load_and_process_data export_without_validation_date TAUX_EFFICACITE_DEFAULT = None
  ∧ load_and_process_data export_without_deposit_date TAUX_EFFICACITE_DEFAULT = None.
Proof. split; apply load_and_process_data_fails_iff; [left | right]; reflexivity. Qed.

(** ** The example scenario of the specification *)

(** C8 (violated by the code). The row of the scenario, alone in its table,
    has no validation date column: the enricher fails on it (the defect of
    lines 202-203).  Once that column is there, be it empty, the row gets the
    key BAR-TH, the factor 1/12.16 (0.08224 to five places), the real annual
    energy 45000/12.16 kWh (within 0.2 of 3700.8), 0.2109 t of CO2 (within
    0.0001 of 0.2110), the lifetime 17 and the deposit year 2022, so that it
    is active exactly in the years 2022 to 2038. *)
Theorem example_scenario :
  load_and_process_data scenario_row 0.45 = None
  ∧ ∃ df' facteur kWh CO2,
      load_and_process_data scenario_row_validated 0.45 = Some df'
      ∧ cell df' "FacteurKey" 0 = Some (VStr "BAR-TH")
      ∧ cell df' "Facteur_Conversion" 0 = Some (VNum facteur)
      ∧ (facteur == 1 / 12.16)%Q
      ∧ (0.08224 - 0.00001 < facteur < 0.08224 + 0.00001)%Q
      ∧ cell df' "kWh_reels_annuels" 0 = Some (VNum kWh)
      ∧ (kWh == 100000 * (1 / 12.16) * 0.45)%Q
      ∧ (3700.8 - 0.2 < kWh < 3700.8 + 0.2)%Q
      ∧ cell df' "CO2_evite_tonnes_an" 0 = Some (VNum CO2)
      ∧ (CO2 == kWh * 0.057 / 1000)%Q
      ∧ (0.2110 - 0.0001 < CO2 < 0.2110 + 0.0001)%Q
      ∧ cell df' "Duree_Vie" 0 = Some (VNum 17)
      ∧ cell df' "Annee_Depot" 0 = Some (VNum 2022)
      ∧ ∀ year : Z, active year (VNum 2022) (VNum 17) = true ↔ (2022 ≤ year ≤ 2038)%Z.
Proof.
  split; [apply load_and_process_data_fails_iff; left; reflexivity|].
  exists (enriched 0.45 scenario_row_validated [VNaN] [VDate (mkTimestamp 2022 3 1)]),
    (1 / 12.16)%Q, (100000 * (1 / 12.16) * 0.45)%Q,
    (100000 * (1 / 12.16) * 0.45 * 0.057 / 1000)%Q.
  split; [by apply load_and_process_data_Some|].
  split; [vm_compute; reflexivity|].
  split; [vm_compute; reflexivity|].
  split; [reflexivity|].
  split; [by vm_compute|].
  split; [vm_compute; reflexivity|].
  split; [reflexivity|].
  split; [by vm_compute|].
  split; [vm_compute; reflexivity|].
  split; [reflexivity|].
  split; [by vm_compute|].
  split; [vm_compute; reflexivity|].
  split; [vm_compute; reflexivity|].
  intros year. rewrite (active_Z year 2022 17). lia.
Qed.

(** ** The beneficiary type (app.py, lines 188-200) *)

Section Beneficiary.
Context `{Coercions}.

Lemma numeric_or_0_num v : ∃ q, numeric_or_0 v = VNum q.
Proof.
  unfold numeric_or_0, to_numeric.
  destruct v as [q|s|t|]; simpl; eauto.
  - destruct (numeric_of_text s); simpl; eauto.
  - destruct (numeric_of_date t); simpl; eauto.
Qed.

Lemma numeric_or_0_idemp v : numeric_or_0 (numeric_or_0 v) = numeric_or_0 v.
Proof. destruct (numeric_or_0_num v) as [q ->]. done. Qed.

(** A primary numeric column holds a number in every row. *)
Lemma numeric_column_lookup (o : option (list value)) n i :
  (∀ s, o = Some s → length s = n) → (i < n)%nat →
  ∃ q, numeric_column o n !! i = Some (VNum q).
Proof.
  intros Hlen Hi. destruct o as [s|]; simpl.
  - destruct (lookup_lt_is_Some_2 s i) as [v Hv]; [by rewrite (Hlen s)|].
    destruct (numeric_or_0_num v) as [q Hq]. exists q.
    by rewrite list_lookup_fmap, Hv; simpl; rewrite Hq.
  - exists 0%Q. by apply lookup_replicate_2.
Qed.

Lemma siren_text v : ∃ a, siren v = VStr a.
Proof. unfold siren, replace_str. case_decide; eauto. Qed.

(** An identifier cell is blanked when its trimmed text is empty or [nan]. *)
Lemma siren_blank v :
  siren v = VStr "" ↔ PyStr.strip (astype_str v) = "" ∨ PyStr.strip (astype_str v) = "nan".
Proof.
  unfold siren, replace_str. case_decide as E.
  - split; [by right | done].
  - split; [intros [= ->]; by left | intros [->|?]; done].
Qed.

Lemma siren_input_length c df : wf df → length (siren_input c df) = nrows df.
Proof.
  intros Hwf. unfold siren_input. destruct (get_col c df) eqn:E; simpl.
  - by apply (wf_get_col df c).
  - apply length_replicate.
Qed.

Lemma siren_input_lookup c df i :
  wf df → (i < nrows df)%nat → ∃ v, siren_input c df !! i = Some v.
Proof.
  intros Hwf Hi. apply lookup_lt_is_Some_2. by rewrite siren_input_length.
Qed.

(** The four cells of a row the beneficiary block decides on. *)
Lemma enriched_beneficiary_row taux df v d i (p : Q) (v8 v9 : value) :
  numeric_column (get_col "Total précarité" df) (nrows df) !! i = Some (VNum p) →
  siren_input siren_col_8 df !! i = Some v8 →
  siren_input siren_col_9 df !! i = Some v9 →
  cell (enriched taux df v d) "Total précarité" i = Some (VNum p)
  ∧ cell (enriched taux df v d) siren_col_8 i = Some (siren v8)
  ∧ cell (enriched taux df v d) siren_col_9 i = Some (siren v9)
  ∧ cell (enriched taux df v d) "Type_Beneficiaire" i
    = Some (select_beneficiaire (bool_decide (0 < p)%Q)
              (ne_str "" (siren v8) || ne_str "" (siren v9))).
Proof.
  intros Hp Hv8 Hv9. unfold cell.
  rewrite get_enriched_precarite, get_enriched_siren_8, get_enriched_siren_9,
    get_enriched_Type_Beneficiaire, !bind_Some_eq.
  rewrite !lookup_zip_with, !list_lookup_fmap, Hp, Hv8, Hv9. done.
Qed.

(** C4. In every row of the enriched frame the precarity amount is a number
    and the two identifier fields are texts, and the beneficiary type follows
    the priority: a precarity amount > 0 gives the precarity household, also
    when an identifier is present; otherwise a non-empty identifier gives the
    legal entity; otherwise the row is a standard household. *)
Theorem beneficiary_priority (df df' : DataFrame) (taux_efficacite : Q) (i : nat) :
  load_and_process_data df taux_efficacite = Some df' →
  wf df → (i < nrows df)%nat →
  ∃ (precarite : Q) (id8 id9 : string),
    cell df' "Total précarité" i = Some (VNum precarite)
    ∧ cell df' siren_col_8 i = Some (VStr id8)
    ∧ cell df' siren_col_9 i = Some (VStr id9)
    ∧ ((0 < precarite)%Q →
       cell df' "Type_Beneficiaire" i = Some (VStr "Précarité énergétique"))
    ∧ (¬ (0 < precarite)%Q → id8 ≠ "" ∨ id9 ≠ "" →
       cell df' "Type_Beneficiaire" i = Some (VStr "Personne Morale"))
    ∧ (¬ (0 < precarite)%Q → id8 = "" → id9 = "" →
       cell df' "Type_Beneficiaire" i = Some (VStr "Ménage Classique")).
Proof.
  intros (v & d & Hv & Hd & ->)%load_and_process_data_inv Hwf Hi.
  destruct (numeric_column_lookup (get_col "Total précarité" df) (nrows df) i)
    as [p Hp]; [intros s; apply Hwf | done |].
  destruct (siren_input_lookup siren_col_8 df i Hwf Hi) as [v8 Hv8].
  destruct (siren_input_lookup siren_col_9 df i Hwf Hi) as [v9 Hv9].
  destruct (enriched_beneficiary_row taux_efficacite df v d i p v8 v9 Hp Hv8 Hv9)
    as (Ep & E8 & E9 & Et).
  destruct (siren_text v8) as [a Ha]. destruct (siren_text v9) as [b Hb].
  rewrite Ha in E8, Et. rewrite Hb in E9, Et.
  exists p, a, b. rewrite Ep, E8, E9, Et.
  split; [done|]. split; [done|]. split; [done|].
  unfold select_beneficiaire, ne_str.
  split; [|split].
  - intros Hpos. by rewrite bool_decide_eq_true_2.
  - intros Hneg Hid. rewrite (bool_decide_eq_false_2 (0 < p)%Q) by done.
    destruct Hid; [rewrite (bool_decide_eq_true_2 (a ≠ "")) by done
                  |rewrite (bool_decide_eq_true_2 (b ≠ "")) by done];
      by rewrite ?orb_true_r.
  - intros Hneg -> ->. by rewrite (bool_decide_eq_false_2 (0 < p)%Q).
Qed.

End Beneficiary.

Lemma scenario_row_validated_wf : wf scenario_row_validated.
Proof.
  intros c s Hc. apply elem_of_list_to_map_2 in Hc.
  repeat (apply elem_of_cons in Hc as [Hc|Hc]; [by inversion Hc|]).
  by apply elem_of_nil in Hc.
Qed.

(** Three rows: a precarity amount together with an identifier, an
    identifier alone, and neither (a missing cell and a blank one). *)
Definition beneficiaries : DataFrame :=
  frame 3 [ ("Date Validation", [VNaN; VNaN; VNaN]);
            ("Date depot", [VDate (mkTimestamp 2022 3 1); VDate (mkTimestamp 2022 4 1);
                            VDate (mkTimestamp 2022 5 1)]);
            ("Total précarité", [VNum 500; VNum 0; VNum 0]);
            (siren_col_8, [VStr "552100554"; VStr ""; VNaN]);
            (siren_col_9, [VStr ""; VStr " 732829320 "; VStr "  "]) ].

Lemma beneficiaries_wf : wf beneficiaries.
Proof.
  intros c s Hc. apply elem_of_list_to_map_2 in Hc.
  repeat (apply elem_of_cons in Hc as [Hc|Hc]; [by inversion Hc|]).
  by apply elem_of_nil in Hc.
Qed.

Lemma beneficiaries_Some :
  load_and_process_data beneficiaries 0.45
  = Some (enriched 0.45 beneficiaries [VNaN; VNaN; VNaN]
            [VDate (mkTimestamp 2022 3 1); VDate (mkTimestamp 2022 4 1);
             VDate (mkTimestamp 2022 5 1)]).
Proof. by apply load_and_process_data_Some. Qed.

(** The three priorities at work: the precarity amount wins over the
    identifier of row 0, the identifier of row 1 makes it a legal entity,
    and row 2, with no amount and no identifier, is a standard household. *)
Lemma beneficiary_priority_witness :
  ∃ df',
    load_and_process_data beneficiaries 0.45 = Some df'
    ∧ (cell df' "Total précarité" 0 = Some (VNum 500)
       ∧ cell df' siren_col_8 0 = Some (VStr "552100554")
       ∧ cell df' "Type_Beneficiaire" 0 = Some (VStr "Précarité énergétique"))
    ∧ (cell df' "Total précarité" 1 = Some (VNum 0)
       ∧ cell df' siren_col_9 1 = Some (VStr "732829320")
       ∧ cell df' "Type_Beneficiaire" 1 = Some (VStr "Personne Morale"))
    ∧ (cell df' "Total précarité" 2 = Some (VNum 0)
       ∧ cell df' siren_col_8 2 = Some (VStr "")
       ∧ cell df' siren_col_9 2 = Some (VStr "")
       ∧ cell df' "Type_Beneficiaire" 2 = Some (VStr "Ménage Classique")).
Proof.
  eexists. split; [exact beneficiaries_Some|].
  split; [|split].
  - destruct (beneficiary_priority beneficiaries _ 0.45 0 beneficiaries_Some
                beneficiaries_wf) as (p & id8 & id9 & Hp & H8 & H9 & Hprec & _);
      [vm_compute; lia|].
    assert (p = 500%Q) as -> by (vm_compute in Hp; by injection Hp as <-).
    split; [exact Hp|]. split; [vm_compute; reflexivity|].
    apply Hprec. by vm_compute.
  - destruct (beneficiary_priority beneficiaries _ 0.45 1 beneficiaries_Some
                beneficiaries_wf) as (p & id8 & id9 & Hp & H8 & H9 & _ & Hmor & _);
      [vm_compute; lia|].
    assert (p = 0%Q) as -> by (vm_compute in Hp; by injection Hp as <-).
    assert (id9 = "732829320") as -> by (vm_compute in H9; by injection H9 as <-).
    split; [exact Hp|]. split; [exact H9|].
    apply Hmor; [by vm_compute | by right].
  - destruct (beneficiary_priority beneficiaries _ 0.45 2 beneficiaries_Some
                beneficiaries_wf) as (p & id8 & id9 & Hp & H8 & H9 & _ & _ & Hmen);
      [vm_compute; lia|].
    assert (p = 0%Q) as -> by (vm_compute in Hp; by injection Hp as <-).
    assert (id8 = "") as -> by (vm_compute in H8; by injection H8 as <-).
    assert (id9 = "") as -> by (vm_compute in H9; by injection H9 as <-).
    split; [exact Hp|]. split; [exact H8|]. split; [exact H9|].
    apply Hmen; [by vm_compute | done | done].
Defined.

(** ** Identifiers that read [nan] *)

(** The identifier field [c] of row [i] is absent: there is no such column,
    or the trimmed text of the cell is empty or exactly [nan]. *)
Definition identifier_absent `{Coercions} (df : DataFrame) (c : string) (i : nat) : Prop :=
  match get_col c df with
  | None => True
  | Some s =>
      ∃ v, s !! i = Some v
           ∧ (PyStr.strip (astype_str v) = "" ∨ PyStr.strip (astype_str v) = "nan")
  end.

(** C10. A row whose precarity amount is not > 0 and whose two identifier
    fields are absent, their trimmed text being empty or exactly [nan], is a
    standard household; both identifiers come out as the empty text. *)
Theorem nan_identifier_is_absent `{Coercions} (df df' : DataFrame) (taux_efficacite : Q)
    (i : nat) (precarite : Q) :
  load_and_process_data df taux_efficacite = Some df' →
  wf df → (i < nrows df)%nat →
  cell df' "Total précarité" i = Some (VNum precarite) →
  ¬ (0 < precarite)%Q →
  identifier_absent df siren_col_8 i →
  identifier_absent df siren_col_9 i →
  cell df' siren_col_8 i = Some (VStr "")
  ∧ cell df' siren_col_9 i = Some (VStr "")
  ∧ cell df' "Type_Beneficiaire" i = Some (VStr "Ménage Classique").
Proof.
  intros (v & d & Hv & Hd & ->)%load_and_process_data_inv Hwf Hi Hp Hneg H8 H9.
  assert (∀ c, identifier_absent df c i →
               ∃ v, siren_input c df !! i = Some v ∧ siren v = VStr "") as Hblank.
  { intros c Hc. unfold identifier_absent, siren_input in *.
    destruct (get_col c df) as [s|].
    - destruct Hc as (x & Hx & Hs). exists x. split; [done|]. by apply siren_blank.
    - exists (VStr ""). split; [by apply lookup_replicate_2|]. by apply siren_blank; left. }
  destruct (Hblank _ H8) as (v8 & Hv8 & Hs8). destruct (Hblank _ H9) as (v9 & Hv9 & Hs9).
  destruct (numeric_column_lookup (get_col "Total précarité" df) (nrows df) i)
    as [p Hp']; [intros s; apply Hwf | done |].
  destruct (enriched_beneficiary_row taux_efficacite df v d i p v8 v9 Hp' Hv8 Hv9)
    as (Ep & E8 & E9 & Et).
  rewrite Ep in Hp. injection Hp as ->.
  rewrite E8, E9, Et, Hs8, Hs9.
  split; [done|]. split; [done|].
  unfold select_beneficiaire. by rewrite (bool_decide_eq_false_2 (0 < precarite)%Q).
Qed.

(** A row whose identifiers are a missing cell (read as [nan] by
    [astype(str)]) and the text [nan] with blanks around it. *)
Definition nan_identifiers_row : DataFrame :=
  frame 1 [ ("Date Validation", [VNaN]);
            ("Date depot", [VDate (mkTimestamp 2024 2 29)]);
            ("Total", [VNum 52000]);
            (siren_col_8, [VNaN]);
            (siren_col_9, [VStr " nan "]) ].

Lemma nan_identifiers_row_wf : wf nan_identifiers_row.
Proof.
  intros c s Hc. apply elem_of_list_to_map_2 in Hc.
  repeat (apply elem_of_cons in Hc as [Hc|Hc]; [by inversion Hc|]).
  by apply elem_of_nil in Hc.
Qed.

Lemma nan_identifier_is_absent_witness :
  cell (enriched 0.45 nan_identifiers_row [VNaN] [VDate (mkTimestamp 2024 2 29)])
    siren_col_8 0 = Some (VStr "")
  ∧ cell (enriched 0.45 nan_identifiers_row [VNaN] [VDate (mkTimestamp 2024 2 29)])
      siren_col_9 0 = Some (VStr "")
  ∧ cell (enriched 0.45 nan_identifiers_row [VNaN] [VDate (mkTimestamp 2024 2 29)])
      "Type_Beneficiaire" 0 = Some (VStr "Ménage Classique").
Proof.
  apply (nan_identifier_is_absent nan_identifiers_row _ 0.45 0 0).
  - by apply load_and_process_data_Some.
  - apply nan_identifiers_row_wf.
  - vm_compute; lia.
  - vm_compute; reflexivity.
  - by vm_compute.
  - exists VNaN. split; [reflexivity | right; reflexivity].
  - exists (VStr " nan "). split; [reflexivity | right; reflexivity].
Defined.

(** ** The equipment key (app.py, lines 158-166) *)

(** The rule in the words of the specification: the prefix is the part of the
    code before its first dash, the second segment is the part between the
    first dash and the next one, and the key is the prefix alone unless the
    second segment is TH, EN or EQ. *)
Fixpoint before_dash (s : string) : string :=
  match s with
  | EmptyString => EmptyString
  | String a s' => if Ascii.eqb a "-" then EmptyString else String a (before_dash s')
  end.

Fixpoint after_dash (s : string) : option string :=
  match s with
  | EmptyString => None
  | String a s' => if Ascii.eqb a "-" then Some s' else after_dash s'
  end.

Definition spec_second_segment (code : string) : option string :=
  before_dash <$> after_dash code.

Definition spec_EquipmentKey (code : string) : string :=
  let prefix := before_dash code in
  match spec_second_segment code with
  | Some segment =>
      if bool_decide (segment ∈ ["TH"; "EN"; "EQ"])
      then prefix ++ "-" ++ segment
      else prefix
  | None => prefix
  end.

Lemma string_app_assoc (a b c : string) : (a ++ b) ++ c = a ++ b ++ c.
Proof. induction a as [|x a IH]; [done | exact (f_equal (String x) IH)]. Qed.

(** The prefix has no dash, and the code is the prefix followed, when there
    is a dash, by that dash and the rest. *)
Lemma before_dash_no_dash s : ∀ n, String.get n (before_dash s) ≠ Some "-"%char.
Proof.
  induction s as [|a s IH]; intros n; simpl; [by destruct n|].
  destruct (Ascii.eqb a "-") eqn:E; [by destruct n|].
  destruct n as [|n]; simpl; [|apply IH].
  intros [= ->]. by rewrite Ascii.eqb_refl in E.
Qed.

Lemma before_after_dash s :
  s = before_dash s ++ match after_dash s with Some r => "-" ++ r | None => "" end.
Proof.
  induction s as [|a s IH]; simpl; [done|].
  destruct (Ascii.eqb a "-") eqn:E.
  - by apply Ascii.eqb_eq in E as ->.
  - exact (f_equal (String a) IH).
Qed.

(** [split] cuts at every dash: its first segment is the prefix, the others
    are the segments of what follows the first dash. *)
Lemma split_dash s :
  PyStr.split "-" s
  = before_dash s :: match after_dash s with
                     | Some r => PyStr.split "-" r
                     | None => []
                     end.
Proof.
  induction s as [|a s IH]; simpl; [done|].
  destruct (Ascii.eqb a "-"); [done|]. by rewrite IH.
Qed.

Section EquipmentKey.
Context `{Coercions}.

Lemma CodeEquip_prefix_spec code : CodeEquip_prefix code = VStr (before_dash code).
Proof. unfold CodeEquip_prefix, str_get. by rewrite split_dash. Qed.

Lemma CodeEquip_sub_spec code :
  CodeEquip_sub code = VStr (default "" (spec_second_segment code)).
Proof.
  unfold CodeEquip_sub, str_get, spec_second_segment. rewrite split_dash. simpl.
  destruct (after_dash code) as [r|]; simpl; [|done]. by rewrite split_dash.
Qed.

Lemma FacteurKey_spec code :
  FacteurKey (CodeEquip_prefix code) (CodeEquip_sub code) = VStr (spec_EquipmentKey code).
Proof.
  rewrite CodeEquip_prefix_spec, CodeEquip_sub_spec.
  unfold FacteurKey, spec_EquipmentKey, isin, str_add.
  destruct (spec_second_segment code) as [seg|]; simpl.
  - case_bool_decide; [f_equal; apply string_app_assoc | done].
  - done.
Qed.

Lemma FacteurKeys_lookup s i v :
  s !! i = Some v →
  FacteurKeys s !! i = Some (VStr (spec_EquipmentKey (equipment_code v))).
Proof.
  intros Hv. unfold FacteurKeys. rewrite lookup_zip_with, !list_lookup_fmap, Hv.
  simpl. by rewrite FacteurKey_spec.
Qed.

(** C5 (corrected). The rule does not hold of the text of the cell as it
    stands (see [equipment_key_not_of_raw_text] below): line 158 first
    renders the cell as text, trims it and puts it in upper case.  Of that
    normalised code the rule holds in every row: the key is the prefix, the
    part before the first dash, alone, unless the second dash-separated
    segment is TH, EN or EQ, in which case it is prefix + [-] + segment. *)
Theorem equipment_key_rule (df df' : DataFrame) (taux_efficacite : Q) (i : nat) (v : value) :
  load_and_process_data df taux_efficacite = Some df' →
  cell df "Code équipement" i = Some v →
  let code := PyStr.upper (PyStr.strip (astype_str v)) in
  let prefix := before_dash code in
  cell df' "CodeEquip_prefix" i = Some (VStr prefix)
  ∧ cell df' "FacteurKey" i
    = Some (VStr match spec_second_segment code with
                 | Some segment =>
                     if bool_decide (segment ∈ ["TH"; "EN"; "EQ"])
                     then prefix ++ "-" ++ segment
                     else prefix
                 | None => prefix
                 end).
Proof.
  intros (vd & d & Hv & Hd & ->)%load_and_process_data_inv
         (s & Hs & Hi)%cell_Some code prefix.
  assert (code = equipment_code v) as Hcode by reflexivity.
  split.
  - unfold cell, enriched, with_metrics. cbv zeta.
    repeat (rewrite get_set_col_ne by ne_labels).
    rewrite get_with_beneficiaire_other by not_in_labels.
    unfold prepare, map_equipment. rewrite get_code_before_equipment, Hs.
    repeat (rewrite get_set_col_ne by ne_labels).
    rewrite get_set_col_eq, bind_Some_eq, !list_lookup_fmap, Hi.
    simpl. rewrite CodeEquip_prefix_spec. unfold prefix. by rewrite Hcode.
  - unfold cell. rewrite get_enriched_FacteurKey, Hs, bind_Some_eq.
    rewrite (FacteurKeys_lookup s i v) by done.
    unfold prefix. by rewrite Hcode.
Qed.

End EquipmentKey.

(** Codes as an export may hold them: in lower case between blanks, with a
    second segment that is none of TH, EN, EQ, and without any dash. *)
Definition equipment_codes : DataFrame :=
  frame 4 [ ("Date Validation", [VNaN; VNaN; VNaN; VNaN]);
            ("Date depot", [VDate (mkTimestamp 2022 3 1); VDate (mkTimestamp 2022 3 2);
                            VDate (mkTimestamp 2022 3 3); VDate (mkTimestamp 2022 3 4)]);
            ("Code équipement", [VStr "bar-th-1"; VStr "  tra-eq-101 ";
                                 VStr "IND-UT-102"; VStr "AGRI"]) ].

Lemma equipment_codes_Some :
  load_and_process_data equipment_codes 0.45
  = Some (enriched 0.45 equipment_codes [VNaN; VNaN; VNaN; VNaN]
            [VDate (mkTimestamp 2022 3 1); VDate (mkTimestamp 2022 3 2);
             VDate (mkTimestamp 2022 3 3); VDate (mkTimestamp 2022 3 4)]).
Proof. by apply load_and_process_data_Some. Qed.

(** C5 as stated fails on the text of the cell: the code [bar-th-1] has the
    prefix [bar] and the second segment [th], which is none of TH, EN, EQ,
    so that the rule gives the key [bar]; the enricher gives BAR-TH. *)
Lemma equipment_key_not_of_raw_text :
  ∃ df',
    load_and_process_data equipment_codes 0.45 = Some df'
    ∧ cell equipment_codes "Code équipement" 0 = Some (VStr "bar-th-1")
    ∧ before_dash "bar-th-1" = "bar"
    ∧ spec_second_segment "bar-th-1" = Some "th"
    ∧ spec_EquipmentKey "bar-th-1" = "bar"
    ∧ cell df' "FacteurKey" 0 = Some (VStr "BAR-TH")
    ∧ cell df' "FacteurKey" 0 ≠ Some (VStr (spec_EquipmentKey "bar-th-1")).
Proof.
  eexists. split; [exact equipment_codes_Some|].
  split; [reflexivity|]. split; [reflexivity|]. split; [reflexivity|].
  split; [by vm_compute|].
  assert (cell (enriched 0.45 equipment_codes [VNaN; VNaN; VNaN; VNaN]
                  [VDate (mkTimestamp 2022 3 1); VDate (mkTimestamp 2022 3 2);
                   VDate (mkTimestamp 2022 3 3); VDate (mkTimestamp 2022 3 4)])
            "FacteurKey" 0 = Some (VStr "BAR-TH")) as Hkey
    by (vm_compute; reflexivity).
  split; [exact Hkey|]. rewrite Hkey. by vm_compute.
Qed.

(** The rule on the four codes: BAR-TH from [bar-th-1], TRA-EQ from
    [  tra-eq-101 ], IND from [IND-UT-102] and AGRI from [AGRI]. *)
Lemma equipment_key_rule_witness :
  (cell (enriched 0.45 equipment_codes [VNaN; VNaN; VNaN; VNaN]
           [VDate (mkTimestamp 2022 3 1); VDate (mkTimestamp 2022 3 2);
            VDate (mkTimestamp 2022 3 3); VDate (mkTimestamp 2022 3 4)])
     "CodeEquip_prefix" 0 = Some (VStr "BAR")
   ∧ cell (enriched 0.45 equipment_codes [VNaN; VNaN; VNaN; VNaN]
             [VDate (mkTimestamp 2022 3 1); VDate (mkTimestamp 2022 3 2);
              VDate (mkTimestamp 2022 3 3); VDate (mkTimestamp 2022 3 4)])
       "FacteurKey" 0 = Some (VStr "BAR-TH"))
  ∧ (cell (enriched 0.45 equipment_codes [VNaN; VNaN; VNaN; VNaN]
             [VDate (mkTimestamp 2022 3 1); VDate (mkTimestamp 2022 3 2);
              VDate (mkTimestamp 2022 3 3); VDate (mkTimestamp 2022 3 4)])
       "CodeEquip_prefix" 1 = Some (VStr "TRA")
     ∧ cell (enriched 0.45 equipment_codes [VNaN; VNaN; VNaN; VNaN]
               [VDate (mkTimestamp 2022 3 1); VDate (mkTimestamp 2022 3 2);
                VDate (mkTimestamp 2022 3 3); VDate (mkTimestamp 2022 3 4)])
         "FacteurKey" 1 = Some (VStr "TRA-EQ"))
  ∧ (cell (enriched 0.45 equipment_codes [VNaN; VNaN; VNaN; VNaN]
             [VDate (mkTimestamp 2022 3 1); VDate (mkTimestamp 2022 3 2);
              VDate (mkTimestamp 2022 3 3); VDate (mkTimestamp 2022 3 4)])
       "CodeEquip_prefix" 2 = Some (VStr "IND")
     ∧ cell (enriched 0.45 equipment_codes [VNaN; VNaN; VNaN; VNaN]
               [VDate (mkTimestamp 2022 3 1); VDate (mkTimestamp 2022 3 2);
                VDate (mkTimestamp 2022 3 3); VDate (mkTimestamp 2022 3 4)])
         "FacteurKey" 2 = Some (VStr "IND"))
  ∧ (cell (enriched 0.45 equipment_codes [VNaN; VNaN; VNaN; VNaN]
             [VDate (mkTimestamp 2022 3 1); VDate (mkTimestamp 2022 3 2);
              VDate (mkTimestamp 2022 3 3); VDate (mkTimestamp 2022 3 4)])
       "CodeEquip_prefix" 3 = Some (VStr "AGRI")
     ∧ cell (enriched 0.45 equipment_codes [VNaN; VNaN; VNaN; VNaN]
               [VDate (mkTimestamp 2022 3 1); VDate (mkTimestamp 2022 3 2);
                VDate (mkTimestamp 2022 3 3); VDate (mkTimestamp 2022 3 4)])
         "FacteurKey" 3 = Some (VStr "AGRI")).
Proof.
  split; [|split; [|split]].
  - apply (equipment_key_rule equipment_codes _ 0.45 0 (VStr "bar-th-1")
             equipment_codes_Some eq_refl).
  - apply (equipment_key_rule equipment_codes _ 0.45 1 (VStr "  tra-eq-101 ")
             equipment_codes_Some eq_refl).
  - apply (equipment_key_rule equipment_codes _ 0.45 2 (VStr "IND-UT-102")
             equipment_codes_Some eq_refl).
  - apply (equipment_key_rule equipment_codes _ 0.45 3 (VStr "AGRI")
             equipment_codes_Some eq_refl).
Defined.

(** ** The metrics and the efficiency rate (app.py, lines 206-215) *)

Definition metric_fields : list string :=
  ["kWh_reels_annuels"; "CO2_evite_tonnes_an"; "Nb_foyers_equivalents";
   "Economies_euros_an"].

(** Every conversion factor of the table is positive. *)
Lemma FACTEUR_CUMAC_TO_KWH_pos key f :
  FACTEUR_CUMAC_TO_KWH !! key = Some f → (0 < f)%Q.
Proof.
  intros Hk. unfold FACTEUR_CUMAC_TO_KWH in Hk.
  apply elem_of_list_to_map_2 in Hk.
  repeat (apply elem_of_cons in Hk as [Hk|Hk]; [by inversion Hk|]).
  by apply elem_of_nil in Hk.
Qed.

Section Metrics.
Context `{Coercions}.

Lemma Facteur_Conversion_pos key : ∃ f, Facteur_Conversion key = VNum f ∧ (0 < f)%Q.
Proof.
  unfold Facteur_Conversion, map_dict.
  assert (0 < FACTEUR_CUMAC_TO_KWH !!! "DEFAULT")%Q as Hdef by (by vm_compute).
  destruct key as [q|s|t|]; simpl; eauto.
  destruct (FACTEUR_CUMAC_TO_KWH !! s) as [f|] eqn:E; simpl; eauto.
  exists f. split; [done|]. by apply (FACTEUR_CUMAC_TO_KWH_pos s).
Qed.

Lemma length_FacteurKeys s : length (FacteurKeys s) = length s.
Proof. unfold FacteurKeys. rewrite length_zip_with, !length_fmap. lia. Qed.

(** The conversion factor of every row is a positive number. *)
Lemma factor_column_lookup (o : option (list value)) n i :
  (∀ s, o = Some s → length s = n) → (i < n)%nat →
  ∃ f, factor_column o n !! i = Some (VNum f) ∧ (0 < f)%Q.
Proof.
  intros Hlen Hi. destruct o as [s|]; simpl.
  - destruct (lookup_lt_is_Some_2 (FacteurKeys s) i) as [k Hk];
      [by rewrite length_FacteurKeys, (Hlen s)|].
    destruct (Facteur_Conversion_pos k) as (f & Hf & Hpos). exists f.
    split; [|done]. by rewrite list_lookup_fmap, Hk; simpl; rewrite Hf.
  - exists (FACTEUR_CUMAC_TO_KWH !!! "DEFAULT"). split; [by apply lookup_replicate_2|].
    by vm_compute.
Qed.

(** The four metric cells of a row, from its cumac and its factor. *)
Lemma enriched_metrics_row taux df v d i (cumac facteur : Q) :
  numeric_column (get_col "Total" df) (nrows df) !! i = Some (VNum cumac) →
  factor_column (get_col "Code équipement" df) (nrows df) !! i = Some (VNum facteur) →
  let kWh := (cumac * facteur * taux)%Q in
  cell (enriched taux df v d) "kWh_cumac" i = Some (VNum cumac)
  ∧ cell (enriched taux df v d) "kWh_reels_annuels" i = Some (VNum kWh)
  ∧ cell (enriched taux df v d) "CO2_evite_tonnes_an" i
    = Some (VNum (kWh * EMISSION_CO2_KWH / 1000))
  ∧ cell (enriched taux df v d) "Nb_foyers_equivalents" i
    = Some (VNum (kWh / CONSO_MOYENNE_FOYER_KWH))
  ∧ cell (enriched taux df v d) "Economies_euros_an" i
    = Some (VNum (kWh * COUT_CHAUFFAGE_KWH)).
Proof.
  intros Hc Hf kWh.
  assert (metric_columns taux df !! i = Some (VNum kWh)) as Hk.
  { unfold metric_columns, kWh_reels_annuels.
    rewrite list_lookup_fmap, lookup_zip_with, list_lookup_fmap, Hc. simpl.
    by rewrite Hf. }
  unfold cell.
  rewrite get_enriched_kWh_cumac, get_enriched_kWh_reels_annuels, get_enriched_CO2,
    get_enriched_foyers, get_enriched_euros, !bind_Some_eq.
  rewrite !list_lookup_fmap, Hc, Hk. done.
Qed.

End Metrics.

Section MetricMonotonicity.
Context `{Coercions}.

(** C2 (amended). In every row of a table the enricher accepts, the cumac
    does not depend on the efficiency rate and each of the four metric fields
    is linear in the rate: it is the rate times a coefficient of the row.
    When the cumac of the row is > 0 the coefficient is > 0 and the field
    strictly increases with the rate. *)
Theorem metric_monotonicity (df : DataFrame) (i : nat) :
  wf df → (i < nrows df)%nat →
  ∃ cumac : Q,
    (∀ taux df', load_and_process_data df taux = Some df' →
                 cell df' "kWh_cumac" i = Some (VNum cumac))
    ∧ ∀ field, field ∈ metric_fields →
        ∃ a : Q,
          (∀ taux df', load_and_process_data df taux = Some df' →
                       ∃ x, cell df' field i = Some (VNum x) ∧ (x == a * taux)%Q)
          ∧ ((0 < cumac)%Q → (0 < a)%Q)
          ∧ ((0 < cumac)%Q →
             ∀ t1 t2 df1 df2 x1 x2,
               (t1 < t2)%Q →
               load_and_process_data df t1 = Some df1 →
               load_and_process_data df t2 = Some df2 →
               cell df1 field i = Some (VNum x1) →
               cell df2 field i = Some (VNum x2) →
               (x1 < x2)%Q).
Proof.
  intros Hwf Hi.
  destruct (numeric_column_lookup (get_col "Total" df) (nrows df) i)
    as [c Hc]; [intros s; apply Hwf | done |].
  destruct (factor_column_lookup (get_col "Code équipement" df) (nrows df) i)
    as (f & Hf & Hpos); [intros s; apply Hwf | done |].
  assert (0 < EMISSION_CO2_KWH)%Q as HE by (by vm_compute).
  assert (0 < CONSO_MOYENNE_FOYER_KWH)%Q as HC by (by vm_compute).
  assert (0 < COUT_CHAUFFAGE_KWH)%Q as HK by (by vm_compute).
  exists c. split.
  { intros taux df' (v & d & Hv & Hd & ->)%load_and_process_data_inv.
    apply (enriched_metrics_row taux df v d i c f Hc Hf). }
  assert (∀ field (a : Q) (g : Q → Q),
    (∀ taux v d, cell (enriched taux df v d) field i = Some (VNum (g taux))) →
    (∀ taux, g taux == a * taux)%Q →
    ((0 < c)%Q → (0 < a)%Q) →
    ∃ a : Q,
      (∀ taux df', load_and_process_data df taux = Some df' →
                   ∃ x, cell df' field i = Some (VNum x) ∧ (x == a * taux)%Q)
      ∧ ((0 < c)%Q → (0 < a)%Q)
      ∧ ((0 < c)%Q →
         ∀ t1 t2 df1 df2 x1 x2,
           (t1 < t2)%Q →
           load_and_process_data df t1 = Some df1 →
           load_and_process_data df t2 = Some df2 →
           cell df1 field i = Some (VNum x1) →
           cell df2 field i = Some (VNum x2) →
           (x1 < x2)%Q)) as Hlin.
  { intros field a g Hcell Hg Ha. exists a. split; [|split; [done|]].
    - intros taux df' (v & d & Hv & Hd & ->)%load_and_process_data_inv.
      exists (g taux). by rewrite Hcell.
    - intros Hcpos t1 t2 df1 df2 x1 x2 Ht
        (v1 & d1 & _ & _ & ->)%load_and_process_data_inv
        (v2 & d2 & _ & _ & ->)%load_and_process_data_inv.
      rewrite !Hcell. intros [= <-] [= <-]. rewrite !Hg.
      specialize (Ha Hcpos). nra. }
  intros field. unfold metric_fields. rewrite !elem_of_cons, elem_of_nil.
  intros [->|[->|[->|[->|[]]]]].
  - apply (Hlin _ (c * f)%Q (λ t, c * f * t)%Q).
    + intros taux v d. apply (enriched_metrics_row taux df v d i c f Hc Hf).
    + intros taux. ring.
    + intros Hcpos. assert (0 < c * f)%Q as Hcf by nra. nra.
  - apply (Hlin _ (c * f * EMISSION_CO2_KWH / 1000)%Q
             (λ t, c * f * t * EMISSION_CO2_KWH / 1000)%Q).
    + intros taux v d. apply (enriched_metrics_row taux df v d i c f Hc Hf).
    + intros taux. field.
    + intros Hcpos. assert (0 < c * f)%Q as Hcf by nra.
      apply Qlt_shift_div_l; [done|]. nra.
  - apply (Hlin _ (c * f / CONSO_MOYENNE_FOYER_KWH)%Q
             (λ t, c * f * t / CONSO_MOYENNE_FOYER_KWH)%Q).
    + intros taux v d. apply (enriched_metrics_row taux df v d i c f Hc Hf).
    + intros taux. field. by vm_compute.
    + intros Hcpos. assert (0 < c * f)%Q as Hcf by nra.
      apply Qlt_shift_div_l; [done|]. nra.
  - apply (Hlin _ (c * f * COUT_CHAUFFAGE_KWH)%Q (λ t, c * f * t * COUT_CHAUFFAGE_KWH)%Q).
    + intros taux v d. apply (enriched_metrics_row taux df v d i c f Hc Hf).
    + intros taux. ring.
    + intros Hcpos. assert (0 < c * f)%Q as Hcf by nra. nra.
Qed.

End MetricMonotonicity.

Lemma metric_monotonicity_witness :
  wf scenario_row_validated ∧ (0 < nrows scenario_row_validated)%nat
  ∧ ∃ cumac : Q,
      (∀ taux df', load_and_process_data scenario_row_validated taux = Some df' →
                   cell df' "kWh_cumac" 0 = Some (VNum cumac))
      ∧ ∀ field, field ∈ metric_fields →
          ∃ a : Q,
            (∀ taux df', load_and_process_data scenario_row_validated taux = Some df' →
                         ∃ x, cell df' field 0 = Some (VNum x) ∧ (x == a * taux)%Q)
            ∧ ((0 < cumac)%Q → (0 < a)%Q)
            ∧ ((0 < cumac)%Q →
               ∀ t1 t2 df1 df2 x1 x2,
                 (t1 < t2)%Q →
                 load_and_process_data scenario_row_validated t1 = Some df1 →
                 load_and_process_data scenario_row_validated t2 = Some df2 →
                 cell df1 field 0 = Some (VNum x1) →
                 cell df2 field 0 = Some (VNum x2) →
                 (x1 < x2)%Q).
Proof.
  split; [apply scenario_row_validated_wf|]. split; [vm_compute; lia|].
  apply (metric_monotonicity scenario_row_validated 0).
  - apply scenario_row_validated_wf.
  - vm_compute; lia.
Defined.

(** An export without the [Total] column: the cumac of its row is the
    default, 0. *)
Definition export_without_total : DataFrame :=
  frame 1 [ ("Date Validation", [VNaN]);
            ("Date depot", [VDate (mkTimestamp 2022 3 1)]);
            ("Code équipement", [VStr "BAR-TH-001"]) ].

(** C2 as stated fails on a row whose cumac is 0: raising the efficiency
    rate from 0.45 to 0.90 leaves its four metric fields where they were. *)
Lemma efficiency_rate_not_strict_at_zero_cumac :
  ∃ df1 df2,
    load_and_process_data export_without_total 0.45 = Some df1
    ∧ load_and_process_data export_without_total 0.90 = Some df2
    ∧ cell df1 "kWh_cumac" 0 = Some (VNum 0)
    ∧ cell df2 "kWh_cumac" 0 = Some (VNum 0)
    ∧ Forall (λ field,
        ∃ x1 x2, cell df1 field 0 = Some (VNum x1)
                 ∧ cell df2 field 0 = Some (VNum x2)
                 ∧ ¬ (x1 < x2)%Q) metric_fields.
Proof.
  exists (enriched 0.45 export_without_total [VNaN] [VDate (mkTimestamp 2022 3 1)]),
         (enriched 0.90 export_without_total [VNaN] [VDate (mkTimestamp 2022 3 1)]).
  split; [by apply load_and_process_data_Some|].
  split; [by apply load_and_process_data_Some|].
  split; [vm_compute; reflexivity|].
  split; [vm_compute; reflexivity|].
  unfold metric_fields.
  repeat (apply Forall_cons; split;
    [eexists _, _; split; [vm_compute; reflexivity|];
       split; [vm_compute; reflexivity | by vm_compute] |]).
  apply Forall_nil_2.
Qed.

(** ** The projection without an equipment code column *)

Lemma dropna_empty_false (a b : list value) i x y :
  a !! i = Some x → b !! i = Some y → notna x = true → notna y = true →
  dropna_empty a b = false.
Proof.
  unfold dropna_empty. revert b i.
  induction a as [|x' a IH]; intros [|y' b] [|i]; simpl; try done.
  - intros [= ->] [= ->] -> ->. done.
  - intros Ha Hb Hx Hy. rewrite (IH b i) by done. apply andb_false_r.
Qed.

Lemma series_min_Some (s : list value) i q :
  s !! i = Some (VNum q) → is_Some (series_min s).
Proof.
  revert i. induction s as [|v s IH]; intros [|i] Hs; try done.
  - injection Hs as ->. change (series_min (VNum q :: s))
      with (match series_min s with
            | Some m => Some (if decide (q < m)%Q then q else m)
            | None => Some q
            end).
    destruct (series_min s); by eexists.
  - destruct (IH i Hs) as [m Hm].
    change (series_min (v :: s))
      with (match as_num v, series_min s with
            | Some q, Some m => Some (if decide (q < m)%Q then q else m)
            | Some q, None => Some q
            | None, acc => acc
            end).
    rewrite Hm. destruct (as_num v); by eexists.
Qed.

Lemma FACTEUR_DEFAULT : FACTEUR_CUMAC_TO_KWH !!! "DEFAULT" = (1 / 8.11)%Q.
Proof. vm_compute. reflexivity. Qed.

Lemma DUREE_VIE_DEFAULT : DUREE_VIE_EQUIPEMENT !!! "DEFAULT" = 10%Z.
Proof. vm_compute. reflexivity. Qed.

(** C9. On a table without the equipment code column (and without a column
    that already bears the label [FacteurKey]) the fallback branch gives every
    row the default factor 1/8.11, the default lifetime 10 and the sector
    [Autre], and creates no [FacteurKey] column; as soon as one row has a
    deposit date (a cell that line 127 parses to a date), the projection
    passes its guard and raises the [KeyError] of the grouping on
    [FacteurKey] instead of returning a series. *)
Theorem projection_without_equipment_code `{Coercions} (df df' : DataFrame)
    (taux_efficacite : Q) (i : nat) (raw : value) (depot : Timestamp)
    (current_year horizon : Z) :
  load_and_process_data df taux_efficacite = Some df' →
  wf df →
  get_col "Code équipement" df = None →
  get_col "FacteurKey" df = None →
  cell df "Date depot" i = Some raw →
  to_datetime raw = VDate depot →
  get_col "Facteur_Conversion" df' = Some (replicate (nrows df) (VNum (1 / 8.11)))
  ∧ get_col "Duree_Vie" df' = Some (replicate (nrows df) (VNum 10))
  ∧ get_col "Secteur" df' = Some (replicate (nrows df) (VStr "Autre"))
  ∧ get_col "FacteurKey" df' = None
  ∧ projection df' current_year horizon = Raise (KeyError "FacteurKey").
Proof.
  intros (v & d & Hv & Hd & ->)%load_and_process_data_inv Hwf Hcode Hkey
         (d' & Hd' & Hi)%cell_Some Hraw.
  rewrite Hd in Hd'. injection Hd' as <-.
  assert (i < nrows df)%nat as Hlt.
  { rewrite <- (wf_get_col _ _ _ Hwf Hd). by apply lookup_lt_is_Some_1. }
  pose proof (get_enriched_Facteur_Conversion taux_efficacite df v d) as HF.
  pose proof (get_enriched_Duree_Vie taux_efficacite df v d) as HD.
  pose proof (get_enriched_Secteur taux_efficacite df v d) as HS.
  pose proof (get_enriched_FacteurKey taux_efficacite df v d) as HK.
  pose proof (get_enriched_Annee_Depot taux_efficacite df v d) as HA.
  rewrite Hcode in HF, HD, HS, HK. rewrite Hkey in HK.
  unfold factor_column in HF. unfold lifetime_column in HD. unfold sector_column in HS.
  rewrite FACTEUR_DEFAULT in HF. rewrite DUREE_VIE_DEFAULT in HD.
  split; [done|]. split; [done|]. split; [done|]. split; [done|].
  unfold projection. rewrite HA, HD.
  rewrite (dropna_empty_false _ _ i (VNum (inject_Z (year depot))) (VNum 10)); try done.
  - destruct (series_min_Some (dt_year <$> (to_datetime <$> d)) i (inject_Z (year depot)))
      as [m ->]; [by rewrite !list_lookup_fmap, Hi; simpl; rewrite Hraw|].
    by rewrite HK.
  - by rewrite !list_lookup_fmap, Hi; simpl; rewrite Hraw.
  - by apply lookup_replicate_2.
Qed.

(** Two deposits of an export that has no equipment code column. *)
Definition export_without_equipment_code : DataFrame :=
  frame 2 [ ("Date Validation", [VDate (mkTimestamp 2023 6 1); VNaN]);
            ("Date depot", [VDate (mkTimestamp 2023 5 12); VDate (mkTimestamp 2024 1 9)]);
            ("Total", [VNum 250000; VNum 80000]) ].

Lemma export_without_equipment_code_wf : wf export_without_equipment_code.
Proof.
  intros c s Hc. apply elem_of_list_to_map_2 in Hc.
  repeat (apply elem_of_cons in Hc as [Hc|Hc]; [by inversion Hc|]).
  by apply elem_of_nil in Hc.
Qed.

Lemma projection_without_equipment_code_witness :
  ∃ df',
    load_and_process_data export_without_equipment_code 0.45 = Some df'
    ∧ get_col "Facteur_Conversion" df' = Some (replicate 2 (VNum (1 / 8.11)))
    ∧ get_col "Duree_Vie" df' = Some (replicate 2 (VNum 10))
    ∧ get_col "Secteur" df' = Some (replicate 2 (VStr "Autre"))
    ∧ get_col "FacteurKey" df' = None
    ∧ projection df' 2026 20 = Raise (KeyError "FacteurKey").
Proof.
  eexists. split.
  - apply (load_and_process_data_Some 0.45 export_without_equipment_code
             [VDate (mkTimestamp 2023 6 1); VNaN]
             [VDate (mkTimestamp 2023 5 12); VDate (mkTimestamp 2024 1 9)]); reflexivity.
  - apply (projection_without_equipment_code export_without_equipment_code _ 0.45
             0 (VDate (mkTimestamp 2023 5 12)) (mkTimestamp 2023 5 12) 2026 20).
    + apply (load_and_process_data_Some 0.45 export_without_equipment_code
               [VDate (mkTimestamp 2023 6 1); VNaN]
               [VDate (mkTimestamp 2023 5 12); VDate (mkTimestamp 2024 1 9)]); reflexivity.
    + apply export_without_equipment_code_wf.
    + reflexivity.
    + reflexivity.
    + reflexivity.
    + reflexivity.
Defined.

(** ** Grouping, ranking and the breakdown of a year *)

Definition groupby_step (m : gmap string Q) (kv : value * value) : gmap string Q :=
  match kv.1 with
  | VStr k => <[k := (default 0 (m !! k) + default 0 (as_num kv.2))%Q]> m
  | _ => m
  end.

Lemma groupby_sum_foldl keys vals :
  groupby_sum keys vals = foldl groupby_step ∅ (zip keys vals).
Proof. done. Qed.

(** A group exists only for a key that occurs in the key column. *)
Lemma foldl_groupby_keys (kvs : list (value * value)) (m : gmap string Q) k :
  is_Some (foldl groupby_step m kvs !! k) →
  is_Some (m !! k) ∨ VStr k ∈ kvs.*1.
Proof.
  revert m. induction kvs as [|[key val] kvs IH]; intros m; simpl; [auto|].
  intros [Hm|Hin]%IH; [|right; by apply list_elem_of_further].
  unfold groupby_step in Hm. simpl in Hm. destruct key as [q|s|t|]; auto.
  destruct (decide (s = k)) as [->|Hne].
  - right. apply list_elem_of_here.
  - rewrite lookup_insert_ne in Hm by done. auto.
Qed.

Lemma groupby_sum_keys keys vals k :
  is_Some (groupby_sum keys vals !! k) → VStr k ∈ keys.
Proof.
  rewrite groupby_sum_foldl. intros [Hm|Hin]%foldl_groupby_keys.
  - rewrite lookup_empty in Hm. by destruct Hm.
  - apply list_elem_of_fmap in Hin as ([a b] & -> & Hin).
    by apply elem_of_zip_l in Hin.
Qed.

(** And it exists for every text that occurs there with a value. *)
Lemma foldl_groupby_mono (kvs : list (value * value)) (m : gmap string Q) k :
  is_Some (m !! k) → is_Some (foldl groupby_step m kvs !! k).
Proof.
  revert m. induction kvs as [|[key val] kvs IH]; intros m Hm; simpl; [done|].
  apply IH. unfold groupby_step. simpl. destruct key as [q|s|t|]; try done.
  destruct (decide (s = k)) as [->|Hne].
  - rewrite lookup_insert_eq. by eexists.
  - by rewrite lookup_insert_ne.
Qed.

Lemma elem_of_select_sub {A} (mask : list bool) (l : list A) x :
  x ∈ select mask l → x ∈ l.
Proof.
  intros (j & _ & Hj)%elem_of_select. by apply list_elem_of_lookup_2 in Hj.
Qed.

(** The labels of [items] are the keys of the grouped sum, each once. *)
Lemma items_Permutation sums : items sums ≡ₚ map_to_list sums.
Proof. apply merge_sort_Permutation. Qed.

Lemma NoDup_items_keys sums : NoDup (items sums).*1.
Proof. rewrite items_Permutation. apply NoDup_fst_map_to_list. Qed.

Lemma elem_of_items_keys sums k : k ∈ (items sums).*1 → is_Some (sums !! k).
Proof.
  rewrite items_Permutation. intros ([k' v] & -> & Hin)%list_elem_of_fmap.
  apply elem_of_map_to_list in Hin. by eexists.
Qed.

(** [nlargest n] returns at most [n] labels, all different, all of them
    groups, and no group left out has a larger sum than a group kept. *)
Lemma length_nlargest n sums : (length (nlargest n sums) ≤ n)%nat.
Proof. unfold nlargest. rewrite length_fmap, length_take. lia. Qed.

Lemma nlargest_sublist n sums :
  sublist (nlargest n sums) (merge_sort larger (map_to_list sums)).*1.
Proof. unfold nlargest. apply fmap_sublist, sublist_take. Qed.

Lemma NoDup_nlargest n sums : NoDup (nlargest n sums).
Proof.
  eapply sublist_NoDup; [|apply nlargest_sublist].
  rewrite merge_sort_Permutation. apply NoDup_fst_map_to_list.
Qed.

Lemma elem_of_nlargest n sums k : k ∈ nlargest n sums → is_Some (sums !! k).
Proof.
  intros Hk. eapply elem_of_sublist in Hk; [|apply nlargest_sublist].
  rewrite merge_sort_Permutation in Hk.
  apply list_elem_of_fmap in Hk as ([k' v] & -> & Hin).
  apply elem_of_map_to_list in Hin. by eexists.
Qed.

#[global] Instance larger_total : Total larger.
Proof.
  intros [k1 v1] [k2 v2]. unfold larger; simpl.
  destruct (Q_dec v1 v2) as [[Hlt|Hgt]|Heq].
  - right. by left.
  - left. by left.
  - destruct (String.leb_total k1 k2); [left | right]; right; (split; [|done]).
    + done.
    + by symmetry.
Qed.

(** The part of [larger] that looks at the sums only. *)
Definition at_least (a b : string * Q) : Prop := (b.2 <= a.2)%Q.

#[global] Instance at_least_trans : Transitive at_least.
Proof. intros a b c Hab Hbc. unfold at_least in *. by apply (Qle_trans _ b.2). Qed.

Lemma larger_at_least a b : larger a b → at_least a b.
Proof.
  unfold larger, at_least. intros [Hlt|[Heq _]].
  - by apply Qlt_le_weak.
  - rewrite Heq. apply Qle_refl.
Qed.

Lemma Sorted_mono {A} (R1 R2 : relation A) l :
  (∀ x y, R1 x y → R2 x y) → Sorted R1 l → Sorted R2 l.
Proof.
  intros HR. induction 1 as [|x l Hs IH Hhd]; constructor; [done|].
  destruct Hhd; constructor. by apply HR.
Qed.

Lemma nlargest_dominates n (sums : gmap string Q) k k' v' :
  k ∈ nlargest n sums → sums !! k' = Some v' → k' ∉ nlargest n sums →
  ∃ v, sums !! k = Some v ∧ (v' <= v)%Q.
Proof.
  unfold nlargest. set (L := merge_sort larger (map_to_list sums)).
  intros Hk Hk' Hout.
  assert (StronglySorted at_least (take n L ++ drop n L)) as Hsorted.
  { rewrite take_drop. apply Sorted_StronglySorted; [apply _|].
    eapply Sorted_mono; [apply larger_at_least | apply Sorted_merge_sort, _]. }
  apply list_elem_of_fmap in Hk as ([k0 v] & -> & Hin). simpl.
  assert ((k0, v) ∈ L) as HinL.
  { eapply elem_of_sublist; [|apply sublist_take]. done. }
  unfold L in HinL. rewrite merge_sort_Permutation in HinL.
  apply elem_of_map_to_list in HinL. exists v. split; [done|].
  assert ((k', v') ∈ L) as Hin'.
  { unfold L. rewrite merge_sort_Permutation. by apply elem_of_map_to_list. }
  rewrite <- (take_drop n L) in Hin'. apply elem_of_app in Hin' as [Hin'|Hin'].
  - exfalso. apply Hout. apply list_elem_of_fmap. by exists (k', v').
  - apply (StronglySorted_app_1_elem_of _ _ _ _ _ Hsorted Hin Hin').
Qed.

(** The entries of one year: one per label of the active operations. *)
Lemma breakdown_Return year df_proj entries :
  breakdown year df_proj = Return entries →
  ∃ annee duree op gwh,
    get_col "Annee_Depot" df_proj = Some annee
    ∧ get_col "Duree_Vie" df_proj = Some duree
    ∧ get_col "Type Opération" df_proj = Some op
    ∧ get_col "GWh_reels_annuels" df_proj = Some gwh
    ∧ entries
      = (λ kv, mkEntry year kv.1 kv.2)
          <$> items (groupby_sum (select (zip_with (active year) annee duree) op)
                                 (select (zip_with (active year) annee duree) gwh)).
Proof.
  unfold breakdown, active_ops.
  destruct (get_col "Annee_Depot" df_proj) as [annee|]; [|done].
  destruct (get_col "Duree_Vie" df_proj) as [duree|]; [|done].
  rewrite !get_filter_rows.
  destruct (get_col "Type Opération" df_proj) as [op|]; [|done].
  destruct (get_col "GWh_reels_annuels" df_proj) as [gwh|]; [|done].
  intros [= <-]. by exists annee, duree, op, gwh.
Qed.

Lemma breakdown_years year df_proj entries :
  breakdown year df_proj = Return entries → Forall (λ e, Annee e = year) entries.
Proof.
  intros (annee & duree & op & gwh & _ & _ & _ & _ & ->)%breakdown_Return.
  apply Forall_fmap, Forall_true. done.
Qed.

Lemma breakdown_labels year df_proj entries op :
  breakdown year df_proj = Return entries →
  get_col "Type Opération" df_proj = Some op →
  NoDup (Type_Operation <$> entries)
  ∧ ∀ l, l ∈ Type_Operation <$> entries → VStr l ∈ op.
Proof.
  intros (annee & duree & op' & gwh & _ & _ & Hop & _ & ->)%breakdown_Return Hop'.
  rewrite Hop in Hop'. injection Hop' as ->.
  rewrite <- list_fmap_compose.
  assert (∀ l : list (string * Q),
            (Type_Operation ∘ (λ kv, mkEntry year kv.1 kv.2)) <$> l = l.*1) as ->.
  { intros l. by apply list_fmap_ext. }
  split; [apply NoDup_items_keys|].
  intros l Hl%elem_of_items_keys%groupby_sum_keys. by eapply elem_of_select_sub.
Qed.

(** The loop appends the entries of its years, in order. *)
Lemma year_loop_Return years df_proj acc l :
  year_loop years df_proj acc = Return l →
  ∃ per_year,
    Forall2 (λ year entries, breakdown year df_proj = Return entries) years per_year
    ∧ l = (acc ++ concat per_year)%list.
Proof.
  revert acc. induction years as [|year years IH]; intros acc; simpl.
  - intros [= <-]. exists []. split; [constructor | by rewrite app_nil_r].
  - destruct (breakdown year df_proj) as [e|entries] eqn:Hb; [done|].
    intros (per_year & Hall & ->)%IH. exists (entries :: per_year).
    split; [by constructor | by rewrite <- app_assoc].
Qed.

Lemma filter_all {A} (P : A → Prop) `{∀ x, Decision (P x)} l :
  Forall P l → filter P l = l.
Proof.
  induction 1 as [|x l Hx Hl IH]; [done|]. by rewrite filter_cons_True, IH.
Qed.

Lemma filter_none {A} (P : A → Prop) `{∀ x, Decision (P x)} l :
  Forall (λ x, ¬ P x) l → filter P l = [].
Proof.
  induction 1 as [|x l Hx Hl IH]; [done|]. by rewrite filter_cons_False.
Qed.

(** The loop leaves no entry for a year it did not visit. *)
Lemma filter_year_not_visited df_proj years per_year year :
  Forall2 (λ y entries, breakdown y df_proj = Return entries) years per_year →
  year ∉ years →
  filter (λ e, Annee e = year) (concat per_year) = [].
Proof.
  induction 1 as [|y entries years per_year Hb Hall IH]; intros Hy; simpl; [done|].
  rewrite not_elem_of_cons in Hy. destruct Hy as [Hne Hy].
  rewrite filter_app, IH by done. rewrite app_nil_r.
  apply filter_none. eapply Forall_impl; [by eapply breakdown_years|].
  intros e He. simpl in *. congruence.
Qed.

(** The entries of a given year in the list come from one pass of the loop. *)
Lemma filter_year_concat df_proj years per_year year :
  Forall2 (λ y entries, breakdown y df_proj = Return entries) years per_year →
  NoDup years →
  filter (λ e, Annee e = year) (concat per_year) = []
  ∨ ∃ entries, breakdown year df_proj = Return entries
               ∧ filter (λ e, Annee e = year) (concat per_year) = entries.
Proof.
  induction 1 as [|y entries years per_year Hb Hall IH]; intros Hnd; simpl; [by left|].
  apply NoDup_cons in Hnd as [Hy Hnd]. rewrite filter_app.
  pose proof (breakdown_years _ _ _ Hb) as Hyears.
  destruct (decide (y = year)) as [->|Hne].
  - right. exists entries. split; [done|].
    rewrite (filter_year_not_visited df_proj years per_year year) by done.
    rewrite app_nil_r. by apply filter_all.
  - rewrite (filter_none _ entries).
    + by apply IH.
    + eapply Forall_impl; [done|]. intros e He. simpl in *. congruence.
Qed.

(** The entries of a year the loop visited come from its pass. *)
Lemma filter_year_visited df_proj years per_year year :
  Forall2 (λ y entries, breakdown y df_proj = Return entries) years per_year →
  NoDup years → year ∈ years →
  ∃ entries, breakdown year df_proj = Return entries
             ∧ filter (λ e, Annee e = year) (concat per_year) = entries.
Proof.
  induction 1 as [|y entries years per_year Hb Hall IH]; intros Hnd Hin; simpl.
  - by apply elem_of_nil in Hin.
  - apply NoDup_cons in Hnd as [Hy Hnd]. rewrite filter_app.
    pose proof (breakdown_years _ _ _ Hb) as Hyears.
    destruct (decide (y = year)) as [->|Hne].
    + exists entries. split; [done|].
      rewrite (filter_year_not_visited df_proj years per_year year) by done.
      rewrite app_nil_r. by apply filter_all.
    + apply elem_of_cons in Hin as [->|Hin]; [done|].
      rewrite (filter_none _ entries).
      * by apply IH.
      * eapply Forall_impl; [done|]. intros e He. simpl in *. congruence.
Qed.

Lemma Type_Operation_of_label top_ops (key : list value) l :
  VStr l ∈ Type_Operation_of top_ops <$> key → l ∈ top_ops ∨ l = "Autres".
Proof.
  intros (x & Hx & _)%list_elem_of_fmap. unfold Type_Operation_of in Hx.
  destruct x as [q|s|t|]; try (injection Hx as ->; by right).
  case_bool_decide; injection Hx as ->; auto.
Qed.

Lemma length_nlargest_min n sums :
  length (nlargest n sums) = (n `min` size sums)%nat.
Proof.
  unfold nlargest. rewrite length_fmap, length_take.
  by rewrite (Permutation_length (merge_sort_Permutation _ _)), length_map_to_list.
Qed.

(** With at most [n] groups every group is among the [n] largest. *)
Lemma nlargest_all n sums k :
  (size sums ≤ n)%nat → is_Some (sums !! k) → k ∈ nlargest n sums.
Proof.
  intros Hsize [v Hk]. unfold nlargest. rewrite take_ge.
  - rewrite merge_sort_Permutation. apply list_elem_of_fmap. exists (k, v).
    split; [done | by apply elem_of_map_to_list].
  - by rewrite (Permutation_length (merge_sort_Permutation _ _)), length_map_to_list.
Qed.

(** A row with a text for key and a value has its group. *)
Lemma foldl_groupby_in (kvs : list (value * value)) (m : gmap string Q) k v :
  (VStr k, v) ∈ kvs → is_Some (foldl groupby_step m kvs !! k).
Proof.
  revert m. induction kvs as [|kv kvs IH]; intros m Hin; [by apply elem_of_nil in Hin|].
  apply elem_of_cons in Hin as [<-|Hin]; [|by apply IH].
  simpl. apply foldl_groupby_mono. unfold groupby_step. simpl.
  rewrite lookup_insert_eq. by eexists.
Qed.

Lemma groupby_sum_in keys vals k v :
  (VStr k, v) ∈ zip keys vals → is_Some (groupby_sum keys vals !! k).
Proof. rewrite groupby_sum_foldl. apply foldl_groupby_in. Qed.

Lemma items_keys_elem sums k : is_Some (sums !! k) → k ∈ (items sums).*1.
Proof.
  intros [v Hk]. rewrite items_Permutation. apply list_elem_of_fmap. exists (k, v).
  split; [done | by apply elem_of_map_to_list].
Qed.

(** The labels of a year are the labels of the operations active in it. *)
Lemma breakdown_labels_active year df_proj entries annee duree op gwh :
  get_col "Annee_Depot" df_proj = Some annee →
  get_col "Duree_Vie" df_proj = Some duree →
  get_col "Type Opération" df_proj = Some op →
  get_col "GWh_reels_annuels" df_proj = Some gwh →
  breakdown year df_proj = Return entries →
  (∀ l, l ∈ Type_Operation <$> entries →
        ∃ i a b, op !! i = Some (VStr l) ∧ annee !! i = Some a ∧ duree !! i = Some b
                 ∧ active year a b = true)
  ∧ (∀ i l a b g,
        op !! i = Some (VStr l) → annee !! i = Some a → duree !! i = Some b →
        gwh !! i = Some g → active year a b = true →
        l ∈ Type_Operation <$> entries).
Proof.
  intros Ha Hd Ho Hg
    (annee' & duree' & op' & gwh' & Ha' & Hd' & Ho' & Hg' & ->)%breakdown_Return.
  rewrite Ha in Ha'. rewrite Hd in Hd'. rewrite Ho in Ho'. rewrite Hg in Hg'.
  injection Ha' as <-. injection Hd' as <-. injection Ho' as <-. injection Hg' as <-.
  rewrite <- list_fmap_compose.
  assert (∀ l : list (string * Q),
            (Type_Operation ∘ (λ kv, mkEntry year kv.1 kv.2)) <$> l = l.*1) as ->.
  { intros l. by apply list_fmap_ext. }
  split.
  - intros l (j & Hm & Hj)%elem_of_items_keys%groupby_sum_keys%elem_of_select.
    apply lookup_zip_with_Some in Hm as (a & b & Hact & Haj & Hbj).
    by exists j, a, b.
  - intros i l a b g Hoi Hai Hbi Hgi Hact.
    apply items_keys_elem, (groupby_sum_in _ _ l g).
    rewrite select_zip. apply elem_of_select. exists i. split.
    + by rewrite lookup_zip_with, Hai; simpl; rewrite Hbi; simpl; rewrite Hact.
    + by apply lookup_zip_Some.
Qed.

Lemma Type_Operation_of_cases top_ops x l :
  Type_Operation_of top_ops x = VStr l →
  (x = VStr l ∧ l ∈ top_ops) ∨ (l = "Autres" ∧ ∀ k, x = VStr k → k ∉ top_ops).
Proof.
  unfold Type_Operation_of. destruct x as [q|s|t|]; try (intros [= <-]; by right).
  case_bool_decide as Hs; intros [= <-]; [by left|].
  right. split; [done|]. by intros k [= <-].
Qed.

(** ** The category bound of the projection *)

(** C6. When the projection returns a series, its top operations are fixed
    once, before the year loop: they are the keys of largest total real
    annual energy over the whole filtered table, pairwise different, 5 of
    them as soon as the table has 5 keys and all the keys otherwise, and no
    key left out has a larger total than a key kept.  In every year the
    entries bear pairwise different labels, at most 6 of them, each a top
    operation or [Autres]; a label is there exactly for the operations
    active in that year: an active operation whose key is a top operation
    is shown under its own key, every other active operation under
    [Autres], and every label of the year comes from such an operation. *)
Theorem category_bound (df_filtered : DataFrame) (current_year horizon : Z)
    (top_ops : list string) (entries : list breakdown_entry) :
  projection df_filtered current_year horizon = Return (Some (top_ops, entries)) →
  (∃ key gwh annee duree m,
      get_col "FacteurKey" df_filtered = Some key
      ∧ get_col "GWh_reels_annuels" df_filtered = Some gwh
      ∧ get_col "Annee_Depot" df_filtered = Some annee
      ∧ get_col "Duree_Vie" df_filtered = Some duree
      ∧ series_min annee = Some m
      ∧ top_ops = nlargest 5 (groupby_sum key gwh)
      ∧ NoDup top_ops
      ∧ length top_ops = (5 `min` size (groupby_sum key gwh))%nat
      ∧ (∀ k, k ∈ top_ops → is_Some (groupby_sum key gwh !! k))
      ∧ (∀ i k g, key !! i = Some (VStr k) → gwh !! i = Some g →
                  is_Some (groupby_sum key gwh !! k)
                  ∧ ((size (groupby_sum key gwh) ≤ 5)%nat → k ∈ top_ops))
      ∧ (∀ k k' v', k ∈ top_ops → groupby_sum key gwh !! k' = Some v' → k' ∉ top_ops →
                    ∃ v, groupby_sum key gwh !! k = Some v ∧ (v' <= v)%Q)
      ∧ ∀ year : Z,
          let labels := Type_Operation <$> filter (λ e, Annee e = year) entries in
          (∀ l, l ∈ labels →
             ∃ i x a b,
               key !! i = Some x ∧ annee !! i = Some a ∧ duree !! i = Some b
               ∧ active year a b = true
               ∧ ((x = VStr l ∧ l ∈ top_ops)
                  ∨ (l = "Autres" ∧ ∀ k, x = VStr k → k ∉ top_ops)))
          ∧ ((int_of m ≤ year ≤ current_year + horizon)%Z →
             ∀ i x a b g,
               key !! i = Some x → annee !! i = Some a → duree !! i = Some b →
               gwh !! i = Some g → active year a b = true →
               (∀ k, x = VStr k → k ∈ top_ops → k ∈ labels)
               ∧ ((∀ k, x = VStr k → k ∉ top_ops) → "Autres" ∈ labels)))
  ∧ (length top_ops ≤ 5)%nat
  ∧ ∀ year : Z,
      let labels := Type_Operation <$> filter (λ e, Annee e = year) entries in
      NoDup labels
      ∧ (∀ l, l ∈ labels → l ∈ top_ops ∨ l = "Autres")
      ∧ (length labels ≤ 6)%nat.
Proof.
  unfold projection. cbv zeta.
  destruct (get_col "Annee_Depot" df_filtered) as [annee|] eqn:Ha; [|done].
  destruct (get_col "Duree_Vie" df_filtered) as [duree|] eqn:Hd; [|done].
  destruct (dropna_empty annee duree); [done|].
  destruct (series_min annee) as [m|] eqn:Hmin; [|done].
  destruct (get_col "FacteurKey" df_filtered) as [key|] eqn:Hk; [|done].
  destruct (get_col "GWh_reels_annuels" df_filtered) as [gwh|] eqn:Hg; [|done].
  destruct (year_loop _ _ _) as [e|l] eqn:Hloop; [done|].
  intros Heq. injection Heq as <- <-.
  set (top := nlargest 5 (groupby_sum key gwh)) in *.
  apply year_loop_Return in Hloop as (per_year & Hall & ->).
  rewrite app_nil_l.
  set (df_proj := set_col "Type Opération" (Type_Operation_of top <$> key) df_filtered)
    in Hall.
  assert (get_col "Annee_Depot" df_proj = Some annee) as Ha'
    by (unfold df_proj; by rewrite get_set_col_ne).
  assert (get_col "Duree_Vie" df_proj = Some duree) as Hd'
    by (unfold df_proj; by rewrite get_set_col_ne).
  assert (get_col "GWh_reels_annuels" df_proj = Some gwh) as Hg'
    by (unfold df_proj; by rewrite get_set_col_ne).
  assert (get_col "Type Opération" df_proj = Some (Type_Operation_of top <$> key)) as Ho'
    by apply get_set_col_eq.
  split.
  { exists key, gwh, annee, duree, m. repeat (split; [done|]).
    split; [apply NoDup_nlargest|].
    split; [apply length_nlargest_min|].
    split; [intros k; apply elem_of_nlargest|].
    split.
    { intros i k g Hki Hgi.
      assert (is_Some (groupby_sum key gwh !! k)) as Hsome.
      { apply (groupby_sum_in _ _ k g). apply list_elem_of_lookup. exists i.
        by apply lookup_zip_Some. }
      split; [done|]. intros Hsize. by apply nlargest_all. }
    split; [intros k k' v'; apply nlargest_dominates|].
    intros year. cbv zeta. split.
    - destruct (filter_year_concat _ _ _ year Hall (NoDup_seqZ _ _))
        as [-> | (entries & Hb & ->)]; [by intros l ?%elem_of_nil|].
      destruct (breakdown_labels_active _ _ _ _ _ _ _ Ha' Hd' Ho' Hg' Hb) as [Hfrom _].
      intros l (i & a & b & Hoi & Hai & Hbi & Hact)%Hfrom.
      rewrite list_lookup_fmap in Hoi.
      destruct (key !! i) as [x|] eqn:Hxi; [|done]. injection Hoi as Hx.
      exists i, x, a, b. repeat (split; [done|]).
      by apply Type_Operation_of_cases.
    - intros Hyear i x a b g Hxi Hai Hbi Hgi Hact.
      destruct (filter_year_visited _ _ _ year Hall (NoDup_seqZ _ _))
        as (entries & Hb & ->); [apply elem_of_seqZ; lia|].
      destruct (breakdown_labels_active _ _ _ _ _ _ _ Ha' Hd' Ho' Hg' Hb) as [_ Hto].
      split.
      + intros k -> Hin. apply (Hto i k a b g); try done.
        rewrite list_lookup_fmap, Hxi. simpl. by rewrite bool_decide_eq_true_2.
      + intros Hnot. apply (Hto i "Autres" a b g); try done.
        rewrite list_lookup_fmap, Hxi. simpl. unfold Type_Operation_of.
        destruct x as [q|s|t|]; try done.
        by rewrite bool_decide_eq_false_2 by by apply Hnot. }
  split; [apply length_nlargest|].
  intros year.
  set (labels := Type_Operation <$> filter (λ e, Annee e = year) (concat per_year)).
  assert (NoDup labels ∧ ∀ l, l ∈ labels → l ∈ top ∨ l = "Autres") as [Hnd Hin].
  { unfold labels.
    destruct (filter_year_concat _ _ _ year Hall (NoDup_seqZ _ _))
      as [-> | (entries & Hb & ->)].
    - split; [constructor | by intros l ?%elem_of_nil].
    - destruct (breakdown_labels _ _ _ (Type_Operation_of top <$> key) Hb Ho')
        as [Hnd Hl].
      split; [done|]. intros l Hlab. by eapply Type_Operation_of_label, Hl. }
  split; [done|]. split; [done|].
  assert (labels ⊆+ (top ++ ["Autres"])%list) as Hsub.
  { apply NoDup_submseteq; [done|]. intros l [?| ->]%Hin; set_solver. }
  apply submseteq_length in Hsub. rewrite length_app in Hsub. simpl in Hsub.
  pose proof (length_nlargest 5 (groupby_sum key gwh)). unfold top in Hsub. lia.
Qed.

(** An export with eight operations of eight different keys, deposited from
    2022 to 2024. *)
Definition eight_operations : DataFrame :=
  frame 8 [ ("Date Validation", [VNaN; VNaN; VNaN; VNaN; VNaN; VNaN; VNaN; VNaN]);
            ("Date depot",
             [VDate (mkTimestamp 2022 2 1); VDate (mkTimestamp 2022 6 1);
              VDate (mkTimestamp 2023 1 9); VDate (mkTimestamp 2023 3 7);
              VDate (mkTimestamp 2023 9 5); VDate (mkTimestamp 2024 1 15);
              VDate (mkTimestamp 2024 4 2); VDate (mkTimestamp 2024 7 30)]);
            ("Total",
             [VNum 900000; VNum 800000; VNum 700000; VNum 600000;
              VNum 500000; VNum 400000; VNum 300000; VNum 200000]);
            ("Code équipement",
             [VStr "BAR-TH-101"; VStr "BAR-EN-101"; VStr "BAR-EQ-110"; VStr "BAT-TH-116";
              VStr "BAT-EN-101"; VStr "AGRI-TH-104"; VStr "TRA-EQ-101"; VStr "IND-UT-102"]) ].

Definition eight_enriched : DataFrame :=
  enriched 0.45 eight_operations [VNaN; VNaN; VNaN; VNaN; VNaN; VNaN; VNaN; VNaN]
    [VDate (mkTimestamp 2022 2 1); VDate (mkTimestamp 2022 6 1);
     VDate (mkTimestamp 2023 1 9); VDate (mkTimestamp 2023 3 7);
     VDate (mkTimestamp 2023 9 5); VDate (mkTimestamp 2024 1 15);
     VDate (mkTimestamp 2024 4 2); VDate (mkTimestamp 2024 7 30)].

Lemma eight_operations_Some :
  load_and_process_data eight_operations 0.45 = Some eight_enriched.
Proof. by apply load_and_process_data_Some. Qed.

(** Of the eight keys five are top operations; in 2024, when the eight
    operations are active, the year has six labels: the five top operations
    under their own key (BAR-TH is one) and [Autres] for the three others
    (AGRI-TH is one). *)
Lemma category_bound_witness :
  ∃ top_ops entries,
    projection eight_enriched 2026 10 = Return (Some (top_ops, entries))
    ∧ top_ops = ["BAR-TH"; "BAR-EQ"; "BAT-TH"; "BAR-EN"; "TRA-EQ"]
    ∧ Type_Operation <$> filter (λ e, Annee e = 2022%Z) entries = ["BAR-EN"; "BAR-TH"]
    ∧ Type_Operation <$> filter (λ e, Annee e = 2024%Z) entries
      = ["Autres"; "BAR-EN"; "BAR-EQ"; "BAR-TH"; "BAT-TH"; "TRA-EQ"]
    ∧ NoDup (Type_Operation <$> filter (λ e, Annee e = 2024%Z) entries)
    ∧ (length (Type_Operation <$> filter (λ e, Annee e = 2024%Z) entries) ≤ 6)%nat
    ∧ "BAR-TH" ∈ Type_Operation <$> filter (λ e, Annee e = 2024%Z) entries
    ∧ "Autres" ∈ Type_Operation <$> filter (λ e, Annee e = 2024%Z) entries.
Proof.
  assert (int_of 2022 ≤ 2024 ≤ 2026 + 10)%Z as Hrange by (vm_compute; split; discriminate).
  assert ("BAR-TH" ∈ ["BAR-TH"; "BAR-EQ"; "BAT-TH"; "BAR-EN"; "TRA-EQ"]) as Htop
    by (apply (bool_decide_unpack _); vm_compute; exact I).
  assert ("AGRI-TH" ∉ ["BAR-TH"; "BAR-EQ"; "BAT-TH"; "BAR-EN"; "TRA-EQ"]) as Hnot
    by (apply (bool_decide_unpack _); vm_compute; exact I).
  eexists _, _. split; [vm_compute; reflexivity|].
  split; [reflexivity|]. split; [vm_compute; reflexivity|].
  split; [vm_compute; reflexivity|].
  destruct (category_bound eight_enriched 2026 10 _ _ ltac:(vm_compute; reflexivity))
    as ((key & gwh & annee & duree & m & Hk & Hg & Ha & Hd & Hmin & _ & _ & _ & _ & _
         & _ & Hyear) & _ & Hlabels).
  destruct (Hlabels 2024%Z) as (Hnd & _ & Hlen). clear Hlabels.
  split; [exact Hnd|]. split; [exact Hlen|]. clear Hnd Hlen.
  destruct (Hyear 2024%Z) as [_ Hshown]. clear Hyear.
  vm_compute in Hk. injection Hk as <-.
  vm_compute in Hg. injection Hg as <-.
  vm_compute in Ha. injection Ha as <-.
  vm_compute in Hd. injection Hd as <-.
  vm_compute in Hmin. injection Hmin as <-.
  split.
  - refine (proj1 (Hshown Hrange 0%nat (VStr "BAR-TH") _ _ _ eq_refl eq_refl eq_refl
                     eq_refl _) "BAR-TH" eq_refl Htop).
    vm_compute; reflexivity.
  - refine (proj2 (Hshown Hrange 5%nat (VStr "AGRI-TH") _ _ _ eq_refl eq_refl eq_refl
                     eq_refl _) _).
    + vm_compute; reflexivity.
    + intros k Hk. injection Hk as <-. exact Hnot.
Defined.

(** Two deposits: one of 2020 for 5 years, one of 2023 for 10 years. *)
Definition two_deposits : DataFrame :=
  frame 2 [ ("Annee_Depot", [VNum 2020; VNum 2023]);
            ("Duree_Vie", [VNum 5; VNum 10]);
            ("GWh_reels_annuels", [VNum 1; VNum 2]) ].

(** In 2025 the first deposit is over: the active frame holds the second row
    alone, with its energy. *)
Lemma lifetime_windowing_witness :
  ∃ active_rows,
    active_ops 2025%Z two_deposits = Return active_rows
    ∧ index active_rows = [1%Z]
    ∧ get_col "Annee_Depot" active_rows = Some [VNum 2023]
    ∧ get_col "GWh_reels_annuels" active_rows = Some [VNum 2].
Proof.
  destruct (proj1 lifetime_windowing two_deposits 2025%Z
              [VNum 2020; VNum 2023] [VNum 5; VNum 10] eq_refl eq_refl)
    as (mask & active_rows & Hops & Hidx & Hcols & Hmask & _).
  exists active_rows. split; [exact Hops|].
  destruct (Hmask 0%nat (VNum 2020) (VNum 5) eq_refl eq_refl) as (k0 & Hk0 & Hw0).
  destruct (Hmask 1%nat (VNum 2023) (VNum 10) eq_refl eq_refl) as (k1 & Hk1 & Hw1).
  assert (k0 = false) as ->.
  { destruct k0; [|done]. destruct (proj1 Hw0 eq_refl) as (d & l & [= <-] & [= <-] & _ & Hlt).
    by vm_compute in Hlt. }
  assert (k1 = true) as ->.
  { apply Hw1. exists 2023%Q, 10%Q. by vm_compute. }
  destruct mask as [|m0 [|m1 mask]]; try done.
  injection Hk0 as ->. injection Hk1 as ->.
  rewrite Hidx, !Hcols. by destruct mask; vm_compute.
Defined.

(** * Further properties of the enricher *)

(** ** Classification never fails *)

Definition SECTEUR_LABELS : list string :=
  ["Bât. Résidentiel"; "Bât. Tertiaire"; "Transport"; "Agriculture"; "Industrie"; "Autre"].

Definition LIFETIMES : list Z := [1; 10; 15; 17; 30]%Z.

Lemma DUREE_VIE_EQUIPEMENT_values key l :
  DUREE_VIE_EQUIPEMENT !! key = Some l → l ∈ LIFETIMES.
Proof.
  intros Hk. unfold DUREE_VIE_EQUIPEMENT in Hk. apply elem_of_list_to_map_2 in Hk.
  repeat (apply elem_of_cons in Hk as [Hk|Hk];
          [inversion Hk; subst; apply (bool_decide_unpack _); by vm_compute|]).
  by apply elem_of_nil in Hk.
Qed.

Lemma SECTEURS_values prefix s : SECTEURS !! prefix = Some s → s ∈ SECTEUR_LABELS.
Proof.
  intros Hk. unfold SECTEURS in Hk. apply elem_of_list_to_map_2 in Hk.
  repeat (apply elem_of_cons in Hk as [Hk|Hk];
          [inversion Hk; subst; apply (bool_decide_unpack _); by vm_compute|]).
  by apply elem_of_nil in Hk.
Qed.

Section Classification.
Context `{Coercions}.

Lemma Duree_Vie_value key : ∃ l : Z, Duree_Vie key = VNum (inject_Z l) ∧ l ∈ LIFETIMES.
Proof.
  unfold Duree_Vie, map_dict.
  assert (DUREE_VIE_EQUIPEMENT !!! "DEFAULT" ∈ LIFETIMES) as Hdef.
  { rewrite DUREE_VIE_DEFAULT. apply (bool_decide_unpack _). by vm_compute. }
  destruct key as [q|s|t|]; simpl; eauto.
  destruct (DUREE_VIE_EQUIPEMENT !! s) as [l|] eqn:E; simpl; eauto.
  exists l. split; [done|]. by apply (DUREE_VIE_EQUIPEMENT_values s).
Qed.

Lemma Secteur_value prefix : ∃ s, Secteur prefix = VStr s ∧ s ∈ SECTEUR_LABELS.
Proof.
  unfold Secteur, map_dict.
  assert ("Autre" ∈ SECTEUR_LABELS) as Hdef
    by (apply (bool_decide_unpack _); by vm_compute).
  destruct prefix as [q|s|t|]; simpl; eauto.
  destruct (SECTEURS !! s) as [l|] eqn:E; simpl; eauto.
  exists l. split; [done|]. by apply (SECTEURS_values s).
Qed.

Lemma lifetime_column_lookup (o : option (list value)) n i :
  (∀ s, o = Some s → length s = n) → (i < n)%nat →
  ∃ l : Z, lifetime_column o n !! i = Some (VNum (inject_Z l)) ∧ l ∈ LIFETIMES.
Proof.
  intros Hlen Hi. destruct o as [s|]; simpl.
  - destruct (lookup_lt_is_Some_2 (FacteurKeys s) i) as [k Hk];
      [by rewrite length_FacteurKeys, (Hlen s)|].
    destruct (Duree_Vie_value k) as (l & Hl & Hin). exists l.
    split; [|done]. by rewrite list_lookup_fmap, Hk; simpl; rewrite Hl.
  - exists (DUREE_VIE_EQUIPEMENT !!! "DEFAULT"). split; [by apply lookup_replicate_2|].
    rewrite DUREE_VIE_DEFAULT. apply (bool_decide_unpack _). by vm_compute.
Qed.

Lemma sector_column_lookup (o : option (list value)) n i :
  (∀ s, o = Some s → length s = n) → (i < n)%nat →
  ∃ s, sector_column o n !! i = Some (VStr s) ∧ s ∈ SECTEUR_LABELS.
Proof.
  intros Hlen Hi. destruct o as [col|]; simpl.
  - destruct (lookup_lt_is_Some_2 col i) as [v Hv]; [by rewrite (Hlen col)|].
    destruct (Secteur_value (CodeEquip_prefix (equipment_code v))) as (s & Hs & Hin).
    exists s. split; [|done]. by rewrite !list_lookup_fmap, Hv; simpl; rewrite Hs.
  - exists "Autre". split; [by apply lookup_replicate_2|].
    apply (bool_decide_unpack _). by vm_compute.
Qed.

(** X1. Whatever the equipment code of a row is (unmapped, malformed, missing,
    or the whole column absent), the row gets a positive conversion factor,
    a lifetime of 1, 10, 15, 17 or 30 years and one of the six sectors. *)
Theorem classification_total (df df' : DataFrame) (taux_efficacite : Q) (i : nat) :
  load_and_process_data df taux_efficacite = Some df' →
  wf df → (i < nrows df)%nat →
  ∃ (facteur : Q) (lifetime : Z) (sector : string),
    cell df' "Facteur_Conversion" i = Some (VNum facteur) ∧ (0 < facteur)%Q
    ∧ cell df' "Duree_Vie" i = Some (VNum (inject_Z lifetime)) ∧ lifetime ∈ LIFETIMES
    ∧ cell df' "Secteur" i = Some (VStr sector) ∧ sector ∈ SECTEUR_LABELS.
Proof.
  intros (v & d & Hv & Hd & ->)%load_and_process_data_inv Hwf Hi.
  destruct (factor_column_lookup (get_col "Code équipement" df) (nrows df) i)
    as (f & Hf & Hpos); [intros s; apply Hwf | done |].
  destruct (lifetime_column_lookup (get_col "Code équipement" df) (nrows df) i)
    as (l & Hl & Hin); [intros s; apply Hwf | done |].
  destruct (sector_column_lookup (get_col "Code équipement" df) (nrows df) i)
    as (s & Hs & Hsin); [intros s; apply Hwf | done |].
  exists f, l, s. unfold cell.
  rewrite get_enriched_Facteur_Conversion, get_enriched_Duree_Vie, get_enriched_Secteur,
    !bind_Some_eq.
  by rewrite Hf, Hl, Hs.
Qed.

End Classification.

Lemma classification_total_witness :
  ∃ (facteur : Q) (lifetime : Z) (sector : string),
    cell (enriched 0.45 scenario_row_validated [VNaN] [VDate (mkTimestamp 2022 3 1)])
      "Facteur_Conversion" 0 = Some (VNum facteur) ∧ (0 < facteur)%Q
    ∧ cell (enriched 0.45 scenario_row_validated [VNaN] [VDate (mkTimestamp 2022 3 1)])
        "Duree_Vie" 0 = Some (VNum (inject_Z lifetime)) ∧ lifetime ∈ LIFETIMES
    ∧ cell (enriched 0.45 scenario_row_validated [VNaN] [VDate (mkTimestamp 2022 3 1)])
        "Secteur" 0 = Some (VStr sector) ∧ sector ∈ SECTEUR_LABELS.
Proof.
  apply (classification_total scenario_row_validated _ 0.45 0).
  - by apply load_and_process_data_Some.
  - apply scenario_row_validated_wf.
  - vm_compute; lia.
Defined.

(** ** From the deposit date to the projection window *)

Lemma LIFETIMES_bounds l : l ∈ LIFETIMES → (1 ≤ l ≤ 30)%Z.
Proof.
  unfold LIFETIMES. rewrite !elem_of_cons, elem_of_nil.
  intros [->|[->|[->|[->|[->|[]]]]]]; lia.
Qed.

Section ParsedDates.
Context `{Coercions}.

(** What line 127 leaves in a date column: a date within the bounds of a
    [Timestamp], or a missing value. *)
Lemma to_datetime_cases v :
  (∃ t, to_datetime v = VDate t ∧ in_bounds t = true) ∨ to_datetime v = VNaN.
Proof.
  assert (∀ t, (∃ t', coerce_date t = VDate t' ∧ in_bounds t' = true)
               ∨ coerce_date t = VNaN) as Hc.
  { intros t. unfold coerce_date. destruct (in_bounds t) eqn:E; [left; by exists t | by right]. }
  destruct v as [q|s|t|]; simpl; [| |apply Hc|by right].
  - destruct (datetime_of_number q); simpl; [apply Hc | by right].
  - destruct (datetime_of_text s); simpl; [apply Hc | by right].
Qed.

Lemma to_datetime_date t :
  to_datetime (VDate t) = if in_bounds t then VDate t else VNaN.
Proof. done. Qed.

End ParsedDates.

Lemma in_bounds_year t : in_bounds t = true → (1677 ≤ year t ≤ 2262)%Z.
Proof.
  destruct t as [y m d]. unfold in_bounds, date_le. cbn [year month day].
  rewrite andb_true_iff, !orb_true_iff, !andb_true_iff, !orb_true_iff, !andb_true_iff.
  rewrite !Z.ltb_lt, !Z.eqb_eq, !Z.leb_le. lia.
Qed.

(** Two deposits; the dates of the second are beyond the last day a
    [Timestamp] can hold. *)
Definition dated_rows : DataFrame :=
  frame 2 [ ("Date Validation", [VDate (mkTimestamp 2021 11 3); VDate (mkTimestamp 3023 1 1)]);
            ("Date depot", [VDate (mkTimestamp 2021 9 30); VDate (mkTimestamp 3023 1 1)]);
            ("Total", [VNum 1000; VNum 2000]) ].

Lemma dated_rows_wf : wf dated_rows.
Proof.
  intros c s Hc. apply elem_of_list_to_map_2 in Hc.
  repeat (apply elem_of_cons in Hc as [Hc|Hc]; [by inversion Hc|]).
  by apply elem_of_nil in Hc.
Qed.

Lemma dated_rows_Some :
  load_and_process_data dated_rows 0.45
  = Some (enriched 0.45 dated_rows
            [VDate (mkTimestamp 2021 11 3); VDate (mkTimestamp 3023 1 1)]
            [VDate (mkTimestamp 2021 9 30); VDate (mkTimestamp 3023 1 1)]).
Proof. by apply load_and_process_data_Some. Qed.

(** X2. A row whose deposit date parses (for a date cell: a day within the
    bounds of a [Timestamp], 1677-09-22 to 2262-04-11) carries the year of
    that date, between 1677 and 2262, and a lifetime between 1 and 30 years,
    and the projection counts it from its deposit year on for that lifetime:
    it is active in the year of its deposit, never before, and never from 30
    years after.  A row whose deposit date is missing, does not parse or is
    a date out of these bounds has a missing deposit year and is active in
    no year. *)
Theorem active_from_deposit `{Coercions} (df df' : DataFrame) (taux_efficacite : Q)
    (i : nat) (raw : value) :
  load_and_process_data df taux_efficacite = Some df' →
  wf df →
  cell df "Date depot" i = Some raw →
  match to_datetime raw with
  | VDate depot =>
      (1677 ≤ year depot ≤ 2262)%Z
      ∧ ∃ lifetime : Z,
          cell df' "Annee_Depot" i = Some (VNum (inject_Z (year depot)))
          ∧ cell df' "Duree_Vie" i = Some (VNum (inject_Z lifetime))
          ∧ (∀ y : Z,
               active y (VNum (inject_Z (year depot))) (VNum (inject_Z lifetime)) = true
               ↔ (year depot ≤ y < year depot + lifetime)%Z)
          ∧ active (year depot) (VNum (inject_Z (year depot))) (VNum (inject_Z lifetime))
            = true
          ∧ (∀ y : Z, (y < year depot ∨ year depot + 30 ≤ y)%Z →
               active y (VNum (inject_Z (year depot))) (VNum (inject_Z lifetime)) = false)
  | _ =>
      cell df' "Annee_Depot" i = Some VNaN
      ∧ ∀ (y : Z) (lifetime : value), active y VNaN lifetime = false
  end
  ∧ (∀ t, raw = VDate t → in_bounds t = false →
       cell df' "Annee_Depot" i = Some VNaN
       ∧ ∀ lifetime,
           cell df' "Duree_Vie" i = Some lifetime →
           ∀ y : Z, active y VNaN lifetime = false).
Proof.
  intros (v & d & Hv & Hd & ->)%load_and_process_data_inv Hwf
         (d' & Hd' & Hi)%cell_Some.
  rewrite Hd in Hd'. injection Hd' as <-.
  assert (i < nrows df)%nat as Hlt.
  { rewrite <- (wf_get_col _ _ _ Hwf Hd). by apply lookup_lt_is_Some_1. }
  assert (cell (enriched taux_efficacite df v d) "Annee_Depot" i
          = Some (dt_year (to_datetime raw))) as Hyear.
  { unfold cell. rewrite get_enriched_Annee_Depot, bind_Some_eq.
    by rewrite !list_lookup_fmap, Hi. }
  split.
  - destruct (to_datetime_cases raw) as [(depot & Hraw & Hb) | Hraw]; rewrite Hraw in *.
    + split; [by apply in_bounds_year|].
      destruct (lifetime_column_lookup (get_col "Code équipement" df) (nrows df) i)
        as (l & Hl & Hin%LIFETIMES_bounds); [intros s; apply Hwf | done |].
      exists l. split; [done|]. split.
      { unfold cell. by rewrite get_enriched_Duree_Vie, bind_Some_eq. }
      split; [intros y; apply active_Z|]. split.
      * apply active_Z. lia.
      * intros y Hy. apply not_true_is_false. rewrite active_Z. lia.
    + by split.
  - intros t -> Hout. rewrite to_datetime_date, Hout in Hyear. by split.
Qed.

Lemma active_from_deposit_witness :
  ((1677 ≤ 2021 ≤ 2262)%Z
   ∧ ∃ lifetime : Z,
       cell (enriched 0.45 dated_rows
               [VDate (mkTimestamp 2021 11 3); VDate (mkTimestamp 3023 1 1)]
               [VDate (mkTimestamp 2021 9 30); VDate (mkTimestamp 3023 1 1)])
         "Annee_Depot" 0 = Some (VNum (inject_Z 2021))
       ∧ cell (enriched 0.45 dated_rows
                 [VDate (mkTimestamp 2021 11 3); VDate (mkTimestamp 3023 1 1)]
                 [VDate (mkTimestamp 2021 9 30); VDate (mkTimestamp 3023 1 1)])
           "Duree_Vie" 0 = Some (VNum (inject_Z lifetime))
       ∧ (∀ y : Z,
            active y (VNum (inject_Z 2021)) (VNum (inject_Z lifetime)) = true
            ↔ (2021 ≤ y < 2021 + lifetime)%Z)
       ∧ active 2021 (VNum (inject_Z 2021)) (VNum (inject_Z lifetime)) = true
       ∧ (∀ y : Z, (y < 2021 ∨ 2021 + 30 ≤ y)%Z →
            active y (VNum (inject_Z 2021)) (VNum (inject_Z lifetime)) = false))
  ∧ (cell (enriched 0.45 dated_rows
             [VDate (mkTimestamp 2021 11 3); VDate (mkTimestamp 3023 1 1)]
             [VDate (mkTimestamp 2021 9 30); VDate (mkTimestamp 3023 1 1)])
       "Annee_Depot" 1 = Some VNaN
     ∧ ∀ (y : Z) (lifetime : value), active y VNaN lifetime = false).
Proof.
  split.
  - apply (proj1 (active_from_deposit dated_rows _ 0.45 0
                    (VDate (mkTimestamp 2021 9 30)) dated_rows_Some dated_rows_wf eq_refl)).
  - apply (proj1 (active_from_deposit dated_rows _ 0.45 1
                    (VDate (mkTimestamp 3023 1 1)) dated_rows_Some dated_rows_wf eq_refl)).
Defined.

(** ** Signs and scales of the derived numbers *)

Section DerivedNumbers.
Context `{Coercions}.

Lemma enriched_scaled_row taux df v d i (cumac facteur : Q) :
  numeric_column (get_col "Total" df) (nrows df) !! i = Some (VNum cumac) →
  factor_column (get_col "Code équipement" df) (nrows df) !! i = Some (VNum facteur) →
  cell (enriched taux df v d) "Total" i = Some (VNum cumac)
  ∧ cell (enriched taux df v d) "GWh_cumac" i = Some (VNum (cumac / 1000000))
  ∧ cell (enriched taux df v d) "GWh_reels_annuels" i
    = Some (VNum (cumac * facteur * taux / 1000000)).
Proof.
  intros Hc Hf.
  assert (metric_columns taux df !! i = Some (VNum (cumac * facteur * taux))) as Hk.
  { unfold metric_columns, kWh_reels_annuels.
    rewrite list_lookup_fmap, lookup_zip_with, list_lookup_fmap, Hc. simpl.
    by rewrite Hf. }
  unfold cell.
  rewrite get_enriched_Total, get_enriched_GWh_cumac, get_enriched_GWh_reels_annuels,
    !bind_Some_eq.
  rewrite !list_lookup_fmap, Hc, Hk. done.
Qed.

(** X3. In every row the second coercion of [Total] (line 206) changes nothing:
    [kWh_cumac] is the [Total] of the enriched frame, the two GWh fields are
    the kWh fields divided by 1 000 000, and [Prime_versee] is the coerced
    subsidy column, cell for cell. *)
Theorem derived_columns_agree (df df' : DataFrame) (taux_efficacite : Q) (i : nat) :
  load_and_process_data df taux_efficacite = Some df' →
  wf df → (i < nrows df)%nat →
  ∃ cumac kWh : Q,
    cell df' "Total" i = Some (VNum cumac)
    ∧ cell df' "kWh_cumac" i = Some (VNum cumac)
    ∧ cell df' "GWh_cumac" i = Some (VNum (cumac / 1000000))
    ∧ cell df' "kWh_reels_annuels" i = Some (VNum kWh)
    ∧ cell df' "GWh_reels_annuels" i = Some (VNum (kWh / 1000000))
    ∧ cell df' "Prime_versee" i = cell df' "Tableau Recapitulatif champ 23" i.
Proof.
  intros (v & d & Hv & Hd & ->)%load_and_process_data_inv Hwf Hi.
  destruct (numeric_column_lookup (get_col "Total" df) (nrows df) i)
    as [c Hc]; [intros s; apply Hwf | done |].
  destruct (factor_column_lookup (get_col "Code équipement" df) (nrows df) i)
    as (f & Hf & Hpos); [intros s; apply Hwf | done |].
  destruct (enriched_metrics_row taux_efficacite df v d i c f Hc Hf)
    as (E1 & E2 & _).
  destruct (enriched_scaled_row taux_efficacite df v d i c f Hc Hf)
    as (E3 & E4 & E5).
  exists c, (c * f * taux_efficacite)%Q.
  split; [done|]. split; [done|]. split; [done|]. split; [done|]. split; [done|].
  unfold cell. rewrite get_enriched_Prime_versee.
  assert (get_col "Tableau Recapitulatif champ 23" (enriched taux_efficacite df v d)
          = Some (numeric_column (get_col "Tableau Recapitulatif champ 23" df) (nrows df)))
    as ->; [|done].
  unfold enriched, with_metrics. cbv zeta.
  repeat (rewrite get_set_col_ne by ne_labels).
  rewrite get_with_beneficiaire_other by not_in_labels.
  apply get_prepare_numeric. not_in_labels.
Qed.

(** X4. With a cumac that is not negative and an efficiency rate that is not
    negative, none of the derived energy, CO2, household and cost fields of
    the row is negative. *)
Theorem metrics_nonnegative (df df' : DataFrame) (taux_efficacite : Q) (i : nat)
    (cumac : Q) :
  load_and_process_data df taux_efficacite = Some df' →
  wf df → (i < nrows df)%nat →
  cell df' "kWh_cumac" i = Some (VNum cumac) →
  (0 <= cumac)%Q → (0 <= taux_efficacite)%Q →
  ∀ field,
    field ∈ ["GWh_cumac"; "kWh_reels_annuels"; "GWh_reels_annuels";
             "CO2_evite_tonnes_an"; "Nb_foyers_equivalents"; "Economies_euros_an"] →
    ∃ x, cell df' field i = Some (VNum x) ∧ (0 <= x)%Q.
Proof.
  intros (v & d & Hv & Hd & ->)%load_and_process_data_inv Hwf Hi Hcell Hc0 Ht0.
  destruct (numeric_column_lookup (get_col "Total" df) (nrows df) i)
    as [c Hc]; [intros s; apply Hwf | done |].
  destruct (factor_column_lookup (get_col "Code équipement" df) (nrows df) i)
    as (f & Hf & Hpos); [intros s; apply Hwf | done |].
  destruct (enriched_metrics_row taux_efficacite df v d i c f Hc Hf)
    as (E1 & E2 & E3 & E4 & E5).
  destruct (enriched_scaled_row taux_efficacite df v d i c f Hc Hf)
    as (_ & E6 & E7).
  rewrite E1 in Hcell. injection Hcell as ->.
  assert (0 <= cumac * f * taux_efficacite)%Q as Hk.
  { apply Qmult_le_0_compat; [|done]. apply Qmult_le_0_compat; [done|].
    by apply Qlt_le_weak. }
  assert (∀ x y : Q, 0 <= x → 0 < y → 0 <= x / y)%Q as Hdiv.
  { intros x y Hx Hy. apply Qle_shift_div_l; [done|]. by rewrite Qmult_0_l. }
  intros field. rewrite !elem_of_cons, elem_of_nil.
  intros [->|[->|[->|[->|[->|[->|[]]]]]]]; eexists; (split; [eassumption|]).
  - by apply Hdiv.
  - done.
  - by apply Hdiv.
  - apply Hdiv; [|done]. apply Qmult_le_0_compat; [done | by vm_compute].
  - apply Hdiv; [done | by vm_compute].
  - apply Qmult_le_0_compat; [done | by vm_compute].
Qed.

End DerivedNumbers.

Lemma derived_columns_agree_witness :
  ∃ cumac kWh : Q,
    cell (enriched 0.45 scenario_row_validated [VNaN] [VDate (mkTimestamp 2022 3 1)])
      "Total" 0 = Some (VNum cumac)
    ∧ cell (enriched 0.45 scenario_row_validated [VNaN] [VDate (mkTimestamp 2022 3 1)])
        "kWh_cumac" 0 = Some (VNum cumac)
    ∧ cell (enriched 0.45 scenario_row_validated [VNaN] [VDate (mkTimestamp 2022 3 1)])
        "GWh_cumac" 0 = Some (VNum (cumac / 1000000))
    ∧ cell (enriched 0.45 scenario_row_validated [VNaN] [VDate (mkTimestamp 2022 3 1)])
        "kWh_reels_annuels" 0 = Some (VNum kWh)
    ∧ cell (enriched 0.45 scenario_row_validated [VNaN] [VDate (mkTimestamp 2022 3 1)])
        "GWh_reels_annuels" 0 = Some (VNum (kWh / 1000000))
    ∧ cell (enriched 0.45 scenario_row_validated [VNaN] [VDate (mkTimestamp 2022 3 1)])
        "Prime_versee" 0
      = cell (enriched 0.45 scenario_row_validated [VNaN] [VDate (mkTimestamp 2022 3 1)])
          "Tableau Recapitulatif champ 23" 0.
Proof.
  apply (derived_columns_agree scenario_row_validated _ 0.45 0).
  - by apply load_and_process_data_Some.
  - apply scenario_row_validated_wf.
  - vm_compute; lia.
Defined.

Lemma metrics_nonnegative_witness :
  (0 <= 100000)%Q ∧ (0 <= 0.45)%Q
  ∧ ∀ field,
      field ∈ ["GWh_cumac"; "kWh_reels_annuels"; "GWh_reels_annuels";
               "CO2_evite_tonnes_an"; "Nb_foyers_equivalents"; "Economies_euros_an"] →
      ∃ x, cell (enriched 0.45 scenario_row_validated [VNaN]
                   [VDate (mkTimestamp 2022 3 1)]) field 0 = Some (VNum x)
           ∧ (0 <= x)%Q.
Proof.
  split; [by vm_compute|]. split; [by vm_compute|].
  apply (metrics_nonnegative scenario_row_validated _ 0.45 0 100000).
  - by apply load_and_process_data_Some.
  - apply scenario_row_validated_wf.
  - vm_compute; lia.
  - vm_compute; reflexivity.
  - by vm_compute.
  - by vm_compute.
Defined.

(** ** Period, agent, status *)

Lemma extract_P_digit_Some s r :
  PyStr.extract_P_digit s = Some r →
  ∃ d, PyStr.is_digit d = true ∧ r = String "P" (String d EmptyString).
Proof.
  induction s as [|a s IH]; simpl; [done|].
  destruct s as [|d s']; [done|].
  destruct (Ascii.eqb a "P" && PyStr.is_digit d) eqn:E; [|apply IH].
  apply andb_true_iff in E as [->%Ascii.eqb_eq Hd]. intros [= <-]. by exists d.
Qed.

(** The text [s] holds, after [pre], the letter P followed by the digit [d]:
    a match of the pattern of line 137. *)
Definition P_digit_at (s pre : string) (d : ascii) : Prop :=
  PyStr.is_digit d = true ∧ ∃ post, s = pre ++ String "P" (String d post).

(** [extract] returns the leftmost match, and nothing only when there is no
    match. *)
Lemma extract_P_digit_first s :
  match PyStr.extract_P_digit s with
  | Some r =>
      ∃ pre d, P_digit_at s pre d
               ∧ r = String "P" (String d EmptyString)
               ∧ ∀ pre' d', P_digit_at s pre' d' →
                            (String.length pre ≤ String.length pre')%nat
  | None => ∀ pre d, ¬ P_digit_at s pre d
  end.
Proof.
  induction s as [|a s IH].
  - intros pre d [_ [post Hs]]. by destruct pre.
  - cbn [PyStr.extract_P_digit]. destruct s as [|c s'].
    + intros pre d [_ [post Hs]]. destruct pre as [|x pre]; [done|].
      injection Hs as _ Hs. by destruct pre.
    + destruct (Ascii.eqb a "P" && PyStr.is_digit c) eqn:E.
      * apply andb_true_iff in E as [->%Ascii.eqb_eq Hc].
        exists "", c. split; [split; [done | by exists s']|]. split; [done|].
        intros pre' d' _. simpl. lia.
      * assert (∀ pre d, P_digit_at (String a (String c s')) pre d →
                  ∃ pre0, pre = String a pre0 ∧ P_digit_at (String c s') pre0 d) as Hshift.
        { intros pre d [Hd [post Hs]]. destruct pre as [|x pre].
          - simpl in Hs. injection Hs as -> -> _.
            by rewrite Ascii.eqb_refl, Hd in E.
          - simpl in Hs. injection Hs as <- Hs. exists pre. split; [done|].
            split; [done | by exists post]. }
        destruct (PyStr.extract_P_digit (String c s')) as [r|].
        -- destruct IH as (pre & d & [Hd [post Hs]] & -> & Hmin).
           exists (String a pre), d. split.
           { split; [done|]. exists post. exact (f_equal (String a) Hs). }
           split; [done|].
           intros pre' d' (pre0 & -> & Hat)%Hshift. simpl.
           specialize (Hmin pre0 d' Hat). lia.
        -- intros pre d (pre0 & -> & Hat)%Hshift. by apply (IH pre0 d).
Qed.

Section Labels.
Context `{Coercions}.

(** X5. The period label follows three tiers.  With a [PERIODE] column it is the
    trimmed, upper-cased text of the cell, whatever [Depot] holds (a missing
    cell therefore reads NAN).  Without it the label is read in the text of
    the [Depot] cell: it is the leftmost place of that text where the letter
    P is followed by a digit, that P and that digit, and it is P5 when the
    text has no such place.  Without both columns every label is P5. *)
Theorem periode_tiers (df df' : DataFrame) (taux_efficacite : Q) (i : nat) (label : value) :
  load_and_process_data df taux_efficacite = Some df' →
  cell df' "Période" i = Some label →
  match get_col "PERIODE" df, get_col "Depot" df with
  | Some periode, _ =>
      ∃ raw, periode !! i = Some raw
             ∧ label = VStr (PyStr.upper (PyStr.strip (astype_str raw)))
             ∧ (raw = VNaN → label = VStr "NAN")
  | None, Some depot =>
      ∃ raw,
        depot !! i = Some raw
        ∧ ((∃ pre d,
              P_digit_at (astype_str raw) pre d
              ∧ (∀ pre' d', P_digit_at (astype_str raw) pre' d' →
                            (String.length pre ≤ String.length pre')%nat)
              ∧ label = VStr (String "P" (String d EmptyString)))
           ∨ ((∀ pre d, ¬ P_digit_at (astype_str raw) pre d)
              ∧ label = VStr "P5"))
  | None, None => label = VStr "P5"
  end.
Proof.
  intros (v & d & Hv & Hd & ->)%load_and_process_data_inv.
  unfold cell. rewrite get_enriched_Periode, bind_Some_eq. unfold periode_column.
  destruct (get_col "PERIODE" df) as [periode|].
  - rewrite list_lookup_fmap. destruct (periode !! i) as [raw|] eqn:Hraw; [|done].
    intros [= <-]. exists raw. split; [done|]. split; [done|]. by intros ->.
  - destruct (get_col "Depot" df) as [depot|].
    + rewrite list_lookup_fmap. destruct (depot !! i) as [raw|] eqn:Hraw; [|done].
      intros [= <-]. exists raw. split; [done|].
      pose proof (extract_P_digit_first (astype_str raw)) as Hfirst.
      destruct (PyStr.extract_P_digit (astype_str raw)) as [r|]; simpl.
      * destruct Hfirst as (pre & c & Hat & -> & Hmin). left. by exists pre, c.
      * by right.
    + by intros [-> _]%lookup_replicate_1.
Qed.

(** X6. The agent of an enriched row is always a text, never [nan] or [NaN]: a
    missing cell, and every cell when the column is absent, reads
    [Non renseigné].  A cell of blanks only comes out as the empty text. *)
Theorem mandataire_normalised (df df' : DataFrame) (taux_efficacite : Q) (i : nat)
    (agent : value) :
  load_and_process_data df taux_efficacite = Some df' →
  cell df' "Mandataire" i = Some agent →
  (∃ m, agent = VStr m ∧ m ≠ "nan" ∧ m ≠ "NaN")
  ∧ match get_col "Mandataire" df with
    | Some col =>
        ∃ raw, col !! i = Some raw
               ∧ (raw = VNaN → agent = VStr "Non renseigné")
               ∧ (PyStr.strip (astype_str raw) = "" → agent = VStr "")
    | None => agent = VStr "Non renseigné"
    end.
Proof.
  intros (v & d & Hv & Hd & ->)%load_and_process_data_inv.
  unfold cell. rewrite get_enriched_Mandataire, bind_Some_eq. unfold mandataire_column.
  assert (∀ raw, ∃ m, mandataire raw = VStr m ∧ m ≠ "nan" ∧ m ≠ "NaN") as Htext.
  { intros raw. unfold mandataire, isin. case_bool_decide as E.
    - by exists "Non renseigné".
    - exists (PyStr.strip (astype_str raw)). split; [done|].
      split; intros Heq; apply E; rewrite Heq; set_solver. }
  destruct (get_col "Mandataire" df) as [col|].
  - rewrite list_lookup_fmap. destruct (col !! i) as [raw|] eqn:Hraw; [|done].
    intros [= <-]. split; [apply Htext|].
    exists raw. split; [done|]. split.
    + by intros ->.
    + intros Hblank. unfold mandataire, isin. rewrite Hblank. done.
  - intros [-> _]%lookup_replicate_1. split; [by exists "Non renseigné" | done].
Qed.

(** X7. In every row the two dates of the enriched frame are the parsed input
    cells: a date within the bounds of a [Timestamp], or a missing value.
    The status is [Validé] when the parsed validation date is there and
    [En cours] when it is missing; the deposit year is the year of the
    parsed deposit date, missing with it.  A date cell keeps its day when
    it lies within the bounds (1677-09-22 to 2262-04-11); out of them it
    counts as missing: the status is [En cours] and there is no deposit
    year. *)
Theorem status_and_year_of_dates (df df' : DataFrame) (taux_efficacite : Q) (i : nat)
    (validation depot : value) :
  load_and_process_data df taux_efficacite = Some df' →
  cell df "Date Validation" i = Some validation →
  cell df "Date depot" i = Some depot →
  cell df' "Date Validation" i = Some (to_datetime validation)
  ∧ cell df' "Date depot" i = Some (to_datetime depot)
  ∧ match to_datetime validation with
    | VDate t => in_bounds t = true ∧ cell df' "Statut" i = Some (VStr "Validé")
    | _ => to_datetime validation = VNaN ∧ cell df' "Statut" i = Some (VStr "En cours")
    end
  ∧ match to_datetime depot with
    | VDate t =>
        in_bounds t = true ∧ cell df' "Annee_Depot" i = Some (VNum (inject_Z (year t)))
    | _ => to_datetime depot = VNaN ∧ cell df' "Annee_Depot" i = Some VNaN
    end
  ∧ (∀ t, validation = VDate t →
       cell df' "Date Validation" i = Some (if in_bounds t then VDate t else VNaN)
       ∧ cell df' "Statut" i
         = Some (VStr (if in_bounds t then "Validé" else "En cours")))
  ∧ (∀ t, depot = VDate t →
       cell df' "Date depot" i = Some (if in_bounds t then VDate t else VNaN)
       ∧ cell df' "Annee_Depot" i
         = Some (if in_bounds t then VNum (inject_Z (year t)) else VNaN)).
Proof.
  intros (v & d & Hv & Hd & ->)%load_and_process_data_inv
         (v' & Hv' & Hvi)%cell_Some (d' & Hd' & Hdi)%cell_Some.
  rewrite Hv in Hv'. injection Hv' as <-. rewrite Hd in Hd'. injection Hd' as <-.
  unfold cell.
  rewrite (get_enriched_Date_Validation _ _ _ _ Hv), (get_enriched_Date_depot _ _ _ _ Hd),
    get_enriched_Statut, get_enriched_Annee_Depot, !bind_Some_eq.
  rewrite !list_lookup_fmap, Hvi, Hdi. cbn [fmap option_fmap option_map].
  split; [done|]. split; [done|]. split; [|split; [|split]].
  - by destruct (to_datetime_cases validation) as [(t & -> & Hb) | ->].
  - by destruct (to_datetime_cases depot) as [(t & -> & Hb) | ->].
  - intros t ->. rewrite to_datetime_date. by destruct (in_bounds t).
  - intros t ->. rewrite to_datetime_date. by destruct (in_bounds t).
Qed.

End Labels.

(** A row with a deposit batch label and no agent. *)
Definition labelled_row : DataFrame :=
  frame 1 [ ("Date Validation", [VDate (mkTimestamp 2021 11 3)]);
            ("Date depot", [VDate (mkTimestamp 2021 9 30)]);
            ("Depot", [VStr "Lot P4-2021"]);
            ("Mandataire", [VNaN]);
            ("Total", [VNum 1000]) ].

Lemma labelled_row_Some :
  load_and_process_data labelled_row 0.45
  = Some (enriched 0.45 labelled_row [VDate (mkTimestamp 2021 11 3)]
            [VDate (mkTimestamp 2021 9 30)]).
Proof. by apply load_and_process_data_Some. Qed.

(** In [Lot P4-2021] the leftmost P that a digit follows stands after
    [Lot ], and the digit is 4. *)
Lemma periode_tiers_witness :
  ∃ pre d,
    P_digit_at "Lot P4-2021" pre d
    ∧ (∀ pre' d', P_digit_at "Lot P4-2021" pre' d' →
                  (String.length pre ≤ String.length pre')%nat)
    ∧ VStr "P4" = VStr (String "P" (String d EmptyString)).
Proof.
  destruct (periode_tiers labelled_row _ 0.45 0 (VStr "P4") labelled_row_Some)
    as (raw & Hraw & [Hfound | [_ Hlabel]]).
  - vm_compute; reflexivity.
  - by injection Hraw as <-.
  - discriminate Hlabel.
Defined.

Lemma mandataire_normalised_witness :
  (∃ m, VStr "Non renseigné" = VStr m ∧ m ≠ "nan" ∧ m ≠ "NaN")
  ∧ ∃ raw, [VNaN] !! 0%nat = Some raw
           ∧ (raw = VNaN → VStr "Non renseigné" = VStr "Non renseigné")
           ∧ (PyStr.strip (astype_str raw) = "" → VStr "Non renseigné" = VStr "").
Proof.
  apply (mandataire_normalised labelled_row _ 0.45 0 (VStr "Non renseigné")
           labelled_row_Some).
  vm_compute; reflexivity.
Defined.

(** The first row of [dated_rows] keeps its two dates; the second, dated
    3023, is left without a validation date and without a deposit year. *)
Lemma status_and_year_of_dates_witness :
  (cell (enriched 0.45 dated_rows
           [VDate (mkTimestamp 2021 11 3); VDate (mkTimestamp 3023 1 1)]
           [VDate (mkTimestamp 2021 9 30); VDate (mkTimestamp 3023 1 1)])
     "Statut" 0 = Some (VStr "Validé")
   ∧ cell (enriched 0.45 dated_rows
             [VDate (mkTimestamp 2021 11 3); VDate (mkTimestamp 3023 1 1)]
             [VDate (mkTimestamp 2021 9 30); VDate (mkTimestamp 3023 1 1)])
       "Annee_Depot" 0 = Some (VNum (inject_Z 2021)))
  ∧ (cell (enriched 0.45 dated_rows
             [VDate (mkTimestamp 2021 11 3); VDate (mkTimestamp 3023 1 1)]
             [VDate (mkTimestamp 2021 9 30); VDate (mkTimestamp 3023 1 1)])
       "Date Validation" 1 = Some VNaN
     ∧ cell (enriched 0.45 dated_rows
               [VDate (mkTimestamp 2021 11 3); VDate (mkTimestamp 3023 1 1)]
               [VDate (mkTimestamp 2021 9 30); VDate (mkTimestamp 3023 1 1)])
         "Statut" 1 = Some (VStr "En cours")
     ∧ cell (enriched 0.45 dated_rows
               [VDate (mkTimestamp 2021 11 3); VDate (mkTimestamp 3023 1 1)]
               [VDate (mkTimestamp 2021 9 30); VDate (mkTimestamp 3023 1 1)])
         "Annee_Depot" 1 = Some VNaN).
Proof.
  split.
  - destruct (status_and_year_of_dates dated_rows _ 0.45 0
                (VDate (mkTimestamp 2021 11 3)) (VDate (mkTimestamp 2021 9 30))
                dated_rows_Some eq_refl eq_refl) as (_ & _ & _ & _ & Hv & Hd).
    split; [apply (Hv _ eq_refl) | apply (Hd _ eq_refl)].
  - destruct (status_and_year_of_dates dated_rows _ 0.45 1
                (VDate (mkTimestamp 3023 1 1)) (VDate (mkTimestamp 3023 1 1))
                dated_rows_Some eq_refl eq_refl) as (_ & _ & _ & _ & Hv & Hd).
    split; [apply (Hv _ eq_refl)|]. split; [apply (Hv _ eq_refl) | apply (Hd _ eq_refl)].
Defined.

(** * Further properties of the projection *)

(** ** The guard of line 632 *)

Lemma dropna_empty_true (a b : list value) :
  (∀ i x y, a !! i = Some x → b !! i = Some y → x = VNaN ∨ y = VNaN) →
  dropna_empty a b = true.
Proof.
  unfold dropna_empty. revert b.
  induction a as [|x a IH]; intros [|y b] Hall; simpl; try done.
  rewrite IH; [|intros i; apply (Hall (S i))].
  destruct (Hall 0%nat x y eq_refl eq_refl) as [-> | ->]; [done|].
  by rewrite andb_false_r.
Qed.

(** X8. The tab computes nothing, and raises nothing, when the frame has no
    deposit year column, or when no row has both a deposit year and a
    lifetime, whether or not the other columns it would need are there;
    with a deposit year column and no lifetime column it raises. *)
Theorem projection_guard (df_filtered : DataFrame) (current_year horizon : Z) :
  (get_col "Annee_Depot" df_filtered = None →
   projection df_filtered current_year horizon = Return None)
  ∧ (∀ annee,
       get_col "Annee_Depot" df_filtered = Some annee →
       get_col "Duree_Vie" df_filtered = None →
       projection df_filtered current_year horizon = Raise (KeyError "Duree_Vie"))
  ∧ (∀ annee duree,
       get_col "Annee_Depot" df_filtered = Some annee →
       get_col "Duree_Vie" df_filtered = Some duree →
       (∀ i x y, annee !! i = Some x → duree !! i = Some y → x = VNaN ∨ y = VNaN) →
       projection df_filtered current_year horizon = Return None).
Proof.
  unfold projection. split; [by intros ->|]. split.
  - by intros annee -> ->.
  - intros annee duree -> -> Hall. by rewrite dropna_empty_true.
Qed.

(** ** The years of the series *)

Lemma series_min_cons v s :
  series_min (v :: s)
  = match as_num v, series_min s with
    | Some q, Some m => Some (if decide (q < m)%Q then q else m)
    | Some q, None => Some q
    | None, acc => acc
    end.
Proof. done. Qed.

Lemma series_min_None (s : list value) q : series_min s = None → VNum q ∉ s.
Proof.
  induction s as [|v s IH]; [intros _; apply not_elem_of_nil|].
  rewrite series_min_cons. intros Hs [<-|Hin]%elem_of_cons.
  - simpl in Hs. by destruct (series_min s).
  - destruct (as_num v); [by destruct (series_min s) | by apply IH].
Qed.

(** [Series.min()] returns one of the numbers of the column, and none of
    them is smaller. *)
Lemma series_min_spec (s : list value) m :
  series_min s = Some m →
  VNum m ∈ s ∧ ∀ q, VNum q ∈ s → (m <= q)%Q.
Proof.
  revert m. induction s as [|v s IH]; intros m; [done|].
  rewrite series_min_cons.
  destruct v as [q|t|t|]; simpl;
    try (intros [Hin Hmin]%IH; split;
         [by apply list_elem_of_further
         |intros q' [?|?]%elem_of_cons; [done | by apply Hmin]]).
  destruct (series_min s) as [m'|] eqn:Hs.
  - destruct (IH m' eq_refl) as [Hin Hmin]. intros [= <-]. case_decide as Hlt.
    + split; [apply list_elem_of_here|].
      intros q' [[= ->]|Hq']%elem_of_cons; [apply Qle_refl|].
      apply Qlt_le_weak. eapply Qlt_le_trans; [done | by apply Hmin].
    + split; [by apply list_elem_of_further|].
      intros q' [[= ->]|Hq']%elem_of_cons; [by apply Qnot_lt_le | by apply Hmin].
  - intros [= <-]. split; [apply list_elem_of_here|].
    intros q' [[= ->]|Hq']%elem_of_cons; [apply Qle_refl|].
    by apply (series_min_None s q') in Hq'.
Qed.

Lemma year_loop_years years df_proj l :
  year_loop years df_proj [] = Return l → Forall (λ e, Annee e ∈ years) l.
Proof.
  intros (per_year & Hall & ->)%year_loop_Return. rewrite app_nil_l.
  induction Hall as [|y entries years per_year Hb Hall IH]; simpl; [constructor|].
  apply Forall_app. split.
  - eapply Forall_impl; [by eapply breakdown_years|].
    intros e <-. apply list_elem_of_here.
  - eapply Forall_impl; [apply IH|]. intros e He. by apply list_elem_of_further.
Qed.

(** X9. Every entry of the series bears a year between the first deposit year,
    the least deposit year of the table truncated to an integer, and the
    current year plus the horizon. *)
Theorem projection_years_range (df_filtered : DataFrame) (current_year horizon : Z)
    (top_ops : list string) (entries : list breakdown_entry) :
  projection df_filtered current_year horizon = Return (Some (top_ops, entries)) →
  ∃ annee first,
    get_col "Annee_Depot" df_filtered = Some annee
    ∧ VNum first ∈ annee
    ∧ (∀ q, VNum q ∈ annee → (first <= q)%Q)
    ∧ Forall (λ e, (int_of first ≤ Annee e ≤ current_year + horizon)%Z) entries.
Proof.
  unfold projection. cbv zeta.
  destruct (get_col "Annee_Depot" df_filtered) as [annee|]; [|done].
  destruct (get_col "Duree_Vie" df_filtered) as [duree|]; [|done].
  destruct (dropna_empty annee duree); [done|].
  destruct (series_min annee) as [m|] eqn:Hmin; [|done].
  destruct (get_col "FacteurKey" df_filtered) as [key|]; [|done].
  destruct (get_col "GWh_reels_annuels" df_filtered) as [gwh|]; [|done].
  destruct (year_loop _ _ _) as [e|l] eqn:Hloop; [done|].
  intros Heq. injection Heq as <- <-.
  destruct (series_min_spec _ _ Hmin) as [Hin Hleast].
  exists annee, m. split; [done|]. split; [done|]. split; [done|].
  eapply Forall_impl; [by eapply year_loop_years|].
  intros e He. simpl in He. apply elem_of_seqZ in He. lia.
Qed.

Lemma projection_years_range_witness :
  ∃ top_ops entries,
    projection (enriched 0.45 scenario_row_validated [VNaN] [VDate (mkTimestamp 2022 3 1)])
      2026 10 = Return (Some (top_ops, entries))
    ∧ ∃ annee first,
        get_col "Annee_Depot"
          (enriched 0.45 scenario_row_validated [VNaN] [VDate (mkTimestamp 2022 3 1)])
        = Some annee
        ∧ VNum first ∈ annee
        ∧ (∀ q, VNum q ∈ annee → (first <= q)%Q)
        ∧ Forall (λ e, (int_of first ≤ Annee e ≤ 2026 + 10)%Z) entries.
Proof.
  eexists _, _. split; [vm_compute; reflexivity|].
  eapply (projection_years_range
            (enriched 0.45 scenario_row_validated [VNaN] [VDate (mkTimestamp 2022 3 1)])
            2026 10).
  vm_compute; reflexivity.
Defined.

(** * The reference cities (app.py, lines 86-106) *)

Definition VILLES_REFERENCE : gmap Z string :=
  list_to_map
    [ (10000, "Luxeuil-les-Bains (10k hab)"); (25000, "Saintes (25k hab)");
      (32175, "Aix-les-Bains-Rhône (32k hab)"); (50000, "Niort (50k hab)");
      (100000, "Nancy (100k hab)"); (250000, "Montpellier (250k hab)");
      (500000, "Lyon (500k hab)"); (1000000, "Marseille (1M hab)");
      (2000000, "Paris (2.2M hab)") ]%Z.
Arguments VILLES_REFERENCE : simpl never.

(** The order of [sorted(VILLES_REFERENCE.items())]: by threshold, the keys
    of a dict being pairwise different. *)
Definition seuil_le (a b : Z * string) : Prop := (a.1 ≤ b.1)%Z.

#[global] Instance seuil_le_dec : RelDecision seuil_le.
Proof. intros a b. unfold seuil_le. apply _. Defined.

(** The loop of lines 103-105 over the sorted items. *)
Fixpoint first_ville (items : list (Z * string)) (nb_habitants : Q) : option string :=
  match items with
  | [] => None
  | (seuil, ville) :: rest =>
      if decide (nb_habitants <= inject_Z seuil)%Q then Some ville
      else first_ville rest nb_habitants
  end.

Definition get_ville_equivalente (nb_habitants : Q) : string :=
  match first_ville (merge_sort seuil_le (map_to_list VILLES_REFERENCE)) nb_habitants with
  | Some ville => ville
  | None => VILLES_REFERENCE !!! 2000000%Z
  end.

#[global] Instance seuil_le_total : Total seuil_le.
Proof. intros a b. unfold seuil_le. lia. Qed.

#[global] Instance seuil_le_trans : Transitive seuil_le.
Proof. intros a b c. unfold seuil_le. lia. Qed.

(** On items sorted by threshold, with pairwise different thresholds, the
    loop stops at the least threshold that is not below the population. *)
Lemma first_ville_least (items : list (Z * string)) nb seuil ville :
  StronglySorted seuil_le items → NoDup items.*1 →
  (seuil, ville) ∈ items →
  (nb <= inject_Z seuil)%Q →
  (∀ s v, (s, v) ∈ items → (nb <= inject_Z s)%Q → (seuil ≤ s)%Z) →
  first_ville items nb = Some ville.
Proof.
  induction items as [|[s0 v0] items IH]; intros Hs Hnd Hin Hle Hleast.
  - by apply elem_of_nil in Hin.
  - apply StronglySorted_cons in Hs as [Hhd Hs].
    simpl in Hnd. apply NoDup_cons in Hnd as [Hs0 Hnd]. simpl.
    case_decide as Hnb.
    + assert (seuil ≤ s0)%Z as H1 by (apply (Hleast s0 v0); [apply list_elem_of_here|done]).
      apply elem_of_cons in Hin as [[= -> ->]|Hin]; [done|].
      exfalso. rewrite Forall_forall in Hhd. specialize (Hhd _ Hin).
      unfold seuil_le in Hhd; simpl in Hhd.
      assert (s0 = seuil) as -> by lia.
      apply Hs0. apply list_elem_of_fmap. by exists (seuil, ville).
    + apply elem_of_cons in Hin as [[= -> ->]|Hin]; [done|].
      apply IH; try done.
      intros s v Hsv. apply (Hleast s v). by apply list_elem_of_further.
Qed.

Lemma first_ville_None (items : list (Z * string)) nb :
  (∀ s v, (s, v) ∈ items → (inject_Z s < nb)%Q) → first_ville items nb = None.
Proof.
  induction items as [|[s0 v0] items IH]; intros Hall; simpl; [done|].
  case_decide as Hnb.
  - exfalso. apply (Qlt_not_le _ _ (Hall s0 v0 (list_elem_of_here _ _))). done.
  - apply IH. intros s v Hsv. apply (Hall s v). by apply list_elem_of_further.
Qed.

(** X10. The reference city of a population is the city of the least threshold
    that is not below it; above every threshold it is Paris. *)
Theorem get_ville_equivalente_least :
  (∀ (nb_habitants : Q) (seuil : Z) (ville : string),
      VILLES_REFERENCE !! seuil = Some ville →
      (nb_habitants <= inject_Z seuil)%Q →
      (∀ s v, VILLES_REFERENCE !! s = Some v → (nb_habitants <= inject_Z s)%Q →
              (seuil ≤ s)%Z) →
      get_ville_equivalente nb_habitants = ville)
  ∧ (∀ nb_habitants : Q,
      (∀ s v, VILLES_REFERENCE !! s = Some v → (inject_Z s < nb_habitants)%Q) →
      get_ville_equivalente nb_habitants = "Paris (2.2M hab)").
Proof.
  split.
  - intros nb seuil ville Hlook Hle Hleast. unfold get_ville_equivalente.
    rewrite (first_ville_least _ nb seuil ville); [done|..].
    + apply StronglySorted_merge_sort; apply _.
    + rewrite merge_sort_Permutation. apply NoDup_fst_map_to_list.
    + rewrite merge_sort_Permutation. by apply elem_of_map_to_list.
    + done.
    + intros s v Hsv. apply (Hleast s v).
      rewrite merge_sort_Permutation in Hsv. by apply elem_of_map_to_list.
  - intros nb Hall. unfold get_ville_equivalente.
    rewrite first_ville_None; [by vm_compute|].
    intros s v Hsv. apply (Hall s v).
    rewrite merge_sort_Permutation in Hsv. by apply elem_of_map_to_list.
Qed.

Lemma get_ville_equivalente_least_witness :
  get_ville_equivalente 33000 = "Niort (50k hab)".
Proof.
  apply (proj1 get_ville_equivalente_least 33000%Q 50000%Z).
  - reflexivity.
  - by vm_compute.
  - intros s v Hsv. unfold VILLES_REFERENCE in Hsv.
    apply elem_of_list_to_map_2 in Hsv.
    repeat (apply elem_of_cons in Hsv as [Hsv|Hsv];
            [injection Hsv as -> ->; (by vm_compute) || (intros _; lia)|]).
    by apply elem_of_nil in Hsv.
Defined.

(** * The sidebar filters (app.py, lines 268-273) *)

(** [.isin(l)] for a list of integers, on a numeric column. *)
Definition isin_int (l : list Z) (v : value) : bool :=
  match as_num v with
  | Some q => existsb (λ z, Qeq_bool q (inject_Z z)) l
  | None => false
  end.

(** [if flt: df_filtered = df_filtered[df_filtered[c].isin(flt)]] *)
Definition apply_filter {A} (c : string) (test : list A → value → bool)
    (flt : list A) (df_filtered : DataFrame) : result DataFrame :=
  match flt with
  | [] => Return df_filtered
  | _ :: _ =>
      col! s := c of df_filtered in
      Return (filter_rows (test flt <$> s) df_filtered)
  end.

Definition apply_filters (periode_filter mandataire_filter : list string)
    (annee_filter : list Z) (type_benef_filter : list string)
    (df : DataFrame) : result DataFrame :=
  match apply_filter "Période" isin periode_filter df with
  | Raise e => Raise e
  | Return df1 =>
      match apply_filter "Mandataire" isin mandataire_filter df1 with
      | Raise e => Raise e
      | Return df2 =>
          match apply_filter "Annee_Depot" isin_int annee_filter df2 with
          | Raise e => Raise e
          | Return df3 => apply_filter "Type_Beneficiaire" isin type_benef_filter df3
          end
      end
  end.

(** A cell passes a filter when the selection is empty or holds it. *)
Definition passes {A} (test : list A → value → bool) (flt : list A) (v : value) : bool :=
  match flt with [] => true | _ :: _ => test flt v end.

(** The rows that pass the four filters. *)
Definition filter_mask (periode_filter mandataire_filter : list string)
    (annee_filter : list Z) (type_benef_filter : list string)
    (n : nat) (p m a t : list value) : list bool :=
  zip_with (λ b x, b && passes isin type_benef_filter x)
    (zip_with (λ b x, b && passes isin_int annee_filter x)
       (zip_with (λ b x, b && passes isin mandataire_filter x)
          (zip_with (λ b x, b && passes isin periode_filter x)
             (replicate n true) p) m) a) t.

Lemma select_nil_r {A} (mask : list bool) : select mask (@nil A) = [].
Proof. by destruct mask. Qed.

Lemma select_select {A} (f : value → bool) (mask : list bool) (s : list value) (l : list A) :
  select (f <$> select mask s) (select mask l)
  = select (zip_with (λ b x, b && f x) mask s) l.
Proof.
  revert s l. induction mask as [|b mask IH]; intros s l; [done|].
  destruct s as [|x s]; [done|].
  destruct l as [|y l]; [by rewrite !select_nil_r|].
  destruct b; simpl; [by rewrite IH | apply IH].
Qed.

Lemma select_all {A} (n : nat) (l : list A) :
  (length l ≤ n)%nat → select (replicate n true) l = l.
Proof.
  revert l. induction n as [|n IH]; intros [|y l] Hlen; simpl in *; try done; [lia|].
  rewrite IH; [done | lia].
Qed.

Lemma select_sublist {A} (mask : list bool) (l : list A) : select mask l `sublist_of` l.
Proof.
  revert l. induction mask as [|b mask IH]; intros l; simpl; [apply sublist_nil_l|].
  destruct l as [|y l]; [done|].
  destruct b; [by apply sublist_skip | by apply sublist_cons].
Qed.

Lemma length_select {A B} (mask : list bool) (l : list A) (k : list B) :
  length l = length k → length (select mask l) = length (select mask k).
Proof.
  revert l k. induction mask as [|b mask IH]; intros [|x l] [|y k] Hlen; simpl in *; try done.
  destruct b; simpl; [f_equal|]; apply IH; lia.
Qed.

Lemma wf_filter_rows mask df : wf df → wf (filter_rows mask df).
Proof.
  intros Hwf c s Hc. change (get_col c (filter_rows mask df) = Some s) in Hc.
  rewrite get_filter_rows in Hc.
  destruct (get_col c df) as [s0|] eqn:Hs0; [|done]. injection Hc as <-.
  unfold nrows. rewrite index_filter_rows. apply length_select. exact (Hwf c s0 Hs0).
Qed.

Lemma filter_rows_all df : wf df → filter_rows (replicate (nrows df) true) df = df.
Proof.
  intros Hwf. destruct df as [idx cols]. unfold filter_rows; simpl. f_equal.
  - by apply select_all.
  - transitivity (id <$> cols); [|apply map_fmap_id]. apply map_fmap_ext.
    intros c s Hc. unfold id. apply select_all. by rewrite (Hwf c s Hc).
Qed.

Lemma filter_rows_filter_rows (f : value → bool) mask s df :
  filter_rows (f <$> select mask s) (filter_rows mask df)
  = filter_rows (zip_with (λ b x, b && f x) mask s) df.
Proof.
  unfold filter_rows; simpl. f_equal; [apply select_select|].
  rewrite <- map_fmap_compose. apply map_fmap_ext.
  intros c l _. apply select_select.
Qed.

Lemma zip_with_and_true {A} (mask : list bool) (s : list A) :
  (length mask ≤ length s)%nat → zip_with (λ b _, b && true) mask s = mask.
Proof.
  revert s. induction mask as [|b mask IH]; intros [|x s] Hlen; simpl in *; try done; [lia|].
  rewrite andb_true_r, IH; [done | lia].
Qed.

(** One filter after a selection of rows is one selection of rows. *)
Lemma apply_filter_mask {A} c (test : list A → value → bool) flt mask s df :
  get_col c df = Some s → (length mask ≤ length s)%nat →
  apply_filter c test flt (filter_rows mask df)
  = Return (filter_rows (zip_with (λ b x, b && passes test flt x) mask s) df).
Proof.
  intros Hs Hlen. destruct flt as [|z flt]; simpl.
  - by rewrite zip_with_and_true.
  - rewrite get_filter_rows, Hs. simpl. by rewrite filter_rows_filter_rows.
Qed.

(** The four filters in sequence are one selection of rows. *)
Lemma apply_filters_mask pf mf af tf df p m a t :
  wf df →
  get_col "Période" df = Some p → get_col "Mandataire" df = Some m →
  get_col "Annee_Depot" df = Some a → get_col "Type_Beneficiaire" df = Some t →
  apply_filters pf mf af tf df
  = Return (filter_rows (filter_mask pf mf af tf (nrows df) p m a t) df).
Proof.
  intros Hwf Hp Hm Ha Ht.
  pose proof (Hwf _ _ Hp) as Lp. pose proof (Hwf _ _ Hm) as Lm.
  pose proof (Hwf _ _ Ha) as La. pose proof (Hwf _ _ Ht) as Lt.
  unfold apply_filters, filter_mask.
  rewrite <- (filter_rows_all df Hwf) at 1.
  rewrite (apply_filter_mask _ _ _ _ p) by (done || (rewrite ?length_replicate; lia)).
  rewrite (apply_filter_mask _ _ _ _ m)
    by (done || (rewrite ?length_zip_with, ?length_replicate; lia)).
  rewrite (apply_filter_mask _ _ _ _ a)
    by (done || (rewrite ?length_zip_with, ?length_replicate; lia)).
  rewrite (apply_filter_mask _ _ _ _ t)
    by (done || (rewrite ?length_zip_with, ?length_replicate; lia)).
  done.
Qed.

Lemma length_filter_mask pf mf af tf n p m a t :
  length p = n → length m = n → length a = n → length t = n →
  length (filter_mask pf mf af tf n p m a t) = n.
Proof.
  intros. unfold filter_mask. rewrite !length_zip_with, length_replicate. lia.
Qed.

Lemma lookup_filter_mask pf mf af tf n p m a t i vp vm va vt :
  (i < n)%nat →
  p !! i = Some vp → m !! i = Some vm → a !! i = Some va → t !! i = Some vt →
  filter_mask pf mf af tf n p m a t !! i
  = Some (passes isin pf vp && passes isin mf vm
          && passes isin_int af va && passes isin tf vt).
Proof.
  intros Hi Hp Hm Ha Ht. unfold filter_mask.
  rewrite !lookup_zip_with, (lookup_replicate_2 _ _ _ Hi), Hp, Hm, Ha, Ht. done.
Qed.

(** X11. The rows that remain are those that pass every filter with a selection:
    the four steps form one selection of rows of the table, which keeps row
    [i] exactly when each of its four cells passes its filter, an empty
    selection letting every cell pass. *)
Theorem filters_conjunction pf mf af tf df p m a t :
  wf df →
  get_col "Période" df = Some p → get_col "Mandataire" df = Some m →
  get_col "Annee_Depot" df = Some a → get_col "Type_Beneficiaire" df = Some t →
  ∃ mask,
    apply_filters pf mf af tf df = Return (filter_rows mask df)
    ∧ length mask = nrows df
    ∧ ∀ i vp vm va vt,
        p !! i = Some vp → m !! i = Some vm → a !! i = Some va → t !! i = Some vt →
        mask !! i = Some (passes isin pf vp && passes isin mf vm
                          && passes isin_int af va && passes isin tf vt).
Proof.
  intros Hwf Hp Hm Ha Ht.
  exists (filter_mask pf mf af tf (nrows df) p m a t).
  split; [by apply apply_filters_mask|].
  split.
  { apply length_filter_mask;
      [exact (Hwf _ _ Hp) | exact (Hwf _ _ Hm) | exact (Hwf _ _ Ha) | exact (Hwf _ _ Ht)]. }
  intros i vp vm va vt Hvp Hvm Hva Hvt. apply lookup_filter_mask; try done.
  rewrite <- (Hwf _ _ Hp). by eapply lookup_lt_Some.
Qed.

(** A table with the four filtered columns. *)
Definition filtered_example : DataFrame :=
  frame 3 [ ("Période", [VStr "P5"; VStr "P4"; VStr "P5"]);
            ("Mandataire", [VStr "A"; VStr "B"; VStr "Non renseigné"]);
            ("Annee_Depot", [VNum 2022; VNum 2022; VNaN]);
            ("Type_Beneficiaire", [VStr "Ménage Classique"; VStr "Personne Morale";
                                   VStr "Ménage Classique"]) ].

Lemma filtered_example_wf : wf filtered_example.
Proof.
  intros c s Hc. apply elem_of_list_to_map_2 in Hc.
  repeat (apply elem_of_cons in Hc as [Hc|Hc]; [by inversion Hc|]).
  by apply elem_of_nil in Hc.
Qed.

Lemma filters_conjunction_witness :
  ∃ mask,
    apply_filters ["P5"] [] [2022%Z] [] filtered_example
    = Return (filter_rows mask filtered_example)
    ∧ length mask = nrows filtered_example
    ∧ ∀ i vp vm va vt,
        [VStr "P5"; VStr "P4"; VStr "P5"] !! i = Some vp →
        [VStr "A"; VStr "B"; VStr "Non renseigné"] !! i = Some vm →
        [VNum 2022; VNum 2022; VNaN] !! i = Some va →
        [VStr "Ménage Classique"; VStr "Personne Morale"; VStr "Ménage Classique"] !! i
        = Some vt →
        mask !! i = Some (passes isin ["P5"] vp && passes isin [] vm
                          && passes isin_int [2022%Z] va && passes isin [] vt).
Proof.
  apply (filters_conjunction ["P5"] [] [2022%Z] [] filtered_example).
  - apply filtered_example_wf.
  - reflexivity.
  - reflexivity.
  - reflexivity.
  - reflexivity.
Defined.

Lemma filter_mask_true pf mf af tf n p m a t j :
  length p = n → length m = n → length a = n → length t = n →
  filter_mask pf mf af tf n p m a t !! j = Some true →
  ∃ vp vm va vt,
    p !! j = Some vp ∧ m !! j = Some vm ∧ a !! j = Some va ∧ t !! j = Some vt
    ∧ passes isin pf vp = true ∧ passes isin mf vm = true
    ∧ passes isin_int af va = true ∧ passes isin tf vt = true.
Proof.
  intros Lp Lm La Lt Hj.
  assert (j < n)%nat as Hlt.
  { rewrite <- (length_filter_mask pf mf af tf n p m a t) by done.
    by eapply lookup_lt_Some. }
  destruct (lookup_lt_is_Some_2 p j) as [vp Hvp]; [lia|].
  destruct (lookup_lt_is_Some_2 m j) as [vm Hvm]; [lia|].
  destruct (lookup_lt_is_Some_2 a j) as [va Hva]; [lia|].
  destruct (lookup_lt_is_Some_2 t j) as [vt Hvt]; [lia|].
  rewrite (lookup_filter_mask _ _ _ _ _ _ _ _ _ _ vp vm va vt) in Hj by done.
  injection Hj as Hj. rewrite !andb_true_iff in Hj. destruct Hj as [[[? ?] ?] ?].
  exists vp, vm, va, vt. done.
Qed.

Lemma passes_isin flt v :
  flt ≠ [] → passes isin flt v = true → ∃ s, v = VStr s ∧ s ∈ flt.
Proof.
  intros Hne Hv. destruct flt as [|x flt]; [done|]. simpl in Hv.
  destruct v as [|s| |]; try done. exists s. split; [done|].
  by apply bool_decide_eq_true in Hv.
Qed.

Lemma passes_isin_int flt v :
  flt ≠ [] → passes isin_int flt v = true →
  ∃ q z, v = VNum q ∧ z ∈ flt ∧ (q == inject_Z z)%Q.
Proof.
  intros Hne Hv. destruct flt as [|x flt]; [done|].
  unfold passes, isin_int in Hv. destruct v as [q| | |]; try done.
  change (as_num (VNum q)) with (Some q) in Hv. cbv beta iota in Hv.
  apply existsb_exists in Hv as (z & Hz & Hq).
  exists q, z. split; [done|]. split; [by apply list_elem_of_In | by apply Qeq_bool_iff].
Qed.

(** What a table with the four columns keeps through the filters. *)
Lemma apply_filters_kept pf mf af tf df1 p m a t :
  wf df1 →
  get_col "Période" df1 = Some p → get_col "Mandataire" df1 = Some m →
  get_col "Annee_Depot" df1 = Some a → get_col "Type_Beneficiaire" df1 = Some t →
  ∃ df2,
    apply_filters pf mf af tf df1 = Return df2
    ∧ wf df2
    ∧ index df2 `sublist_of` index df1
    ∧ (∀ c, is_Some (get_col c df1) → is_Some (get_col c df2))
    ∧ (pf ≠ [] → ∀ i v, cell df2 "Période" i = Some v → ∃ s, v = VStr s ∧ s ∈ pf)
    ∧ (mf ≠ [] → ∀ i v, cell df2 "Mandataire" i = Some v → ∃ s, v = VStr s ∧ s ∈ mf)
    ∧ (af ≠ [] → ∀ i v, cell df2 "Annee_Depot" i = Some v →
         ∃ q z, v = VNum q ∧ z ∈ af ∧ (q == inject_Z z)%Q)
    ∧ (tf ≠ [] → ∀ i v, cell df2 "Type_Beneficiaire" i = Some v →
         ∃ s, v = VStr s ∧ s ∈ tf).
Proof.
  intros Hwf1 Hp Hm Ha Ht.
  pose proof (Hwf1 _ _ Hp) as Lp. pose proof (Hwf1 _ _ Hm) as Lm.
  pose proof (Hwf1 _ _ Ha) as La. pose proof (Hwf1 _ _ Ht) as Lt.
  set (mask := filter_mask pf mf af tf (nrows df1) p m a t).
  exists (filter_rows mask df1).
  split; [by apply apply_filters_mask|].
  split; [by apply wf_filter_rows|].
  split; [rewrite index_filter_rows; apply select_sublist|].
  split.
  { intros c [s Hs]. rewrite get_filter_rows, Hs. by eexists. }
  assert (∀ c s i v, get_col c df1 = Some s →
            cell (filter_rows mask df1) c i = Some v →
            ∃ j, mask !! j = Some true ∧ s !! j = Some v) as Hcell.
  { intros c s i v Hs Hv. apply cell_Some in Hv as (s' & Hs' & Hi).
    rewrite get_filter_rows, Hs in Hs'. injection Hs' as <-.
    apply elem_of_select. by eapply list_elem_of_lookup_2. }
  repeat split; intros Hne i v Hv.
  - destruct (Hcell _ _ _ _ Hp Hv) as (j & Hj & Hjv).
    destruct (filter_mask_true _ _ _ _ _ _ _ _ _ _ Lp Lm La Lt Hj)
      as (vp & vm & va & vt & Hvp & _ & _ & _ & Pp & _).
    apply passes_isin; [done|]. congruence.
  - destruct (Hcell _ _ _ _ Hm Hv) as (j & Hj & Hjv).
    destruct (filter_mask_true _ _ _ _ _ _ _ _ _ _ Lp Lm La Lt Hj)
      as (vp & vm & va & vt & _ & Hvm & _ & _ & _ & Pm & _).
    apply passes_isin; [done|]. congruence.
  - destruct (Hcell _ _ _ _ Ha Hv) as (j & Hj & Hjv).
    destruct (filter_mask_true _ _ _ _ _ _ _ _ _ _ Lp Lm La Lt Hj)
      as (vp & vm & va & vt & _ & _ & Hva & _ & _ & _ & Pa & _).
    apply passes_isin_int; [done|]. congruence.
  - destruct (Hcell _ _ _ _ Ht Hv) as (j & Hj & Hjv).
    destruct (filter_mask_true _ _ _ _ _ _ _ _ _ _ Lp Lm La Lt Hj)
      as (vp & vm & va & vt & _ & _ & _ & Hvt & _ & _ & _ & Pt).
    apply passes_isin; [done|]. congruence.
Qed.

Section FilteredTable.
Context `{Coercions}.

(** X12. On the table the enricher returns the filters raise nothing; what remains
    is a table with one cell per row in every column, whose rows are rows of
    the upload in their order and whose columns are all still there; and with
    a selection, every remaining cell of the filtered column holds a selected
    value: in particular a row without a deposit year does not survive a
    selection of years. *)
Theorem filters_after_enrichment pf mf af tf taux df df1 :
  wf df →
  load_and_process_data df taux = Some df1 →
  ∃ df2,
    apply_filters pf mf af tf df1 = Return df2
    ∧ wf df2
    ∧ index df2 `sublist_of` index df
    ∧ (∀ c, is_Some (get_col c df1) → is_Some (get_col c df2))
    ∧ (pf ≠ [] → ∀ i v, cell df2 "Période" i = Some v → ∃ s, v = VStr s ∧ s ∈ pf)
    ∧ (mf ≠ [] → ∀ i v, cell df2 "Mandataire" i = Some v → ∃ s, v = VStr s ∧ s ∈ mf)
    ∧ (af ≠ [] → ∀ i v, cell df2 "Annee_Depot" i = Some v →
         ∃ q z, v = VNum q ∧ z ∈ af ∧ (q == inject_Z z)%Q)
    ∧ (tf ≠ [] → ∀ i v, cell df2 "Type_Beneficiaire" i = Some v →
         ∃ s, v = VStr s ∧ s ∈ tf).
Proof.
  intros Hwf Hload.
  destruct (load_and_process_data_inv _ _ _ Hload) as (vd & dd & Hvd & Hdd & ->).
  pose proof (extends_enriched taux df vd dd Hvd Hdd) as E.
  rewrite <- (ext_index _ _ _ E).
  exact (apply_filters_kept pf mf af tf _ _ _ _ _ (ext_wf _ _ _ E Hwf)
           (get_enriched_Periode taux df vd dd) (get_enriched_Mandataire taux df vd dd)
           (get_enriched_Annee_Depot taux df vd dd)
           (get_enriched_Type_Beneficiaire taux df vd dd)).
Qed.

End FilteredTable.

Lemma filters_after_enrichment_witness :
  ∃ df1,
    load_and_process_data scenario_row_validated 0.45 = Some df1
    ∧ wf scenario_row_validated
    ∧ ∃ df2,
        apply_filters ["P5"] [] [2022%Z] [] df1 = Return df2
        ∧ wf df2
        ∧ index df2 `sublist_of` index scenario_row_validated
        ∧ (∀ c, is_Some (get_col c df1) → is_Some (get_col c df2))
        ∧ (["P5"] ≠ [] → ∀ i v, cell df2 "Période" i = Some v →
             ∃ s, v = VStr s ∧ s ∈ ["P5"])
        ∧ (@nil string ≠ [] → ∀ i v, cell df2 "Mandataire" i = Some v →
             ∃ s, v = VStr s ∧ s ∈ @nil string)
        ∧ ([2022%Z] ≠ [] → ∀ i v, cell df2 "Annee_Depot" i = Some v →
             ∃ q z, v = VNum q ∧ z ∈ [2022%Z] ∧ (q == inject_Z z)%Q)
        ∧ (@nil string ≠ [] → ∀ i v, cell df2 "Type_Beneficiaire" i = Some v →
             ∃ s, v = VStr s ∧ s ∈ @nil string).
Proof.
  exists (enriched 0.45 scenario_row_validated [VNaN] [VDate (mkTimestamp 2022 3 1)]).
  split; [by apply load_and_process_data_Some|].
  split; [apply scenario_row_validated_wf|].
  apply (filters_after_enrichment ["P5"] [] [2022%Z] [] 0.45 scenario_row_validated).
  - apply scenario_row_validated_wf.
  - by apply load_and_process_data_Some.
Defined.

(** * The total curve of the projection (app.py, lines 656-667) *)

(** The sum of a list of numbers. *)
Definition Qsum (l : list Q) : Q := foldr Qplus 0%Q l.

(** [s.sum()] on a column: the missing values are skipped. *)
Definition series_sum (s : list value) : Q :=
  Qsum ((λ v, default 0%Q (as_num v)) <$> s).

(** The value of the group [year] in
    [projection_df.groupby('Année')['Économies GWh/an'].sum()]. *)
Definition total_of_year (year : Z) (projection_breakdown_list : list breakdown_entry) : Q :=
  Qsum (Economies_GWh_an <$> filter (λ e, Annee e = year) projection_breakdown_list).

Definition is_text (v : value) : Prop := ∃ s, v = VStr s.

Lemma Qsum_Permutation (l l' : list Q) : l ≡ₚ l' → (Qsum l == Qsum l')%Q.
Proof.
  induction 1 as [|x l l' _ IH|x y l|l l' l'' _ IH1 _ IH2]; simpl.
  - reflexivity.
  - by rewrite IH.
  - ring.
  - by rewrite IH1.
Qed.

Lemma Qsum_values_Permutation (l l' : list (string * Q)) :
  l ≡ₚ l' → (Qsum l.*2 == Qsum l'.*2)%Q.
Proof. intros Hl. apply Qsum_Permutation. by rewrite Hl. Qed.

(** A row adds its value to the total of the groups. *)
Lemma groupby_step_total (m : gmap string Q) (k : string) (v : value) :
  (Qsum (map_to_list (groupby_step m (VStr k, v))).*2
   == Qsum (map_to_list m).*2 + default 0 (as_num v))%Q.
Proof.
  unfold groupby_step. cbn [fst snd].
  destruct (m !! k) as [old|] eqn:Hk.
  - rewrite <- insert_delete_eq.
    rewrite (Qsum_values_Permutation _ _
               (map_to_list_insert (delete k m) k _ (lookup_delete_eq m k))).
    rewrite <- (Qsum_values_Permutation _ _ (map_to_list_delete m k old Hk)).
    unfold Qsum. rewrite !fmap_cons. cbn [snd foldr default from_option id]. ring.
  - rewrite (Qsum_values_Permutation _ _ (map_to_list_insert m k _ Hk)).
    unfold Qsum. rewrite !fmap_cons. cbn [snd foldr default from_option id]. ring.
Qed.

Lemma series_sum_nil : series_sum [] = 0%Q.
Proof. done. Qed.

Lemma series_sum_cons v s :
  series_sum (v :: s) = (default 0 (as_num v) + series_sum s)%Q.
Proof. done. Qed.

Lemma foldl_groupby_total (kvs : list (value * value)) (m : gmap string Q) :
  Forall (λ kv, is_text kv.1) kvs →
  (Qsum (map_to_list (foldl groupby_step m kvs)).*2
   == Qsum (map_to_list m).*2 + series_sum kvs.*2)%Q.
Proof.
  intros Hall. revert m.
  induction Hall as [|[key val] kvs [k Hk] _ IH]; intros m.
  - rewrite fmap_nil, series_sum_nil. cbn [foldl]. ring.
  - simpl in Hk. subst key. rewrite fmap_cons, series_sum_cons. cbn [foldl snd].
    rewrite IH, groupby_step_total. ring.
Qed.

(** With a text in every key, the groups of a grouped sum add up to the sum
    of the column. *)
Lemma groupby_sum_total keys vals :
  Forall is_text keys → length keys = length vals →
  (Qsum (map_to_list (groupby_sum keys vals)).*2 == series_sum vals)%Q.
Proof.
  intros Hkeys Hlen. rewrite groupby_sum_foldl, foldl_groupby_total.
  - rewrite map_to_list_empty, snd_zip by lia. rewrite fmap_nil. cbn [Qsum foldr]. ring.
  - apply Forall_forall. intros [key val] Hin. simpl.
    apply elem_of_zip_l in Hin. by eapply Forall_forall in Hkeys.
Qed.

(** And there is a group as soon as there is a row. *)
Lemma groupby_sum_empty keys vals :
  Forall is_text keys → length keys = length vals →
  groupby_sum keys vals = ∅ ↔ keys = [].
Proof.
  intros Hkeys Hlen. split; [|by intros ->].
  destruct keys as [|key keys]; [done|]. destruct vals as [|val vals]; [done|].
  apply Forall_cons in Hkeys as [[k ->] _].
  rewrite groupby_sum_foldl. simpl. intros Hempty.
  assert (is_Some (foldl groupby_step (groupby_step ∅ (VStr k, val)) (zip keys vals) !! k))
    as Hsome.
  { apply foldl_groupby_mono. unfold groupby_step. simpl.
    rewrite lookup_insert_eq. by eexists. }
  rewrite Hempty, lookup_empty in Hsome. by destruct Hsome.
Qed.

Lemma Forall_select {A} (P : A → Prop) (mask : list bool) (l : list A) :
  Forall P l → Forall P (select mask l).
Proof.
  rewrite !Forall_forall. intros Hl x Hx. by eapply Hl, elem_of_select_sub.
Qed.

(** The entries of one year add up to the real annual energy of the
    operations active in that year, and there is none only when no operation
    is active. *)
Lemma breakdown_total year df_proj entries annee duree op gwh :
  get_col "Annee_Depot" df_proj = Some annee →
  get_col "Duree_Vie" df_proj = Some duree →
  get_col "Type Opération" df_proj = Some op →
  get_col "GWh_reels_annuels" df_proj = Some gwh →
  Forall is_text op → length op = length gwh →
  breakdown year df_proj = Return entries →
  (Qsum (Economies_GWh_an <$> entries)
   == series_sum (select (zip_with (active year) annee duree) gwh))%Q
  ∧ (entries = [] ↔ select (zip_with (active year) annee duree) gwh = []).
Proof.
  intros Ha Hd Ho Hg Htext Hlen
    (annee' & duree' & op' & gwh' & Ha' & Hd' & Ho' & Hg' & ->)%breakdown_Return.
  rewrite Ha in Ha'. rewrite Hd in Hd'. rewrite Ho in Ho'. rewrite Hg in Hg'.
  injection Ha' as <-. injection Hd' as <-. injection Ho' as <-. injection Hg' as <-.
  set (mask := zip_with (active year) annee duree).
  pose proof (Forall_select _ mask _ Htext) as Htext'.
  pose proof (length_select mask _ _ Hlen) as Hlen'.
  split.
  - rewrite <- list_fmap_compose.
    assert (∀ l : list (string * Q),
              (Economies_GWh_an ∘ (λ kv, mkEntry year kv.1 kv.2)) <$> l = l.*2) as ->.
    { intros l. by apply list_fmap_ext. }
    rewrite (Qsum_values_Permutation _ _ (items_Permutation _)).
    by apply groupby_sum_total.
  - assert (∀ l : list (string * Q),
              (λ kv, mkEntry year kv.1 kv.2) <$> l = [] ↔ l = []) as ->.
    { intros l. split; [apply fmap_nil_inv | by intros ->]. }
    rewrite <- (Permutation_nil_r (items _)), items_Permutation, Permutation_nil_r.
    rewrite map_to_list_empty_iff, groupby_sum_empty by done.
    split; intros Hnil.
    + rewrite Hnil in Hlen'. simpl in Hlen'. symmetry in Hlen'.
      by apply nil_length_inv in Hlen'.
    + rewrite Hnil in Hlen'. simpl in Hlen'. by apply nil_length_inv in Hlen'.
Qed.

Lemma Type_Operation_of_text top_ops (key : list value) :
  Forall is_text (Type_Operation_of top_ops <$> key).
Proof.
  apply Forall_fmap, Forall_true. intros [q|s|t|]; simpl; try by eexists.
  unfold Type_Operation_of. case_bool_decide; by eexists.
Qed.

(** X13. In every year of the projection, from the first deposit year to the
    current year plus the horizon, the total of the year's entries (the total
    curve, and the height of the stacked one) is the real annual energy of
    the operations active in that year, whatever their grouping into top
    operations and [Autres]; and the year has no entry at all, rather than a
    zero, exactly when no operation is active in it. *)
Theorem projection_total (df_filtered : DataFrame) (current_year horizon : Z)
    (top_ops : list string) (entries : list breakdown_entry) :
  wf df_filtered →
  projection df_filtered current_year horizon = Return (Some (top_ops, entries)) →
  ∃ annee duree gwh m,
    get_col "Annee_Depot" df_filtered = Some annee
    ∧ get_col "Duree_Vie" df_filtered = Some duree
    ∧ get_col "GWh_reels_annuels" df_filtered = Some gwh
    ∧ series_min annee = Some m
    ∧ ∀ year : Z,
        (int_of m ≤ year ≤ current_year + horizon)%Z →
        (total_of_year year entries
         == series_sum (select (zip_with (active year) annee duree) gwh))%Q
        ∧ (filter (λ e, Annee e = year) entries = []
           ↔ select (zip_with (active year) annee duree) gwh = []).
Proof.
  intros Hwf. unfold projection. cbv zeta.
  destruct (get_col "Annee_Depot" df_filtered) as [annee|] eqn:Ha; [|done].
  destruct (get_col "Duree_Vie" df_filtered) as [duree|] eqn:Hd; [|done].
  destruct (dropna_empty annee duree); [done|].
  destruct (series_min annee) as [m|] eqn:Hmin; [|done].
  destruct (get_col "FacteurKey" df_filtered) as [key|] eqn:Hk; [|done].
  destruct (get_col "GWh_reels_annuels" df_filtered) as [gwh|] eqn:Hg; [|done].
  destruct (year_loop _ _ _) as [e|l] eqn:Hloop; [done|].
  intros Heq. injection Heq as <- <-.
  exists annee, duree, gwh, m. repeat (split; [done|]).
  intros year Hyear.
  apply year_loop_Return in Hloop as (per_year & Hall & ->).
  rewrite app_nil_l. unfold total_of_year.
  destruct (filter_year_visited _ _ _ year Hall (NoDup_seqZ _ _))
    as (entries & Hb & ->); [apply elem_of_seqZ; lia|].
  refine (breakdown_total year _ entries annee duree
            (Type_Operation_of (nlargest 5 (groupby_sum key gwh)) <$> key) gwh
            _ _ _ _ _ _ Hb).
  - by rewrite get_set_col_ne.
  - by rewrite get_set_col_ne.
  - apply get_set_col_eq.
  - by rewrite get_set_col_ne.
  - apply Type_Operation_of_text.
  - rewrite length_fmap, (Hwf _ _ Hk), (Hwf _ _ Hg). done.
Qed.

Lemma scenario_enriched_wf :
  wf (enriched 0.45 scenario_row_validated [VNaN] [VDate (mkTimestamp 2022 3 1)]).
Proof.
  apply (ext_wf _ _ _ (extends_enriched 0.45 scenario_row_validated _ _ eq_refl eq_refl)).
  apply scenario_row_validated_wf.
Qed.

Lemma projection_total_witness :
  ∃ top_ops entries,
    projection (enriched 0.45 scenario_row_validated [VNaN] [VDate (mkTimestamp 2022 3 1)])
      2026 10 = Return (Some (top_ops, entries))
    ∧ wf (enriched 0.45 scenario_row_validated [VNaN] [VDate (mkTimestamp 2022 3 1)])
    ∧ ∃ annee duree gwh m,
        get_col "Annee_Depot"
          (enriched 0.45 scenario_row_validated [VNaN] [VDate (mkTimestamp 2022 3 1)])
        = Some annee
        ∧ get_col "Duree_Vie"
            (enriched 0.45 scenario_row_validated [VNaN] [VDate (mkTimestamp 2022 3 1)])
          = Some duree
        ∧ get_col "GWh_reels_annuels"
            (enriched 0.45 scenario_row_validated [VNaN] [VDate (mkTimestamp 2022 3 1)])
          = Some gwh
        ∧ series_min annee = Some m
        ∧ ∀ year : Z,
            (int_of m ≤ year ≤ 2026 + 10)%Z →
            (total_of_year year entries
             == series_sum (select (zip_with (active year) annee duree) gwh))%Q
            ∧ (filter (λ e, Annee e = year) entries = []
               ↔ select (zip_with (active year) annee duree) gwh = []).
Proof.
  eexists _, _. split; [vm_compute; reflexivity|].
  split; [apply scenario_enriched_wf|].
  eapply (projection_total
            (enriched 0.45 scenario_row_validated [VNaN] [VDate (mkTimestamp 2022 3 1)])
            2026 10).
  - apply scenario_enriched_wf.
  - vm_compute; reflexivity.
Defined.

(** * The indicators (app.py, lines 275-280 and 313) *)

(** The count and the five sums shown on the tiles and in the first tab. *)
Record indicators := mkIndicators {
  total_dossiers : nat;
  total_gwh_reels : Q;
  total_foyers : Q;
  total_primes : Q;
  total_couts_evites : Q;
  total_co2_evite : Q
}.

Definition kpis (df_filtered : DataFrame) : result indicators :=
  col! gwh := "GWh_reels_annuels" of df_filtered in
  col! foyers := "Nb_foyers_equivalents" of df_filtered in
  col! primes := "Prime_versee" of df_filtered in
  col! euros := "Economies_euros_an" of df_filtered in
  col! co2 := "CO2_evite_tonnes_an" of df_filtered in
  Return (mkIndicators (nrows df_filtered) (series_sum gwh) (series_sum foyers)
            (series_sum primes) (series_sum euros) (series_sum co2)).

Lemma select_fmap {A B} (f : A → B) (mask : list bool) (l : list A) :
  select mask (f <$> l) = f <$> select mask l.
Proof.
  revert l. induction mask as [|b mask IH]; intros [|x l]; simpl; try done.
  destruct b; simpl; by rewrite IH.
Qed.

Lemma series_sum_mul (k : Q) (s : list value) :
  (series_sum (vmul_scalar k <$> s) == series_sum s * k)%Q.
Proof.
  induction s as [|v s IH].
  - rewrite fmap_nil, series_sum_nil. ring.
  - rewrite fmap_cons, !series_sum_cons, IH.
    destruct v as [q|x|t|]; unfold vmul_scalar, lift2;
      cbn [as_num default from_option id]; ring.
Qed.

Lemma series_sum_div (k : Q) (s : list value) :
  (series_sum (vdiv_scalar k <$> s) == series_sum s / k)%Q.
Proof.
  induction s as [|v s IH].
  - rewrite fmap_nil, series_sum_nil. unfold Qdiv. ring.
  - rewrite fmap_cons, !series_sum_cons, IH.
    destruct v as [q|x|t|]; unfold vdiv_scalar, lift2;
      cbn [as_num default from_option id]; unfold Qdiv; ring.
Qed.

(** The indicators of a selection of rows of a table whose metric columns
    are multiples of one column of real annual energy. *)
Lemma kpis_filtered mask df1 (kWh prime : list value) :
  get_col "GWh_reels_annuels" df1 = Some (vdiv_scalar 1000000 <$> kWh) →
  get_col "Nb_foyers_equivalents" df1
  = Some (vdiv_scalar CONSO_MOYENNE_FOYER_KWH <$> kWh) →
  get_col "Prime_versee" df1 = Some prime →
  get_col "Economies_euros_an" df1 = Some (vmul_scalar COUT_CHAUFFAGE_KWH <$> kWh) →
  get_col "CO2_evite_tonnes_an" df1
  = Some ((λ e, vdiv_scalar 1000 (vmul_scalar EMISSION_CO2_KWH e)) <$> kWh) →
  ∃ k,
    kpis (filter_rows mask df1) = Return k
    ∧ total_dossiers k = length (select mask (index df1))
    ∧ (total_gwh_reels k == series_sum (select mask kWh) / 1000000)%Q
    ∧ (total_foyers k == total_gwh_reels k * 1000000 / CONSO_MOYENNE_FOYER_KWH)%Q
    ∧ (total_couts_evites k == total_gwh_reels k * 1000000 * COUT_CHAUFFAGE_KWH)%Q
    ∧ (total_co2_evite k == total_gwh_reels k * 1000000 * EMISSION_CO2_KWH / 1000)%Q.
Proof.
  intros Hg Hf Hp He Hc. unfold kpis.
  rewrite !get_filter_rows, Hg, Hf, Hp, He, Hc. cbn [fmap option_fmap option_map].
  eexists. split; [reflexivity|]. cbn [total_dossiers total_gwh_reels total_foyers
    total_couts_evites total_co2_evite].
  split; [done|].
  rewrite !select_fmap.
  rewrite (list_fmap_compose (vmul_scalar EMISSION_CO2_KWH) (vdiv_scalar 1000)).
  rewrite !series_sum_div, !series_sum_mul.
  set (S := series_sum (select mask kWh)).
  unfold CONSO_MOYENNE_FOYER_KWH, COUT_CHAUFFAGE_KWH, EMISSION_CO2_KWH.
  split; [reflexivity|]. split; [field|]. split; [field|field].
Qed.

Section Indicators.
Context `{Coercions}.

(** X14. Whatever the filters, the indicators of the filtered table exist and
    agree with one another: the number of records is at most the number of
    uploaded rows, and the household, avoided-cost and avoided-CO2 totals are
    the total real annual energy (in kWh) divided by the consumption of a
    household, multiplied by the price of a kWh, and multiplied by the
    emission factor over 1000. *)
Theorem kpis_consistent pf mf af tf taux df df1 :
  wf df →
  load_and_process_data df taux = Some df1 →
  ∃ df2 k,
    apply_filters pf mf af tf df1 = Return df2
    ∧ kpis df2 = Return k
    ∧ (total_dossiers k ≤ nrows df)%nat
    ∧ (total_foyers k == total_gwh_reels k * 1000000 / CONSO_MOYENNE_FOYER_KWH)%Q
    ∧ (total_couts_evites k == total_gwh_reels k * 1000000 * COUT_CHAUFFAGE_KWH)%Q
    ∧ (total_co2_evite k == total_gwh_reels k * 1000000 * EMISSION_CO2_KWH / 1000)%Q.
Proof.
  intros Hwf Hload.
  destruct (load_and_process_data_inv _ _ _ Hload) as (vd & dd & Hvd & Hdd & ->).
  pose proof (extends_enriched taux df vd dd Hvd Hdd) as E.
  pose proof (apply_filters_mask pf mf af tf _ _ _ _ _ (ext_wf _ _ _ E Hwf)
                (get_enriched_Periode taux df vd dd) (get_enriched_Mandataire taux df vd dd)
                (get_enriched_Annee_Depot taux df vd dd)
                (get_enriched_Type_Beneficiaire taux df vd dd)) as Hfilters.
  eexists.
  destruct (kpis_filtered
              (filter_mask pf mf af tf (nrows (enriched taux df vd dd))
                 (periode_column df) (mandataire_column df)
                 (dt_year <$> (to_datetime <$> dd))
                 (zip_with select_beneficiaire
                    (gt0 <$> numeric_column (get_col "Total précarité" df) (nrows df))
                    (zip_with orb (ne_str "" <$> (siren <$> siren_input siren_col_8 df))
                       (ne_str "" <$> (siren <$> siren_input siren_col_9 df)))))
              _ _ _
              (get_enriched_GWh_reels_annuels taux df vd dd)
              (get_enriched_foyers taux df vd dd)
              (get_enriched_Prime_versee taux df vd dd)
              (get_enriched_euros taux df vd dd)
              (get_enriched_CO2 taux df vd dd))
    as (k & Hk & Hn & _ & Hfoyers & Hcouts & Hco2).
  exists k. split; [exact Hfilters|]. split; [exact Hk|].
  split; [|done].
  rewrite Hn, (ext_index _ _ _ E). unfold nrows.
  apply sublist_length, select_sublist.
Qed.

End Indicators.

Lemma kpis_consistent_witness :
  ∃ df1,
    load_and_process_data scenario_row_validated 0.45 = Some df1
    ∧ wf scenario_row_validated
    ∧ ∃ df2 k,
        apply_filters ["P5"] [] [2022%Z] [] df1 = Return df2
        ∧ kpis df2 = Return k
        ∧ (total_dossiers k ≤ nrows scenario_row_validated)%nat
        ∧ (total_foyers k == total_gwh_reels k * 1000000 / CONSO_MOYENNE_FOYER_KWH)%Q
        ∧ (total_couts_evites k == total_gwh_reels k * 1000000 * COUT_CHAUFFAGE_KWH)%Q
        ∧ (total_co2_evite k
           == total_gwh_reels k * 1000000 * EMISSION_CO2_KWH / 1000)%Q.
Proof.
  exists (enriched 0.45 scenario_row_validated [VNaN] [VDate (mkTimestamp 2022 3 1)]).
  split; [by apply load_and_process_data_Some|].
  split; [apply scenario_row_validated_wf|].
  apply (kpis_consistent ["P5"] [] [2022%Z] [] 0.45 scenario_row_validated).
  - apply scenario_row_validated_wf.
  - by apply load_and_process_data_Some.
Defined.

(** * The beneficiary tab (app.py, lines 372-393) *)

(** [s.value_counts().get(label, 0)] *)
Definition eq_label (label : string) (v : value) : bool :=
  match v with VStr s => bool_decide (s = label) | _ => false end.

Definition value_count (label : string) (s : list value) : nat :=
  length (filter (λ v, eq_label label v = true) s).

Record social := mkSocial {
  benef_volume : gmap string Q;
  menages_precarite : nat;
  menages_classiques : nat;
  personnes_morales : nat;
  sector_volume : gmap string Q
}.

Definition impact_social (df_filtered : DataFrame) : result social :=
  col! secteur := "Secteur" of df_filtered in
  col! benef := "Type_Beneficiaire" of df_filtered in
  col! gwhc := "GWh_cumac" of df_filtered in
  let secteur := fillna (VStr "Autre") <$> secteur in
  let benef := fillna (VStr "Non renseigné") <$> benef in
  Return (mkSocial (groupby_sum benef gwhc)
            (value_count "Précarité énergétique" benef)
            (value_count "Ménage Classique" benef)
            (value_count "Personne Morale" benef)
            (groupby_sum secteur gwhc)).

Definition BENEFICIAIRE_LABELS : list string :=
  ["Précarité énergétique"; "Personne Morale"; "Ménage Classique"].

Definition labelled (labels : list string) (v : value) : Prop :=
  ∃ l, v = VStr l ∧ l ∈ labels.

Lemma labelled_text labels s : Forall (labelled labels) s → Forall is_text s.
Proof. intros Hs. eapply Forall_impl; [done|]. intros v (l & -> & _). by exists l. Qed.

Lemma fillna_text d s : Forall is_text s → fillna d <$> s = s.
Proof.
  induction 1 as [|v s [l ->] _ IH]; [done|]. by rewrite fmap_cons, IH.
Qed.

(** The three tiles count every row once. *)
Lemma value_count_partition s :
  Forall (labelled BENEFICIAIRE_LABELS) s →
  (value_count "Précarité énergétique" s + value_count "Ménage Classique" s
   + value_count "Personne Morale" s = length s)%nat.
Proof.
  unfold value_count.
  induction 1 as [|v s (l & -> & Hl) _ IH]; [done|].
  rewrite !filter_cons. cbn [length]. rewrite <- IH.
  unfold BENEFICIAIRE_LABELS in Hl.
  repeat (apply elem_of_cons in Hl as [->|Hl]); [..|by apply elem_of_nil in Hl];
    repeat case_decide;
    repeat match goal with
           | E : eq_label _ _ = true |- _ => vm_compute in E; try discriminate E; clear E
           | E : ¬ (eq_label _ _ = true) |- _ =>
               vm_compute in E; try (by destruct E); clear E
           end;
    cbn [length]; lia.
Qed.

Lemma select_beneficiaire_labelled a b :
  Forall (labelled BENEFICIAIRE_LABELS) (zip_with select_beneficiaire a b).
Proof.
  revert b. induction a as [|x a IH]; intros [|y b]; simpl; try constructor; [|apply IH].
  destruct x, y; simpl; eexists; (split; [done|]);
    apply (bool_decide_unpack _); by vm_compute.
Qed.

(** The tab on a selection of rows of a table whose two label columns hold
    known labels. *)
Lemma impact_social_filtered mask df1 secteur benef gwhc :
  wf df1 →
  get_col "Secteur" df1 = Some secteur →
  get_col "Type_Beneficiaire" df1 = Some benef →
  get_col "GWh_cumac" df1 = Some gwhc →
  Forall (labelled SECTEUR_LABELS) secteur →
  Forall (labelled BENEFICIAIRE_LABELS) benef →
  ∃ t,
    impact_social (filter_rows mask df1) = Return t
    ∧ (menages_precarite t + menages_classiques t + personnes_morales t
       = nrows (filter_rows mask df1))%nat
    ∧ (∀ l, is_Some (benef_volume t !! l) → l ∈ BENEFICIAIRE_LABELS)
    ∧ (∀ l, is_Some (sector_volume t !! l) → l ∈ SECTEUR_LABELS)
    ∧ (Qsum (map_to_list (benef_volume t)).*2 == series_sum (select mask gwhc))%Q
    ∧ (Qsum (map_to_list (sector_volume t)).*2 == series_sum (select mask gwhc))%Q.
Proof.
  intros Hwf Hs Hb Hg Hsl Hbl. unfold impact_social.
  rewrite !get_filter_rows, Hs, Hb, Hg. cbn [fmap option_fmap option_map]. cbv zeta.
  pose proof (Forall_select _ mask _ Hsl) as Hsl'.
  pose proof (Forall_select _ mask _ Hbl) as Hbl'.
  rewrite (fillna_text _ (select mask secteur)) by by eapply labelled_text.
  rewrite (fillna_text _ (select mask benef)) by by eapply labelled_text.
  eexists. split; [reflexivity|].
  cbn [menages_precarite menages_classiques personnes_morales benef_volume sector_volume].
  assert (length (select mask benef) = length (select mask gwhc)) as Lb.
  { apply length_select. by rewrite (Hwf _ _ Hb), (Hwf _ _ Hg). }
  assert (length (select mask secteur) = length (select mask gwhc)) as Ls.
  { apply length_select. by rewrite (Hwf _ _ Hs), (Hwf _ _ Hg). }
  split.
  { rewrite value_count_partition by done. unfold nrows. rewrite index_filter_rows.
    apply length_select. exact (Hwf _ _ Hb). }
  split.
  { intros l Hl%groupby_sum_keys. eapply Forall_forall in Hbl'; [|done].
    destruct Hbl' as (l' & [= <-] & Hin). done. }
  split.
  { intros l Hl%groupby_sum_keys. eapply Forall_forall in Hsl'; [|done].
    destruct Hsl' as (l' & [= <-] & Hin). done. }
  split; apply groupby_sum_total; try done; by eapply labelled_text.
Qed.

Section Social.
Context `{Coercions}.

Lemma sector_column_labelled o n : Forall (labelled SECTEUR_LABELS) (sector_column o n).
Proof.
  destruct o as [s|]; simpl.
  - rewrite <- !list_fmap_compose. apply Forall_fmap, Forall_true. intros v.
    destruct (Secteur_value (CodeEquip_prefix (equipment_code v))) as (l & Hl & Hin).
    by exists l.
  - apply Forall_replicate. exists "Autre". split; [done|].
    apply (bool_decide_unpack _). by vm_compute.
Qed.

(** X15. Whatever the filters, the beneficiary tab computes: its three tiles count
    every remaining row once, the slices of its two pies bear only the three
    beneficiary types and the six sectors, and the slices of each pie add up
    to the cumac volume of the remaining rows. *)
Theorem impact_social_partition pf mf af tf taux df df1 :
  wf df →
  load_and_process_data df taux = Some df1 →
  ∃ df2 t gwhc,
    apply_filters pf mf af tf df1 = Return df2
    ∧ impact_social df2 = Return t
    ∧ get_col "GWh_cumac" df2 = Some gwhc
    ∧ (menages_precarite t + menages_classiques t + personnes_morales t
       = nrows df2)%nat
    ∧ (∀ l, is_Some (benef_volume t !! l) → l ∈ BENEFICIAIRE_LABELS)
    ∧ (∀ l, is_Some (sector_volume t !! l) → l ∈ SECTEUR_LABELS)
    ∧ (Qsum (map_to_list (benef_volume t)).*2 == series_sum gwhc)%Q
    ∧ (Qsum (map_to_list (sector_volume t)).*2 == series_sum gwhc)%Q.
Proof.
  intros Hwf Hload.
  destruct (load_and_process_data_inv _ _ _ Hload) as (vd & dd & Hvd & Hdd & ->).
  pose proof (extends_enriched taux df vd dd Hvd Hdd) as E.
  pose proof (apply_filters_mask pf mf af tf _ _ _ _ _ (ext_wf _ _ _ E Hwf)
                (get_enriched_Periode taux df vd dd) (get_enriched_Mandataire taux df vd dd)
                (get_enriched_Annee_Depot taux df vd dd)
                (get_enriched_Type_Beneficiaire taux df vd dd)) as Hfilters.
  eexists.
  destruct (impact_social_filtered
              (filter_mask pf mf af tf (nrows (enriched taux df vd dd))
                 (periode_column df) (mandataire_column df)
                 (dt_year <$> (to_datetime <$> dd))
                 (zip_with select_beneficiaire
                    (gt0 <$> numeric_column (get_col "Total précarité" df) (nrows df))
                    (zip_with orb (ne_str "" <$> (siren <$> siren_input siren_col_8 df))
                       (ne_str "" <$> (siren <$> siren_input siren_col_9 df)))))
              _ _ _ _ (ext_wf _ _ _ E Hwf)
              (get_enriched_Secteur taux df vd dd)
              (get_enriched_Type_Beneficiaire taux df vd dd)
              (get_enriched_GWh_cumac taux df vd dd)
              (sector_column_labelled _ _)
              (select_beneficiaire_labelled _ _))
    as (t & Ht & Hcount & Hbl & Hsl & Hbv & Hsv).
  exists t. eexists.
  split; [exact Hfilters|]. split; [exact Ht|].
  split; [by rewrite get_filter_rows, get_enriched_GWh_cumac|].
  done.
Qed.

End Social.

Lemma impact_social_partition_witness :
  ∃ df1,
    load_and_process_data scenario_row_validated 0.45 = Some df1
    ∧ wf scenario_row_validated
    ∧ ∃ df2 t gwhc,
        apply_filters ["P5"] [] [2022%Z] [] df1 = Return df2
        ∧ impact_social df2 = Return t
        ∧ get_col "GWh_cumac" df2 = Some gwhc
        ∧ (menages_precarite t + menages_classiques t + personnes_morales t
           = nrows df2)%nat
        ∧ (∀ l, is_Some (benef_volume t !! l) → l ∈ BENEFICIAIRE_LABELS)
        ∧ (∀ l, is_Some (sector_volume t !! l) → l ∈ SECTEUR_LABELS)
        ∧ (Qsum (map_to_list (benef_volume t)).*2 == series_sum gwhc)%Q
        ∧ (Qsum (map_to_list (sector_volume t)).*2 == series_sum gwhc)%Q.
Proof.
  exists (enriched 0.45 scenario_row_validated [VNaN] [VDate (mkTimestamp 2022 3 1)]).
  split; [by apply load_and_process_data_Some|].
  split; [apply scenario_row_validated_wf|].
  apply (impact_social_partition ["P5"] [] [2022%Z] [] 0.45 scenario_row_validated).
  - apply scenario_row_validated_wf.
  - by apply load_and_process_data_Some.
Defined.
